(** * The operating-system plugin: supervisor core

    A shallow embedding of the main-process plugin (the factory
    [plugin(context)]): session and process telemetry handlers, usage
    tracking, quota evaluation against the Allow2 client, shutdown
    scheduling, logout enforcement, bedtime checks and the link/unlink
    IPC handlers, followed by the properties of the design document that
    are stated about them.

    Conventions of the embedding.
    - JS objects used as dictionaries ([state.agents], [state.children],
      the two [Map]s [shutdownTimers] and [usageTracking]) are finite maps
      keyed by strings.
    - Wall-clock time is an integer number of milliseconds ([Date.now()]);
      the clock is part of the world and is read, never advanced, by a
      handler: all [Date.now()] calls of one handler run see the same value.
    - [usage.totalSeconds] and the "minutes remaining" quantities are JS
      numbers obtained by dividing integers; they are kept as exact
      rationals.
    - [setTimeout] closures are first-order tasks held in a table of pending
      timers; [clearTimeout] removes a timer from the table, firing a timer
      removes it and runs its task. A timer is due [delay] ms after it was
      armed.
    - [agentService.triggerAction], [context.sendToRenderer] and
      [configurationUpdate] are observable outputs, collected in order. The
      handlers take every dispatch to be resolved by the agent service;
      [handleProcessDataAwait] is [handleProcessData] without this
      assumption.
    - One handler run is atomic (the cooperative per-agent model).

    The second part of the development covers the rest of the plugin (the
    other IPC handlers, the listeners, deployment and the lifecycle
    functions), the two monitor scripts and the action scripts.
    - The agent service is seen through its answers: the result of
      [listAgents] and, for every other call, whether it resolves.
    - The monitor scripts are functions of what their platform probes
      return; the action scripts are functions of the outcome of the
      commands they run with [execSync]. A command started with [exec] is
      not waited for and cannot make the script fail.
    - Strings are sequences of 8-bit characters; [toLowerCase] acts on the
      ASCII letters. *)

From Stdlib Require Import ZArith QArith Qround String List Bool Lia.
From stdpp Require Import gmap strings list fin_maps pretty.

Local Open Scope string_scope.
Local Open Scope Z_scope.

(** ** Telemetry payloads *)

Inductive ActivityType := computer | internet.

Definition activityName (ty : ActivityType) : string :=
  match ty with computer => "computer" | internet => "internet" end.

Inductive Urgency := normal | critical.

Record SessionData := {
  username : string;
  isIdle : bool;
  idleTime : Z
}.

Record ProcessInfo := {
  proc_pid : Z;
  proc_name : string
}.

(** An absent [browsers] or [processes] field reads as the empty list: the
    code only tests [data.browsers?.length > 0] and iterates
    [data.processes || []]. *)
Record ProcessData := {
  browsers : list ProcessInfo;
  processes : list ProcessInfo
}.

(** [updateUsageTracking] receives either payload as [data]. *)
Inductive UsageData :=
| OfSession (d : SessionData)
| OfProcess (d : ProcessData).

(** ** Persistent plugin state *)

Record Agent := {
  hostname : option string;
  enabled : bool;
  childId : option string;
  lastSeen : option Z;
  currentSession : option SessionData;
  currentProcessData : option ProcessData
}.

Record BedtimeRule := {
  bt_enabled : bool;
  bt_time : Z * Z;            (* rules.time.split(':').map(Number) *)
  bt_days : list string
}.

(** Of the per-child settings only the fields read by the handlers below
    are kept. *)
Record ChildConfig := {
  blockedProcesses : list string;
  bedtime : option BedtimeRule
}.

Record Settings := {
  pauseOnIdle : bool;
  idleThreshold : Z;
  warningTimes : list Z;
  gracePeriod : Z;
  monitorInterval : Z;
  killOnViolation : bool;
  notifyParent : bool
}.

Record Violation := {
  v_type : string;
  v_agentId : string;
  v_hostname : option string;
  v_processName : option string;
  v_reason : option string;
  v_timestamp : Z
}.

Record ActivityEntry := {
  act_type : string;
  act_message : string;
  act_agentId : string;
  act_timestamp : Z
}.

Record PluginState := {
  agents : gmap string Agent;
  userMappings : gmap string (gmap string string);
  parentAccounts : gmap string (list string);
  children : gmap string ChildConfig;
  settings : Settings;
  violations : list Violation;
  activityLog : list ActivityEntry
}.

Definition defaultSettings : Settings :=
  {| pauseOnIdle := true;
     idleThreshold := 300000;
     warningTimes := [15; 5; 1];
     gracePeriod := 60;
     monitorInterval := 30000;
     killOnViolation := true;
     notifyParent := true |}.

(** ** Volatile plugin data: usage cells and timers *)

Record Tracking := {
  startTime : Z;
  lastUpdate : Z;
  totalSeconds : Q
}.

(** The three closures handed to [setTimeout]. The closure of
    [enforceLogout] captures the agent object it read from [state.agents]
    and reads [currentSession] from that object when it fires. As long as the
    object is the one in [state.agents] this is a lookup in the state
    ([LogoutTask]); once [state.agents[agentId]] has been given a new object
    ([deployToAgent], [onLoad]) the captured one is out of reach of every
    handler and what the closure will read is fixed ([OrphanLogoutTask]). *)
Inductive TimerTask :=
| WarningTask (agentId : string) (warningMinutes : Z)
    (* scheduleShutdown: () => showTimeWarning(agentId, 'computer', warningMinutes) *)
| ShutdownTask (agentId childId : string)
    (* scheduleShutdown: enforceLogout(agentId, childId, 'Computer time exhausted') *)
| LogoutTask (agentId : string) (reason : string)
    (* enforceLogout: triggerAction(agentId, logout-user, ...) after the grace period *)
| OrphanLogoutTask (agentId : string) (user : option string) (reason : string).
    (* the same closure, its agent object replaced in state.agents *)

Record Timer := {
  t_id : nat;
  t_due : Z;
  t_task : TimerTask
}.

Record World := {
  state : PluginState;
  usageTracking : gmap string Tracking;
  shutdownTimers : gmap string nat;
  timers : list Timer;          (* armed, neither fired nor cleared *)
  nextTimer : nat;
  clock : Z
}.

(** ** The plugin context *)

Record Verdict := {
  allowed : bool;
  is_banned : bool;
  is_activity_blocked : bool;
  remaining_seconds : Z
}.

Inductive OracleResult :=
| Throws
| NoResult                      (* a null or undefined response *)
| Returns (v : Verdict).

Record Context := {
  sendToRenderer : bool;        (* is context.sendToRenderer present *)
  allow2Client : option (string -> ActivityType -> string -> OracleResult);
                                (* checkActivity by child_id, activity_type, device_id *)
  tzOffset : Z                  (* local time = UTC + tzOffset, in ms *)
}.

(** ** Observable outputs *)

Inductive ActionArgs :=
| KillArgs (pid : Z) (processName reason : string)
| WarningArgs (title message : string) (urgency : Urgency)
| LogoutArgs (user : option string) (reason : string)
| NoArgs.

Inductive RendererPayload :=
| SessionUpdate (agentId : string) (session : SessionData)
| QuotaWarning (agentId : string) (ty : ActivityType) (remaining : Q)
| QuotaExhausted (agentId : string) (host : option string) (ty : ActivityType)
    (reason : string)
| BedtimeWarning (agentId : string) (minutes : Z)
| BlockedProcessDetected (agentId : string) (host : option string) (processName : string)
| ViolationLogged (v : Violation).

Inductive Output :=
| TriggerAction (agentId actionId : string) (args : ActionArgs)
| ToRenderer (channel : string) (payload : RendererPayload)
| ConfigurationUpdate.

(** ** Handler monad: state passing over [World] with an output log *)

Definition M (A : Type) : Type := World -> A * World * list Output.

Definition ret {A} (a : A) : M A := fun w => (a, w, []).

Definition bind {A B} (m : M A) (k : A -> M B) : M B :=
  fun w =>
    let '(a, w1, o1) := m w in
    let '(b, w2, o2) := k a w1 in
    (b, w2, (o1 ++ o2)%list).

Notation "'let*' x := m 'in' k" := (bind m (fun x => k))
  (at level 10, x name, m at level 100, k at level 200).
Notation "m >> k" := (bind m (fun _ => k))
  (at level 100, k at level 200, right associativity).

Definition getW : M World := fun w => (w, w, []).
Definition emit (o : Output) : M unit := fun w => (tt, w, [o]).
Definition skip : M unit := ret tt.

Definition when (b : bool) (m : M unit) : M unit := if b then m else skip.

Fixpoint forEach {A} (l : list A) (body : A -> M unit) : M unit :=
  match l with
  | [] => skip
  | x :: l' => body x >> forEach l' body
  end.

Definition exec {A} (m : M A) (w : World) : World := snd (fst (m w)).
Definition outputs {A} (m : M A) (w : World) : list Output := snd (m w).

Definition modifyState (f : PluginState -> PluginState) : M unit :=
  fun w => (tt, {| state := f (state w); usageTracking := usageTracking w;
                   shutdownTimers := shutdownTimers w; timers := timers w;
                   nextTimer := nextTimer w; clock := clock w |}, []).

Definition modifyUsage (f : gmap string Tracking -> gmap string Tracking) : M unit :=
  fun w => (tt, {| state := state w; usageTracking := f (usageTracking w);
                   shutdownTimers := shutdownTimers w; timers := timers w;
                   nextTimer := nextTimer w; clock := clock w |}, []).

Definition modifyShutdownTimers (f : gmap string nat -> gmap string nat) : M unit :=
  fun w => (tt, {| state := state w; usageTracking := usageTracking w;
                   shutdownTimers := f (shutdownTimers w); timers := timers w;
                   nextTimer := nextTimer w; clock := clock w |}, []).

(** [setTimeout(task, delay)]: arms a timer and returns its handle. *)
Definition setTimeout (task : TimerTask) (delay : Z) : M nat :=
  fun w =>
    let id := nextTimer w in
    (id, {| state := state w; usageTracking := usageTracking w;
            shutdownTimers := shutdownTimers w;
            timers := (timers w ++ [{| t_id := id; t_due := clock w + delay;
                                       t_task := task |}])%list;
            nextTimer := S id; clock := clock w |}, []).

(** [clearTimeout(handle)]: no effect on a timer that fired or was cleared. *)
Definition clearTimeout (id : nat) : M unit :=
  fun w => (tt, {| state := state w; usageTracking := usageTracking w;
                   shutdownTimers := shutdownTimers w;
                   timers := List.filter (fun t => negb (Nat.eqb (t_id t) id)) (timers w);
                   nextTimer := nextTimer w; clock := clock w |}, []).

(** ** Record updates of the persistent state *)

Definition setAgents (f : gmap string Agent -> gmap string Agent) (s : PluginState)
  : PluginState :=
  {| agents := f (agents s); userMappings := userMappings s;
     parentAccounts := parentAccounts s; children := children s;
     settings := settings s; violations := violations s;
     activityLog := activityLog s |}.

Definition setViolations (f : list Violation -> list Violation) (s : PluginState)
  : PluginState :=
  {| agents := agents s; userMappings := userMappings s;
     parentAccounts := parentAccounts s; children := children s;
     settings := settings s; violations := f (violations s);
     activityLog := activityLog s |}.

Definition setActivityLog (f : list ActivityEntry -> list ActivityEntry)
  (s : PluginState) : PluginState :=
  {| agents := agents s; userMappings := userMappings s;
     parentAccounts := parentAccounts s; children := children s;
     settings := settings s; violations := violations s;
     activityLog := f (activityLog s) |}.

Definition setSettings (f : Settings -> Settings) (s : PluginState) : PluginState :=
  {| agents := agents s; userMappings := userMappings s;
     parentAccounts := parentAccounts s; children := children s;
     settings := f (settings s); violations := violations s;
     activityLog := activityLog s |}.

(** ** JS primitives used by the handlers *)

(** A string is truthy unless it is empty; [null]/[undefined] are falsy. *)
Definition truthy (o : option string) : option string :=
  match o with
  | Some EmptyString => None
  | _ => o
  end.

(** [String.prototype.toLowerCase] on the ASCII letters. *)
Definition lowerAscii (c : Ascii.ascii) : Ascii.ascii :=
  let n := Ascii.nat_of_ascii c in
  if (Nat.leb 65 n && Nat.leb n 90)%bool then Ascii.ascii_of_nat (n + 32) else c.

Fixpoint toLowerCase (s : string) : string :=
  match s with
  | EmptyString => EmptyString
  | String c s' => String (lowerAscii c) (toLowerCase s')
  end.

(** [s.startsWith(p)] *)
Fixpoint startsWith (s p : string) {struct p} : bool :=
  match p with
  | EmptyString => true
  | String a p' =>
      match s with
      | EmptyString => false
      | String b s' => (Ascii.eqb a b && startsWith s' p')%bool
      end
  end.

(** [s.includes(sub)] *)
Fixpoint includes (s sub : string) : bool :=
  match s with
  | EmptyString => startsWith EmptyString sub
  | String _ s' => (startsWith s sub || includes s' sub)%bool
  end.

(** [array.includes(x)] on an array of strings *)
Definition arrayIncludes (l : list string) (x : string) : bool :=
  existsb (String.eqb x) l.

(** [array.slice(0, n)] when the array is longer than [n] *)
Definition capAt {A} (n : nat) (l : list A) : list A :=
  if Nat.ltb n (length l) then firstn n l else l.

(** [Math.round] (halves go up) and [Math.ceil] *)
Definition mathRound (q : Q) : Z := Qfloor (q + (1 # 2)).
Definition mathCeil (q : Q) : Z := Qceiling q.

Definition dayNames : list string :=
  ["sun"; "mon"; "tue"; "wed"; "thu"; "fri"; "sat"].

Definition msPerDay : Z := 86400000.

(** [new Date(t).getDay()] in local time; 1 January 1970 was a Thursday. *)
Definition getDay (localMs : Z) : Z := (localMs / msPerDay + 4) mod 7.

(** Local milliseconds of [d.setHours(hour, minute, 0, 0)] for the day of
    [localMs]. *)
Definition setHours (localMs hour minute : Z) : Z :=
  (localMs / msPerDay) * msPerDay + hour * 3600000 + minute * 60000.

Definition usageDataBrowsersActive (data : UsageData) : bool :=
  match data with
  | OfProcess d => negb (Nat.eqb (length (browsers d)) 0)
  | OfSession _ => false
  end.

Definition usageDataIsIdle (data : UsageData) : bool :=
  match data with
  | OfSession d => isIdle d
  | OfProcess _ => false
  end.

Definition agentSeen (now : Z) (data : SessionData) (a : Agent) : Agent :=
  {| hostname := hostname a; enabled := enabled a; childId := childId a;
     lastSeen := Some now; currentSession := Some data;
     currentProcessData := currentProcessData a |}.

Definition agentBind (c : option string) (en : bool) (a : Agent) : Agent :=
  {| hostname := hostname a; enabled := en; childId := c;
     lastSeen := lastSeen a; currentSession := currentSession a;
     currentProcessData := currentProcessData a |}.

Definition agentSetChild (c : option string) (a : Agent) : Agent :=
  agentBind c (enabled a) a.

(** The object [{ id: agentId }] created by the IPC handlers. *)
Definition bareAgent : Agent :=
  {| hostname := None; enabled := false; childId := None; lastSeen := None;
     currentSession := None; currentProcessData := None |}.

Definition agentBrowsers (a : Agent) : list ProcessInfo :=
  match currentProcessData a with
  | Some d => browsers d
  | None => []
  end.

Definition usageKey (agentId child : string) (ty : ActivityType) : string :=
  agentId ++ ":" ++ child ++ ":" ++ activityName ty.

(** ** The plugin *)

Section Plugin.

Variable ctx : Context.

Definition triggerAction (agentId actionId : string) (args : ActionArgs) : M unit :=
  emit (TriggerAction agentId actionId args).

Definition toRenderer (channel : string) (p : RendererPayload) : M unit :=
  when (sendToRenderer ctx) (emit (ToRenderer channel p)).

Definition configurationUpdate : M unit := emit ConfigurationUpdate.

Definition logActivity (a : ActivityEntry) : M unit :=
  modifyState (setActivityLog (fun log => capAt 500 (a :: log))).

Definition violationMessage (v : Violation) : string :=
  v_type v ++ ": " ++
  match truthy (v_reason v) with
  | Some r => r
  | None => match truthy (v_processName v) with
            | Some p => p
            | None => ""
            end
  end.

Definition logViolation (v : Violation) : M unit :=
  modifyState (setViolations (fun vs => capAt 200 (v :: vs))) >>
  logActivity {| act_type := v_type v; act_message := violationMessage v;
                 act_agentId := v_agentId v; act_timestamp := v_timestamp v |} >>
  let* w := getW in
  when (notifyParent (settings (state w)))
       (toRenderer "osViolation" (ViolationLogged v)) >>
  configurationUpdate.

(** *** Usage tracking *)

Definition elapsedSeconds (now : Z) (t : Tracking) : Q :=
  (now - lastUpdate t) # 1000.

Definition countsUsage (pause : bool) (ty : ActivityType) (data : UsageData) : bool :=
  match ty with
  | internet => usageDataBrowsersActive data
  | computer =>
      (negb (usageDataIsIdle data) || (usageDataIsIdle data && negb pause))%bool
  end.

Definition advanceTracking (pause : bool) (ty : ActivityType) (data : UsageData)
  (now : Z) (t : Tracking) : Tracking :=
  let elapsed := elapsedSeconds now t in
  {| startTime := startTime t;
     lastUpdate := now;
     totalSeconds := if countsUsage pause ty data
                     then (totalSeconds t + elapsed)%Q
                     else totalSeconds t |}.

Definition updateUsageTracking (agentId child : string) (ty : ActivityType)
  (data : UsageData) : M unit :=
  let* w := getW in
  let key := usageKey agentId child ty in
  let now := clock w in
  let tracking :=
    match usageTracking w !! key with
    | Some t => t
    | None => {| startTime := now; lastUpdate := now; totalSeconds := 0 |}
    end in
  modifyUsage (fun m =>
    <[key := advanceTracking (pauseOnIdle (settings (state w))) ty data now tracking]> m).

(** *** Warnings and logout *)

Definition timeWarningArgs (ty : ActivityType) (minutesRemaining : Q) : ActionArgs :=
  WarningArgs
    (pretty (mathRound minutesRemaining) ++ " minutes remaining")
    ("You have " ++ pretty (mathRound minutesRemaining) ++ " minutes of "
       ++ activityName ty ++ " time left.")
    (if Qle_bool minutesRemaining 5 then critical else normal).

Definition showTimeWarning (agentId : string) (ty : ActivityType)
  (minutesRemaining : Q) : M unit :=
  let* w := getW in
  match agents (state w) !! agentId with
  | None => skip
  | Some _ =>
      triggerAction agentId "show-warning" (timeWarningArgs ty minutesRemaining) >>
      toRenderer "osQuotaWarning" (QuotaWarning agentId ty minutesRemaining)
  end.

Definition finalWarningArgs (grace : Z) : ActionArgs :=
  WarningArgs "Time is up!"
    ("Logging out in " ++ pretty grace ++ " seconds. Please save your work.")
    critical.

Definition enforceLogout (agentId : string) (child : option string)
  (reason : string) : M unit :=
  let* w := getW in
  match agents (state w) !! agentId with
  | None => skip
  | Some agent =>
      let grace := gracePeriod (settings (state w)) in
      triggerAction agentId "show-warning" (finalWarningArgs grace) >>
      let* _ := setTimeout (LogoutTask agentId reason) (grace * 1000) in
      logViolation {| v_type := "quota_exhausted"; v_agentId := agentId;
                      v_hostname := hostname agent; v_processName := None;
                      v_reason := Some reason; v_timestamp := clock w |} >>
      toRenderer "osQuotaExhausted"
        (QuotaExhausted agentId (hostname agent) computer reason)
  end.

Definition blockBrowsers (agentId child : string) : M unit :=
  let* w := getW in
  match agents (state w) !! agentId with
  | None => skip
  | Some agent =>
      forEach (agentBrowsers agent) (fun browser =>
        triggerAction agentId "kill-process"
          (KillArgs (proc_pid browser) (proc_name browser)
                    "internet_quota_exhausted")) >>
      triggerAction agentId "show-warning"
        (WarningArgs "Internet Time Exhausted"
           "Browsers are now blocked. Internet time quota has been reached."
           normal)
  end.

(** *** Bedtime *)

(** [['sun', ..., 'sat'][now.getDay()]] *)
Definition todayName (now : Z) : string :=
  nth (Z.to_nat (getDay (now + tzOffset ctx))) dayNames "".

(** [(bedtime - now) / 60000] for the rule's time of day. *)
Definition minutesUntilBedtime (now : Z) (rules : BedtimeRule) : Q :=
  let localNow := now + tzOffset ctx in
  (setHours localNow (fst (bt_time rules)) (snd (bt_time rules)) - localNow) # 60000.

Definition bedtimeWarningArgs (minutes : Q) : ActionArgs :=
  WarningArgs "Bedtime Soon"
    ("Computer will log out in " ++ pretty (mathCeil minutes)
       ++ " minutes for bedtime.")
    (if Qle_bool minutes 5 then critical else normal).

Definition checkBedtime (agentId child : string) : M unit :=
  let* w := getW in
  match children (state w) !! child with
  | None => skip
  | Some childConfig =>
      match bedtime childConfig with
      | None => skip
      | Some rules =>
          if negb (bt_enabled rules) then skip else
          let dayName := todayName (clock w) in
          if negb (arrayIncludes (bt_days rules) dayName) then skip else
          let minutes := minutesUntilBedtime (clock w) rules in
          if Qle_bool minutes 0 then
            enforceLogout agentId (Some child) "Bedtime reached"
          else if Qle_bool minutes 15 then
            triggerAction agentId "show-warning" (bedtimeWarningArgs minutes) >>
            toRenderer "osBedtimeWarning" (BedtimeWarning agentId (mathCeil minutes))
          else skip
      end
  end.

(** *** Shutdown scheduling *)

Definition scheduleWarnings (agentId : string) (remainingSeconds : Z)
  (times : list Z) : M unit :=
  forEach times (fun warningMinutes =>
    let warningSeconds := warningMinutes * 60 in
    if warningSeconds <? remainingSeconds then
      let* _ := setTimeout (WarningTask agentId warningMinutes)
                           ((remainingSeconds - warningSeconds) * 1000) in
      skip
    else skip).

Definition scheduleShutdown (agentId child : string) (remainingSeconds : Z)
  : M unit :=
  let* w := getW in
  match shutdownTimers w !! agentId with
  | Some existingTimer => clearTimeout existingTimer
  | None => skip
  end >>
  if 3600 <? remainingSeconds then skip else
  scheduleWarnings agentId remainingSeconds (warningTimes (settings (state w))) >>
  let* timer := setTimeout (ShutdownTask agentId child) (remainingSeconds * 1000) in
  modifyShutdownTimers (fun m => <[agentId := timer]> m).

(** *** Quota evaluation *)

Definition verdictBlocks (v : Verdict) : bool :=
  (is_banned v || is_activity_blocked v || negb (allowed v))%bool.

(** [remainingMinutes <= warningTime && remainingMinutes > warningTime - 1] *)
Definition inWarningWindow (remainingMinutes : Q) (warningTime : Z) : bool :=
  (Qle_bool remainingMinutes (inject_Z warningTime)
   && negb (Qle_bool remainingMinutes (inject_Z (warningTime - 1))))%bool.

Definition thresholdWarnings (agentId : string) (remainingMinutes : Q)
  (times : list Z) : M unit :=
  forEach times (fun warningTime =>
    when (inWarningWindow remainingMinutes warningTime)
         (showTimeWarning agentId computer remainingMinutes)).

Definition internetBlocked (r : OracleResult) : bool :=
  match r with
  | Returns v => negb (allowed v)
  | _ => false
  end.

(** What follows the computer-time block of the [try] body. *)
Definition afterComputerCheck (agentId child : string)
  (internetAllowance : OracleResult) : M unit :=
  when (internetBlocked internetAllowance) (blockBrowsers agentId child) >>
  checkBedtime agentId child.

Definition checkQuotasAndEnforce (agentId child : string)
  (sessionData : option SessionData) : M unit :=
  match allow2Client ctx with
  | None => skip
  | Some checkActivity =>
      let* w := getW in
      match agents (state w) !! agentId with
      | None => skip
      | Some agent =>
          match checkActivity child computer agentId with
          | Throws => skip                          (* caught and logged *)
          | computerAllowance =>
              let internetAllowance :=
                if negb (Nat.eqb (length (agentBrowsers agent)) 0)
                then checkActivity child internet agentId
                else NoResult in
              match internetAllowance with
              | Throws => skip                      (* caught and logged *)
              | _ =>
                  match computerAllowance with
                  | Returns v =>
                      if verdictBlocks v then
                        enforceLogout agentId (Some child) "Computer access blocked"
                      else
                        let remainingMinutes := remaining_seconds v # 60 in
                        thresholdWarnings agentId remainingMinutes
                          (warningTimes (settings (state w))) >>
                        if remaining_seconds v <=? 0 then
                          enforceLogout agentId (Some child) "Computer time exhausted"
                        else
                          scheduleShutdown agentId child (remaining_seconds v) >>
                          afterComputerCheck agentId child internetAllowance
                  | _ => afterComputerCheck agentId child internetAllowance
                  end
              end
          end
      end
  end.

(** *** Telemetry handlers *)

Definition handleSessionData (agentId : string) (data : SessionData) : M unit :=
  let* w := getW in
  match agents (state w) !! agentId with
  | None => skip
  | Some agent =>
      modifyState (setAgents (fun m =>
        <[agentId := agentSeen (clock w) data agent]> m)) >>
      let mappings := default ∅ (userMappings (state w) !! agentId) in
      let notify :=
        toRenderer "osSessionUpdate" (SessionUpdate agentId data) >>
        configurationUpdate in
      match truthy (mappings !! username data) with
      | Some child =>
          modifyState (setAgents (fun m =>
            <[agentId := agentSetChild (Some child)
                           (agentSeen (clock w) data agent)]> m)) >>
          if arrayIncludes (default [] (parentAccounts (state w) !! agentId))
                           (username data)
          then skip                                 (* parent account: return *)
          else
            updateUsageTracking agentId child computer (OfSession data) >>
            checkQuotasAndEnforce agentId child (Some data) >>
            notify
      | None => notify
      end
  end.

Definition isBlockedProcess (blocked : list string) (proc : ProcessInfo) : bool :=
  let procName := toLowerCase (proc_name proc) in
  existsb (fun bp => includes procName (toLowerCase bp)) blocked.

Definition onBlockedProcess (agentId : string) (agent : Agent)
  (proc : ProcessInfo) : M unit :=
  let* w := getW in
  when (killOnViolation (settings (state w)))
       (triggerAction agentId "kill-process"
          (KillArgs (proc_pid proc) (proc_name proc) "blocked_process")) >>
  triggerAction agentId "show-warning"
    (WarningArgs "Application Blocked"
       (proc_name proc ++ " is not allowed right now") normal) >>
  logViolation {| v_type := "blocked_process"; v_agentId := agentId;
                  v_hostname := None; v_processName := Some (proc_name proc);
                  v_reason := Some "blocked_list"; v_timestamp := clock w |} >>
  toRenderer "osBlockedProcessDetected"
    (BlockedProcessDetected agentId (hostname agent) (proc_name proc)).

(** The body of the loop over [data.processes]. *)
Definition checkProcess (agentId : string) (agent : Agent) (blocked : list string)
  (proc : ProcessInfo) : M unit :=
  when (isBlockedProcess blocked proc) (onBlockedProcess agentId agent proc).

Definition handleProcessData (agentId : string) (data : ProcessData) : M unit :=
  let* w := getW in
  match agents (state w) !! agentId with
  | None => skip
  | Some agent =>
      match truthy (childId agent) with
      | None => skip
      | Some child =>
          let blocked :=
            match children (state w) !! child with
            | Some childConfig => blockedProcesses childConfig
            | None => []
            end in
          when (negb (Nat.eqb (length (browsers data)) 0))
               (updateUsageTracking agentId child internet (OfProcess data)) >>
          forEach (processes data) (checkProcess agentId agent blocked)
      end
  end.

(** *** IPC handlers *)

Definition linkAgent (agentId : string) (child : option string) : M unit :=
  modifyState (setAgents (fun m =>
    <[agentId := agentBind child true (default bareAgent (m !! agentId))]> m)) >>
  configurationUpdate.

Definition unlinkAgent (agentId : string) : M unit :=
  modifyState (setAgents (fun m =>
    match m !! agentId with
    | Some a => <[agentId := agentBind None false a]> m
    | None => m
    end)) >>
  let* w := getW in
  match shutdownTimers w !! agentId with
  | Some timer =>
      clearTimeout timer >>
      modifyShutdownTimers (fun m => delete agentId m)
  | None => skip
  end >>
  configurationUpdate.

Definition forceLogout (agentId : string) : M unit :=
  let* w := getW in
  match agents (state w) !! agentId with
  | None => skip                                    (* [Error('Agent not found')] *)
  | Some agent => enforceLogout agentId (childId agent) "Manual logout by parent"
  end.

(** *** Timers firing *)

Definition runTask (task : TimerTask) : M unit :=
  match task with
  | WarningTask agentId warningMinutes =>
      showTimeWarning agentId computer (inject_Z warningMinutes)
  | ShutdownTask agentId child =>
      enforceLogout agentId (Some child) "Computer time exhausted"
  | LogoutTask agentId reason =>
      let* w := getW in
      let user :=
        match agents (state w) !! agentId with
        | Some agent => option_map username (currentSession agent)
        | None => None
        end in
      triggerAction agentId "logout-user" (LogoutArgs user reason)
  | OrphanLogoutTask agentId user reason =>
      triggerAction agentId "logout-user" (LogoutArgs user reason)
  end.

(** The event loop runs the callback of an armed timer once; a handle that
    is no longer armed runs nothing. *)
Definition fireTimer (id : nat) : M unit :=
  let* w := getW in
  match List.find (fun t => Nat.eqb (t_id t) id) (timers w) with
  | None => skip
  | Some t => clearTimeout id >> runTask (t_task t)
  end.

End Plugin.

(** ** The event loop *)

Inductive Event :=
| SessionTelemetry (agentId : string) (data : SessionData)
| ProcessTelemetry (agentId : string) (data : ProcessData)
| TimerFires (id : nat)
| UnlinkAgent (agentId : string)
| LinkAgent (agentId : string) (child : option string)
| ForceLogout (agentId : string)
| Elapse (ms : Z).

Definition elapse (ms : Z) : M unit :=
  fun w => (tt, {| state := state w; usageTracking := usageTracking w;
                   shutdownTimers := shutdownTimers w; timers := timers w;
                   nextTimer := nextTimer w; clock := clock w + ms |}, []).

Definition isDue (id : nat) (w : World) : bool :=
  existsb (fun t => (Nat.eqb (t_id t) id && (t_due t <=? clock w))%bool) (timers w).

(** One turn of the event loop. The context is given per turn: the answers
    of the Allow2 client vary over time. *)
Definition handle (ce : Context * Event) : M unit :=
  let ctx := fst ce in
  match snd ce with
  | SessionTelemetry agentId data => handleSessionData ctx agentId data
  | ProcessTelemetry agentId data => handleProcessData ctx agentId data
  | TimerFires id =>
      let* w := getW in
      if isDue id w then fireTimer ctx id else skip
  | UnlinkAgent agentId => unlinkAgent agentId
  | LinkAgent agentId child => linkAgent agentId child
  | ForceLogout agentId => forceLogout ctx agentId
  | Elapse ms => elapse ms
  end.

Definition run (evs : list (Context * Event)) : M unit := forEach evs handle.

(** ** Observations on worlds and outputs *)

Definition isLogoutTimerOf (agentId : string) (t : Timer) : bool :=
  match t_task t with
  | ShutdownTask a _ => String.eqb a agentId
  | LogoutTask a _ => String.eqb a agentId
  | OrphanLogoutTask a _ _ => String.eqb a agentId
  | WarningTask _ _ => false
  end.

(** The scheduled-but-unfired logout timers of an agent. *)
Definition logoutTimers (agentId : string) (w : World) : list Timer :=
  List.filter (isLogoutTimerOf agentId) (timers w).

Definition isShutdownTimerOf (agentId : string) (t : Timer) : bool :=
  match t_task t with
  | ShutdownTask a _ => String.eqb a agentId
  | _ => false
  end.

Definition isAction (o : Output) : bool :=
  match o with
  | TriggerAction _ _ _ => true
  | _ => false
  end.


(** The warning [showTimeWarning] sends: its message starts with "You have". *)
Definition isTimeWarning (o : Output) : bool :=
  match o with
  | TriggerAction _ actionId (WarningArgs _ message _) =>
      (String.eqb actionId "show-warning" && startsWith message "You have ")%bool
  | _ => false
  end.


Definition isLogoutAction (o : Output) : bool :=
  match o with
  | TriggerAction _ actionId _ => String.eqb actionId "logout-user"
  | _ => false
  end.

(** The local calendar day of an instant. *)
Definition localDay (tz : Z) (t : Z) : Z := (t + tz) / msPerDay.

(** [clamp(x, lo, hi)] of the design document. *)
Definition clamp (x lo hi : Q) : Q :=
  if Qle_bool x lo then lo else if Qle_bool hi x then hi else x.

(** ** A small fleet used in the examples

    Agent [A1] on host [kid-pc], bound to child [C]; the OS user [kid] maps
    to [C]; [dad] is a parent account; [C] may not run Minecraft and goes to
    bed at 21:00 on Fridays. *)

Module Fleet.

Definition agentA1 : Agent :=
  {| hostname := Some "kid-pc"; enabled := true; childId := Some "C";
     lastSeen := None; currentSession := None; currentProcessData := None |}.

Definition childC : ChildConfig :=
  {| blockedProcesses := ["minecraft"];
     bedtime := Some {| bt_enabled := true; bt_time := (21, 0);
                        bt_days := ["fri"] |} |}.

Definition st0 : PluginState :=
  {| agents := {["A1" := agentA1]};
     userMappings := {["A1" := {["kid" := "C"]}]};
     parentAccounts := {["A1" := ["dad"]]};
     children := {["C" := childC]};
     settings := defaultSettings;
     violations := [];
     activityLog := [] |}.

(** The clock starts on Monday 5 January 1970, 00:00 UTC. *)
Definition monday : Z := 4 * msPerDay.

Definition w0 : World :=
  {| state := st0; usageTracking := ∅; shutdownTimers := ∅; timers := [];
     nextTimer := 0; clock := monday |}.

(** The same world with a grace-period logout armed for [A1]. *)
Definition wArmed : World :=
  {| state := st0; usageTracking := ∅; shutdownTimers := ∅;
     timers := [ {| t_id := 0; t_due := monday + 60000;
                    t_task := LogoutTask "A1" "Computer access blocked" |} ];
     nextTimer := 1; clock := monday |}.

Definition kid : SessionData := {| username := "kid"; isIdle := false; idleTime := 0 |}.
Definition dad : SessionData := {| username := "dad"; isIdle := false; idleTime := 0 |}.

Definition verdict (remaining : Z) : Verdict :=
  {| allowed := true; is_banned := false; is_activity_blocked := false;
     remaining_seconds := remaining |}.

Definition banned : Verdict :=
  {| allowed := false; is_banned := true; is_activity_blocked := false;
     remaining_seconds := 0 |}.

(** A context whose Allow2 client answers every check with [r]. *)
Definition answering (r : OracleResult) : Context :=
  {| sendToRenderer := true; allow2Client := Some (fun _ _ _ => r); tzOffset := 0 |}.

Definition withRemaining (s : Z) : Context := answering (Returns (verdict s)).
Definition withBan : Context := answering (Returns banned).

End Fleet.

(** ** Replays *)

Module Replay.
Import Fleet.

(** Two session reports, 30 s apart, while the child is banned. *)
Definition bannedTwice : list (Context * Event) :=
  [ (withBan, SessionTelemetry "A1" kid);
    (withBan, Elapse 30000);
    (withBan, SessionTelemetry "A1" kid) ].

(** Two session reports, 30 s apart, with 900 s and then 870 s remaining. *)
Definition nearFifteen : list (Context * Event) :=
  [ (withRemaining 900, SessionTelemetry "A1" kid);
    (withRemaining 900, Elapse 30000);
    (withRemaining 870, SessionTelemetry "A1" kid) ].

(** Two session reports with 1000 s and 970 s remaining: each arms a timer
    for the 15-minute warning; both timers are due 100 s after the first
    report and both fire. *)
Definition rearmed : list (Context * Event) :=
  [ (withRemaining 1000, SessionTelemetry "A1" kid);
    (withRemaining 1000, Elapse 30000);
    (withRemaining 970, SessionTelemetry "A1" kid);
    (withRemaining 970, Elapse 70000);
    (withRemaining 900, TimerFires 0);
    (withRemaining 900, TimerFires 4) ].

(** The parent logs in on the machine bound to the child, then the process
    monitor reports a blocked application. *)
Definition minecraft : ProcessData :=
  {| browsers := [];
     processes := [ {| proc_pid := 42; proc_name := "Minecraft.exe" |} ] |}.


Definition parentSession : list (Context * Event) :=
  [ (withRemaining 7200, SessionTelemetry "A1" dad) ].

(** A ban is enforced, the agent is unlinked 10 s later, and the grace
    period runs out. *)
Definition banThenUnlink : list (Context * Event) :=
  [ (withBan, SessionTelemetry "A1" kid);
    (withBan, Elapse 10000);
    (withBan, UnlinkAgent "A1") ].

Definition graceRunsOut : list (Context * Event) :=
  [ (withBan, Elapse 50000);
    (withBan, TimerFires 0) ].

(** A warning timer armed before the unlink. *)
Definition warnThenUnlink : list (Context * Event) :=
  [ (withRemaining 1000, SessionTelemetry "A1" kid);
    (withRemaining 1000, UnlinkAgent "A1") ].

Definition warningComesDue : list (Context * Event) :=
  [ (withRemaining 1000, Elapse 100000);
    (withRemaining 1000, TimerFires 0) ].

End Replay.

(** ** Notions used in the statements *)

(** The Allow2 client fails during a quota evaluation of [agentId]: the
    computer check throws, or browsers are recorded for the agent and the
    internet check throws. *)
Definition oracleThrows (check : string -> ActivityType -> string -> OracleResult)
  (w : World) (agentId child : string) : Prop :=
  check child computer agentId = Throws
  \/ (exists agent, agents (state w) !! agentId = Some agent
                    /\ agentBrowsers agent <> []
                    /\ check child internet agentId = Throws).


(** The usage cell of [(agentId, child, ty)], if any. *)
Definition usageCell (agentId child : string) (ty : ActivityType) (w : World)
  : option Tracking :=
  usageTracking w !! usageKey agentId child ty.

Definition cellSeconds (agentId child : string) (ty : ActivityType) (w : World) : Q :=
  match usageCell agentId child ty w with
  | Some t => totalSeconds t
  | None => 0
  end.

(** What one call of [updateUsageTracking] adds to the accumulator. *)
Definition addedSeconds (agentId child : string) (ty : ActivityType)
  (data : UsageData) (w : World) : Q :=
  (cellSeconds agentId child ty (exec (updateUsageTracking agentId child ty data) w)
   - cellSeconds agentId child ty w)%Q.

(** The elapsed time of the design document, in seconds:
    [clamp(now − lastAdvanceAt, 0, 2 × reportInterval)]. *)
Definition clampedElapsed (s : Settings) (now : Z) (t : Tracking) : Q :=
  clamp (elapsedSeconds now t) 0 ((2 * monitorInterval s) # 1000).

(** Worlds with a usage cell for [(A1, C, computer)]. *)
Module Usage.
Import Fleet.

Definition withCell (t : Tracking) (now : Z) : World :=
  {| state := st0; usageTracking := {[ usageKey "A1" "C" computer := t ]};
     shutdownTimers := ∅; timers := []; nextTimer := 0; clock := now |}.

(** Last advanced on Monday at 00:00:00; the next report arrives 10^8 ms
    later (the agent was offline for more than a day). *)
Definition longGap : World :=
  withCell {| startTime := monday; lastUpdate := monday; totalSeconds := 0 |}
           (monday + 100000000).

(** The system clock was set back by 5 s between two reports. *)
Definition clockSetBack : World :=
  withCell {| startTime := monday; lastUpdate := monday + 30000; totalSeconds := 10 |}
           (monday + 25000).

(** 100 s accumulated on Monday, last advanced at 23:59:50; the next report
    arrives on Tuesday at 00:00:20. *)
Definition mondayCell : Tracking :=
  {| startTime := monday; lastUpdate := monday + 86390000; totalSeconds := 100 |}.

Definition overMidnight : World := withCell mondayCell (monday + 86420000).

End Usage.




(** Friday 9 January 1970 at the given local time of day. *)
Module Evening.
Import Fleet.


Definition rules : BedtimeRule :=
  {| bt_enabled := true; bt_time := (21, 0); bt_days := ["fri"] |}.


End Evening.

(** World [w] with [settings.killOnViolation] set to [b]. *)
Definition withKill (b : bool) (w : World) : World :=
  {| state := setSettings (fun s =>
       {| pauseOnIdle := pauseOnIdle s; idleThreshold := idleThreshold s;
          warningTimes := warningTimes s; gracePeriod := gracePeriod s;
          monitorInterval := monitorInterval s; killOnViolation := b;
          notifyParent := notifyParent s |}) (state w);
     usageTracking := usageTracking w; shutdownTimers := shutdownTimers w;
     timers := timers w; nextTimer := nextTimer w; clock := clock w |}.




(** A computation emits no output recognised by [P], whatever the world. *)
Definition silent {A} (P : Output -> bool) (m : M A) : Prop :=
  forall w, List.filter P (outputs m w) = [].

(** The time warnings sent by one quota evaluation. *)
Definition timeWarningsOf (ctx : Context) (agentId child : string)
  (sd : option SessionData) (w : World) : list Output :=
  List.filter isTimeWarning (outputs (checkQuotasAndEnforce ctx agentId child sd) w).

(** ** Well-formed timer tables *)

(** Timer handles are unique and below the next handle. *)
Definition freshHandles (w : World) : Prop :=
  (forall t, List.In t (timers w) -> (t_id t < nextTimer w)%nat)
  /\ List.NoDup (List.map t_id (timers w)).

(** Every armed shutdown timer is the one kept in [shutdownTimers] for its
    agent. *)
Definition registered (w : World) : Prop :=
  forall t a c, List.In t (timers w) -> t_task t = ShutdownTask a c ->
                shutdownTimers w !! a = Some (t_id t).

Definition timersOk (w : World) : Prop := freshHandles w /\ registered w.

(** No shutdown timer is armed for the agent. *)
Definition noShutdown (agentId : string) (w : World) : Prop :=
  forall t c, List.In t (timers w) -> t_task t <> ShutdownTask agentId c.

(** [m] keeps the property [I] of worlds. *)
Definition preserves {A} (I : World -> Prop) (m : M A) : Prop :=
  forall w, I w -> I (exec m w).

Definition isShutdownTask (task : TimerTask) : bool :=
  match task with
  | ShutdownTask _ _ => true
  | _ => false
  end.

(** * The rest of the plugin

    The IPC handlers, listeners and lifecycle functions of [plugin(context)]
    that the handlers above do not reach, the process and session monitor
    scripts, and the pure parts of the action scripts. *)

(** ** IPC handlers on mappings, settings of a child and the journal *)

Definition overUserMappings
  (f : gmap string (gmap string string) -> gmap string (gmap string string))
  (s : PluginState) : PluginState :=
  {| agents := agents s; userMappings := f (userMappings s);
     parentAccounts := parentAccounts s; children := children s;
     settings := settings s; violations := violations s;
     activityLog := activityLog s |}.

Definition overParentAccounts
  (f : gmap string (list string) -> gmap string (list string))
  (s : PluginState) : PluginState :=
  {| agents := agents s; userMappings := userMappings s;
     parentAccounts := f (parentAccounts s); children := children s;
     settings := settings s; violations := violations s;
     activityLog := activityLog s |}.

Definition overChildren
  (f : gmap string ChildConfig -> gmap string ChildConfig)
  (s : PluginState) : PluginState :=
  {| agents := agents s; userMappings := userMappings s;
     parentAccounts := parentAccounts s; children := f (children s);
     settings := settings s; violations := violations s;
     activityLog := activityLog s |}.

(** [os:setUserMapping]: a falsy [childId] deletes the entry. *)
Definition setUserMapping (agentId user : string) (child : option string) : M unit :=
  modifyState (overUserMappings (fun um =>
    let table := default ∅ (um !! agentId) in
    <[agentId := match truthy child with
                 | Some c => <[user := c]> table
                 | None => delete user table
                 end]> um)) >>
  configurationUpdate.

(** [os:setParentAccounts]: [accounts || []]. *)
Definition setParentAccounts (agentId : string) (accounts : option (list string))
  : M unit :=
  modifyState (overParentAccounts (fun pa =>
    <[agentId := default [] accounts]> pa)) >>
  configurationUpdate.

(** The [settings] argument of [os:updateChildSettings]: a field is absent
    ([None]) or present. *)
Record ChildPatch := {
  p_blockedProcesses : option (list string);
  p_bedtime : option (option BedtimeRule)
}.

(** [{ ...state.children[childId], ...settings }] *)
Definition mergeChild (old : option ChildConfig) (patch : ChildPatch) : ChildConfig :=
  {| blockedProcesses :=
       match p_blockedProcesses patch with
       | Some l => l
       | None => match old with Some c => blockedProcesses c | None => [] end
       end;
     bedtime :=
       match p_bedtime patch with
       | Some b => b
       | None => match old with Some c => bedtime c | None => None end
       end |}.

Definition updateChildSettings (child : string) (patch : ChildPatch) : M unit :=
  modifyState (overChildren (fun cs =>
    <[child := mergeChild (cs !! child) patch]> cs)) >>
  configurationUpdate.

(** [array.slice(0, end)] for an integer [end]: a negative [end] counts from
    the end of the array. *)
Definition sliceTo {A} (stop : Z) (l : list A) : list A :=
  let len := Z.of_nat (length l) in
  let e := if stop <? 0 then Z.max (len + stop) 0 else Z.min stop len in
  firstn (Z.to_nat e) l.

(** [os:getViolations] ([limit = 50] by default) and [os:getActivityLog]
    ([limit = 100]). *)
Definition getViolations (limit : option Z) (s : PluginState) : list Violation :=
  sliceTo (default 50 limit) (violations s).

Definition getActivityLog (limit : option Z) (s : PluginState) : list ActivityEntry :=
  sliceTo (default 100 limit) (activityLog s).

Definition clearViolations : M unit :=
  modifyState (setViolations (fun _ => [])) >>
  configurationUpdate.

(** [os:lockSession] *)
Definition lockSession (agentId : string) : M unit :=
  triggerAction agentId "lock-session" NoArgs.

(** ** The [actionResponse] listener *)

Definition ourPluginId : string := "allow2automate-operating-system".

Record ActionResponse := {
  r_pluginId : string;
  r_agentId : string;
  r_actionId : string;
  r_success : bool;
  r_processName : option string;     (* data.args?.processName *)
  r_reason : option string           (* data.args?.reason *)
}.

Definition onActionResponse (ctx : Context) (r : ActionResponse) : M unit :=
  if negb (String.eqb (r_pluginId r) ourPluginId) then skip else
  if (String.eqb (r_actionId r) "kill-process" && r_success r)%bool then
    let* w := getW in
    logViolation ctx
      {| v_type := "process_killed"; v_agentId := r_agentId r;
         v_hostname := None; v_processName := r_processName r;
         v_reason := Some (default "quota_enforcement" (truthy (r_reason r)));
         v_timestamp := clock w |}
  else skip.

(** ** State changes pushed by Allow2 *)

(** [handleAllow2StateChange]: [keys] are the keys of [state.agents] in the
    order of [Object.entries]. *)
Definition handleAllow2StateChange (ctx : Context) (keys : list string)
  (child : string) : M unit :=
  forEach keys (fun agentId =>
    let* w := getW in
    match agents (state w) !! agentId with
    | Some agentData =>
        if bool_decide (childId agentData = Some child)
        then checkQuotasAndEnforce ctx agentId child (currentSession agentData)
        else skip
    | None => skip
    end).

(** ** Everything that reaches the plugin *)

Inductive Command :=
| SetUserMapping (agentId user : string) (child : option string)
| SetParentAccounts (agentId : string) (accounts : option (list string))
| UpdateChildSettings (child : string) (patch : ChildPatch)
| ClearViolations
| LockSession (agentId : string).

Definition command (c : Command) : M unit :=
  match c with
  | SetUserMapping agentId user child => setUserMapping agentId user child
  | SetParentAccounts agentId accounts => setParentAccounts agentId accounts
  | UpdateChildSettings child patch => updateChildSettings child patch
  | ClearViolations => clearViolations
  | LockSession agentId => lockSession agentId
  end.

Inductive Input :=
| FromLoop (ce : Context * Event)
| FromRenderer (c : Command)
| Response (ctx : Context) (r : ActionResponse)
| StateChange (ctx : Context) (keys : list string) (child : string).

Definition react (i : Input) : M unit :=
  match i with
  | FromLoop ce => handle ce
  | FromRenderer c => command c
  | Response ctx r => onActionResponse ctx r
  | StateChange ctx keys child => handleAllow2StateChange ctx keys child
  end.

Definition replay (inputs : list Input) : M unit := forEach inputs react.

(** The two journals are within their caps. *)
Definition journalOk (w : World) : Prop :=
  (length (violations (state w)) <= 200)%nat
  /\ (length (activityLog (state w)) <= 500)%nat.

Definition activityOf (v : Violation) : ActivityEntry :=
  {| act_type := v_type v; act_message := violationMessage v;
     act_agentId := v_agentId v; act_timestamp := v_timestamp v |}.

(** [m] leaves the part [part] of the world as it is. *)
Definition keeps {A X} (part : World -> X) (m : M A) : Prop :=
  forall w, part (exec m w) = part w.

(** An action response that the listener journals. *)
Definition journaled (r : ActionResponse) : bool :=
  (String.eqb (r_pluginId r) ourPluginId
   && String.eqb (r_actionId r) "kill-process" && r_success r)%bool.

(** What [handleSessionData] sends after the evaluation. *)
Definition sessionNotice (ctx : Context) (agentId : string) (data : SessionData)
  : list Output :=
  ((if sendToRenderer ctx
    then [ToRenderer "osSessionUpdate" (SessionUpdate agentId data)] else [])
   ++ [ConfigurationUpdate])%list.

(** The mapping of an OS user of an agent, as [handleSessionData] reads it. *)
Definition mappedChild (s : PluginState) (agentId user : string) : option string :=
  truthy (default ∅ (userMappings s !! agentId) !! user).


(** Is the agent bound to the child in this table of agents. *)
Definition boundTo (table : gmap string Agent) (child agentId : string) : bool :=
  match table !! agentId with
  | Some agentData => bool_decide (childId agentData = Some child)
  | None => false
  end.

Definition sessionOf (table : gmap string Agent) (agentId : string)
  : option SessionData :=
  match table !! agentId with
  | Some agentData => currentSession agentData
  | None => None
  end.


(** ** The agent service and the plugin lifecycle

    [agentService] is seen through its answers: what [listAgents] returns
    (or the message of the error it throws) and, for every other call,
    whether it resolves. The script text and the platform list of a
    deployment are opaque and left out of the calls. *)

Record RemoteAgent := {
  ra_id : string;
  ra_hostname : string;
  ra_platform : string;
  ra_online : bool
}.

Inductive GatewayCall :=
| DeployMonitor (agentId monitorId : string) (interval : Z)
| DeployAction (agentId actionId : string)
| UpdateMonitor (agentId monitorId : string) (interval : Z)
| RemoveMonitor (agentId monitorId : string).

Record AgentService := {
  listAgents : string + list RemoteAgent;
  accepts : GatewayCall -> bool
}.

(** What the host sees of a lifecycle function, in order. A [Called] call
    was issued, whether it resolved or not. *)
Inductive HostEvent :=
| Called (c : GatewayCall)
| Emitted (o : Output)
| StatusUpdate (status message : string) (timestamp : Z)
| UnloadCallback.

Definition sessionMonitorId : string := "os-session-monitor".
Definition processMonitorId : string := "os-process-monitor".

(** Awaited calls, one after the other, up to the first that rejects. *)
Fixpoint issue (svc : AgentService) (calls : list GatewayCall)
  : list GatewayCall * bool :=
  match calls with
  | [] => ([], true)
  | c :: rest =>
      if accepts svc c
      then let '(done, ok) := issue svc rest in (c :: done, ok)
      else ([c], false)
  end.

(** The calls of [deployToAgent], in order. *)
Definition deployment (interval : Z) (agentId : string) : list GatewayCall :=
  [ DeployMonitor agentId sessionMonitorId interval;
    DeployMonitor agentId processMonitorId interval;
    DeployAction agentId "kill-process";
    DeployAction agentId "logout-user";
    DeployAction agentId "show-warning";
    DeployAction agentId "lock-session" ].

(** The object assigned to [state.agents[agent.id]] after a deployment (its
    [id] and [platform] are not kept in [Agent]). *)
Definition deployedAgent (now : Z) (agent : RemoteAgent) (old : option Agent) : Agent :=
  {| hostname := Some (ra_hostname agent);
     enabled := true;
     childId := match old with Some a => truthy (childId a) | None => None end;
     lastSeen := Some now;
     currentSession := None;
     currentProcessData := None |}.

Definition withState (s : PluginState) (w : World) : World :=
  {| state := s; usageTracking := usageTracking w;
     shutdownTimers := shutdownTimers w; timers := timers w;
     nextTimer := nextTimer w; clock := clock w |}.

(** The user a logout closure reads from an agent object. *)
Definition sessionUser (a : option Agent) : option string :=
  match a with
  | Some agent => option_map username (currentSession agent)
  | None => None
  end.

(** An armed timer after the agent objects selected by [replaced] have been
    given up by [state.agents]: a logout closure that captured one of them
    keeps reading the session recorded on it, [old] being the table at that
    moment. *)
Definition orphaned (replaced : string -> bool) (old : gmap string Agent)
  (t : Timer) : Timer :=
  match t_task t with
  | LogoutTask a reason =>
      if replaced a
      then {| t_id := t_id t; t_due := t_due t;
              t_task := OrphanLogoutTask a (sessionUser (old !! a)) reason |}
      else t
  | _ => t
  end.

(** The world with state [s], in which the agents selected by [replaced]
    are new objects. *)
Definition replacingAgents (replaced : string -> bool) (s : PluginState)
  (w : World) : World :=
  {| state := s; usageTracking := usageTracking w;
     shutdownTimers := shutdownTimers w;
     timers := List.map (orphaned replaced (agents (state w))) (timers w);
     nextTimer := nextTimer w; clock := clock w |}.

Definition deployToAgent (svc : AgentService) (agent : RemoteAgent) (w : World)
  : World * list HostEvent :=
  let '(issued, ok) :=
    issue svc (deployment (monitorInterval (settings (state w))) (ra_id agent)) in
  if ok then
    (replacingAgents (String.eqb (ra_id agent))
       (setAgents (fun m =>
          <[ra_id agent := deployedAgent (clock w) agent (m !! ra_id agent)]> m)
          (state w)) w,
     (List.map Called issued ++ [Emitted ConfigurationUpdate])%list)
  else (w, List.map Called issued).

Fixpoint deployAll (svc : AgentService) (l : list RemoteAgent) (w : World)
  : World * list HostEvent :=
  match l with
  | [] => (w, [])
  | agent :: rest =>
      let '(w1, e1) := deployToAgent svc agent w in
      let '(w2, e2) := deployAll svc rest w1 in
      (w2, (e1 ++ e2)%list)
  end.

(** The state of a first start. *)
Definition initialState : PluginState :=
  {| agents := ∅; userMappings := ∅; parentAccounts := ∅; children := ∅;
     settings := defaultSettings; violations := []; activityLog := [] |}.

(** [osPlugin.onLoad]; [svc] is [context.services?.agent]. *)
Definition onLoad (loadState : option PluginState) (svc : option AgentService)
  (w : World) : World * list HostEvent :=
  let w0 := replacingAgents (fun _ => true) (default initialState loadState) w in
  match svc with
  | None => (w0, [StatusUpdate "error" "Agent service not available" (clock w)])
  | Some svc =>
      match listAgents svc with
      | inl message =>
          (w0, [StatusUpdate "error" ("Initialization error: " ++ message) (clock w)])
      | inr found =>
          let '(w1, events) := deployAll svc found w0 in
          (w1, (events ++ [StatusUpdate "connected" "OS monitoring active" (clock w)])%list)
      end
  end.

(** [for (const timer of shutdownTimers.values()) clearTimeout(timer);
    shutdownTimers.clear()] *)
Definition clearAllShutdowns : M unit :=
  let* w := getW in
  forEach (List.map snd (map_to_list (shutdownTimers w))) clearTimeout >>
  modifyShutdownTimers (fun _ => ∅).

Definition onSetEnabled (isEnabled : bool) (w : World) : World * list HostEvent :=
  if isEnabled then
    (w, [StatusUpdate "connected" "OS monitoring active" (clock w);
         Emitted ConfigurationUpdate])
  else
    (exec clearAllShutdowns w,
     [StatusUpdate "disconnected" "OS monitoring paused" (clock w);
      Emitted ConfigurationUpdate]).

Definition removal (agent : RemoteAgent) : list GatewayCall :=
  [ RemoveMonitor (ra_id agent) sessionMonitorId;
    RemoveMonitor (ra_id agent) processMonitorId ].

Definition onUnload (svc : option AgentService) (w : World)
  : World * list HostEvent :=
  (exec clearAllShutdowns w,
   (match svc with
    | Some svc =>
        match listAgents svc with
        | inr found =>
            List.map Called (fst (issue svc (List.concat (List.map removal found))))
        | inl _ => []
        end
    | None => []
    end ++ [UnloadCallback])%list).

(** The [settings] argument of [os:updateSettings]. *)
Record SettingsPatch := {
  sp_pauseOnIdle : option bool;
  sp_idleThreshold : option Z;
  sp_warningTimes : option (list Z);
  sp_gracePeriod : option Z;
  sp_monitorInterval : option Z;
  sp_killOnViolation : option bool;
  sp_notifyParent : option bool
}.

(** [{ ...state.settings, ...settings }] *)
Definition mergeSettings (old : Settings) (patch : SettingsPatch) : Settings :=
  {| pauseOnIdle := default (pauseOnIdle old) (sp_pauseOnIdle patch);
     idleThreshold := default (idleThreshold old) (sp_idleThreshold patch);
     warningTimes := default (warningTimes old) (sp_warningTimes patch);
     gracePeriod := default (gracePeriod old) (sp_gracePeriod patch);
     monitorInterval := default (monitorInterval old) (sp_monitorInterval patch);
     killOnViolation := default (killOnViolation old) (sp_killOnViolation patch);
     notifyParent := default (notifyParent old) (sp_notifyParent patch) |}.

Definition intervalUpdate (interval : Z) (agent : RemoteAgent) : list GatewayCall :=
  [ UpdateMonitor (ra_id agent) sessionMonitorId interval;
    UpdateMonitor (ra_id agent) processMonitorId interval ].

(** [if (settings.monitorInterval)]: present and not zero. *)
Definition pushedInterval (patch : SettingsPatch) : option Z :=
  match sp_monitorInterval patch with
  | Some 0 => None
  | other => other
  end.

(** [os:updateSettings]; the boolean tells [[null, { success: true }]] from
    [[error]]. *)
Definition updateSettings (svc : option AgentService) (patch : SettingsPatch)
  (w : World) : World * list HostEvent * bool :=
  let w1 := withState (setSettings (fun old => mergeSettings old patch) (state w)) w in
  match pushedInterval patch with
  | None => (w1, [Emitted ConfigurationUpdate], true)
  | Some interval =>
      match svc with
      | None => (w1, [], false)
      | Some svc =>
          match listAgents svc with
          | inl _ => (w1, [], false)
          | inr found =>
              let '(issued, ok) :=
                issue svc (List.concat (List.map (intervalUpdate interval) found)) in
              if ok
              then (w1, (List.map Called issued ++ [Emitted ConfigurationUpdate])%list,
                    true)
              else (w1, List.map Called issued, false)
          end
      end
  end.

(** Every handle kept in [shutdownTimers] is below the next handle and, if
    still armed, belongs to a shutdown timer. *)
Definition tableOk (w : World) : Prop :=
  forall a id, shutdownTimers w !! a = Some id ->
    (id < nextTimer w)%nat
    /\ forall t, List.In t (timers w) -> t_id t = id ->
                 isShutdownTask (t_task t) = true.

Definition timersWell (w : World) : Prop := timersOk w /\ tableOk w.

(** * The monitors deployed to the agents *)

(** ** [os-process-monitor]

    The process list of the platform ([tasklist], [ps]) is the input of the
    script; what is modelled is its classification and the report. *)
Module ProcessMonitor.

Record BrowserPattern := {
  bp_name : string;
  bp_patterns : list string
}.

Definition browserPatterns : list BrowserPattern :=
  [ {| bp_name := "Chrome";
       bp_patterns := ["chrome.exe"; "Google Chrome"; "chrome"; "google-chrome";
                       "google-chrome-stable"] |};
    {| bp_name := "Firefox";
       bp_patterns := ["firefox.exe"; "Firefox"; "firefox"; "firefox-esr"] |};
    {| bp_name := "Safari"; bp_patterns := ["Safari"; "safari"] |};
    {| bp_name := "Edge";
       bp_patterns := ["msedge.exe"; "Microsoft Edge"; "edge"; "microsoft-edge"] |};
    {| bp_name := "Opera"; bp_patterns := ["opera.exe"; "Opera"; "opera"] |};
    {| bp_name := "Brave";
       bp_patterns := ["brave.exe"; "Brave Browser"; "brave"; "brave-browser"] |};
    {| bp_name := "Vivaldi"; bp_patterns := ["vivaldi.exe"; "Vivaldi"; "vivaldi"] |};
    {| bp_name := "Chromium";
       bp_patterns := ["chromium.exe"; "Chromium"; "chromium"; "chromium-browser"] |} ].

Definition gamePatterns : list string :=
  ["minecraft"; "fortnite"; "roblox"; "steam"; "epic";
   "game"; "gaming"; "play"; "league"; "valorant";
   "overwatch"; "apex"; "pubg"; "genshin"].

Definition eduPatterns : list string :=
  ["khan"; "duolingo"; "scratch"; "code.org";
   "classroom"; "zoom"; "teams"; "meet"].

Definition prodPatterns : list string :=
  ["word"; "excel"; "powerpoint"; "office";
   "notepad"; "calculator"; "sublime"; "vscode"; "code"].

(** An entry of [rawProcesses]; [path] is set on macOS only. *)
Record RawProcess := {
  raw_pid : Z;
  raw_name : string;
  raw_path : option string
}.

(** [detectBrowser]: the [browserName] when [isBrowser] is true. *)
Definition detectBrowser (processName : string) : option string :=
  let nameLower := toLowerCase processName in
  option_map bp_name
    (List.find (fun browser =>
       existsb (fun p => includes nameLower (toLowerCase p)) (bp_patterns browser))
       browserPatterns).

(** [categorizeProcess]: the pair [(type, category)]. *)
Definition categorizeProcess (processName : string) : string * string :=
  let nameLower := toLowerCase processName in
  if existsb (fun p => includes nameLower p) gamePatterns then ("game", "games")
  else if existsb (fun p => includes nameLower p) eduPatterns
       then ("education", "education")
  else if existsb (fun p => includes nameLower p) prodPatterns
       then ("productivity", "productivity")
  else ("unknown", "other").

Record ProcessEntry := {
  e_pid : Z;
  e_name : string;
  e_path : option string;
  e_type : string;
  e_category : string;
  e_browserName : option string
}.

Record BrowserEntry := {
  b_pid : Z;
  b_name : string;
  b_browserName : string
}.

(** The [processInfo] built in the loop over [rawProcesses]. *)
Definition classify (proc : RawProcess) : ProcessEntry :=
  let browserInfo := detectBrowser (raw_name proc) in
  let categoryInfo := categorizeProcess (raw_name proc) in
  {| e_pid := raw_pid proc;
     e_name := raw_name proc;
     e_path := raw_path proc;
     e_type := match browserInfo with
               | Some _ => "browser"
               | None => fst categoryInfo
               end;
     e_category := match browserInfo with
                   | Some _ => "internet"
                   | None => snd categoryInfo
                   end;
     e_browserName := browserInfo |}.

(** What the loop pushes to [browsers] for one process. *)
Definition browserOf (proc : RawProcess) : list BrowserEntry :=
  match detectBrowser (raw_name proc) with
  | Some browserName =>
      [ {| b_pid := raw_pid proc; b_name := raw_name proc;
           b_browserName := browserName |} ]
  | None => []
  end.

(** The filter of the reported [processes]. *)
Definition interesting (p : ProcessEntry) : bool :=
  (negb (String.eqb (e_type p) "unknown")
   || includes (toLowerCase (e_name p)) "game"
   || String.eqb (e_category p) "internet")%bool.

Definition inCategory (category : string) (p : ProcessEntry) : bool :=
  String.eqb (e_category p) category.

Record Summary := {
  games : nat;
  education : nat;
  productivity : nat;
  internet : nat;
  other : nat
}.

(** The returned object, without [timestamp], [hostname] and [platform]. *)
Record Report := {
  processCount : nat;
  rep_browsers : list BrowserEntry;
  browserActive : bool;
  rep_processes : list ProcessEntry;
  summary : Summary
}.

Definition script (rawProcesses : list RawProcess) : Report :=
  let processes := List.map classify rawProcesses in
  let browsers := List.flat_map browserOf rawProcesses in
  {| processCount := length processes;
     rep_browsers := browsers;
     browserActive := Nat.ltb 0 (length browsers);
     rep_processes := firstn 100 (List.filter interesting processes);
     summary :=
       {| games := length (List.filter (inCategory "games") processes);
          education := length (List.filter (inCategory "education") processes);
          productivity := length (List.filter (inCategory "productivity") processes);
          internet := length browsers;
          other := length (List.filter (inCategory "other") processes) |} |}.

(** What [handleProcessData] reads of a report: the [pid] and [name] of the
    entries of [browsers] and [processes]. *)
Definition asProcessData (r : Report) : ProcessData :=
  {| browsers := List.map (fun b => {| proc_pid := b_pid b; proc_name := b_name b |})
                   (rep_browsers r);
     processes := List.map (fun p => {| proc_pid := e_pid p; proc_name := e_name p |})
                    (rep_processes r) |}.

(** The process named [name] is classified as unknown. *)
Definition unclassified (name : string) : Prop :=
  detectBrowser name = None /\ categorizeProcess name = ("unknown", "other").

End ProcessMonitor.

(** ** [os-session-monitor]

    The probes of the platform ([query user], [who], [loginctl],
    [xprintidle], ...) are the input of the script: [userData] is the
    [username] of the session they found, if any, [systemUser] is
    [os.userInfo().username], [idle] the idle time in milliseconds. *)
Module SessionMonitor.

Definition script (userData : option string) (systemUser : string) (idle : Z)
  : SessionData :=
  {| username := default systemUser (truthy userData);
     isIdle := 300000 <? idle;
     idleTime := idle |}.

End SessionMonitor.

(** World [w] with [settings.idleThreshold] set to [threshold]. *)
Definition withIdleThreshold (threshold : Z) (w : World) : World :=
  withState (setSettings (fun s =>
    {| pauseOnIdle := pauseOnIdle s; idleThreshold := threshold;
       warningTimes := warningTimes s; gracePeriod := gracePeriod s;
       monitorInterval := monitorInterval s;
       killOnViolation := killOnViolation s;
       notifyParent := notifyParent s |}) (state w)) w.

(** A [kill-process] action for the process named [name]. *)
Definition isKillOf (name : string) (o : Output) : bool :=
  match o with
  | TriggerAction _ actionId (KillArgs _ processName _) =>
      (String.eqb actionId "kill-process" && String.eqb processName name)%bool
  | _ => false
  end.

(** * The actions deployed to the agents

    A command run with [execSync] either exits with status 0 or throws an
    error with a message; the oracle [execSync] gives [None] for the first and
    the message for the second. A command started with [exec] runs in the
    background: the script sees nothing of its outcome. *)

(** ** [show-warning]

    [title] and [message] are strings, as in every call of the plugin: the
    only thing that can throw in the script is a command. *)
Module ShowWarning.

(** Characters by their code. *)
Definition exclamation : Ascii.ascii := Ascii.ascii_of_nat 33.
Definition doubleQuote : Ascii.ascii := Ascii.ascii_of_nat 34.
Definition dollar : Ascii.ascii := Ascii.ascii_of_nat 36.
Definition singleQuote : Ascii.ascii := Ascii.ascii_of_nat 39.
Definition backslash : Ascii.ascii := Ascii.ascii_of_nat 92.
Definition backquote : Ascii.ascii := Ascii.ascii_of_nat 96.

(** The characters that [escapeShell] escapes: single and double quote,
    backslash, dollar, backquote and exclamation mark. *)
Definition shellSpecial (c : Ascii.ascii) : bool :=
  existsb (Ascii.eqb c)
    [singleQuote; doubleQuote; backslash; dollar; backquote; exclamation].

(** Every character of the class is replaced by a backslash followed by
    the character itself. *)
Fixpoint escapeShell (str : string) : string :=
  match str with
  | EmptyString => EmptyString
  | String c rest =>
      if shellSpecial c
      then String backslash (String c (escapeShell rest))
      else String c (escapeShell rest)
  end.

(** Every occurrence of the character [q] is replaced by two of them. *)
Fixpoint doubled (q : Ascii.ascii) (str : string) : string :=
  match str with
  | EmptyString => EmptyString
  | String c rest =>
      if Ascii.eqb c q
      then String q (String q (doubled q rest))
      else String c (doubled q rest)
  end.

Definition escapePowerShell (str : string) : string :=
  doubled backquote (doubled singleQuote str).

(** A string in which every character of the class is preceded by a
    backslash that escapes it. *)
Fixpoint escaped (s : string) : bool :=
  match s with
  | EmptyString => true
  | String c rest =>
      if Ascii.eqb c backslash then
        match rest with
        | String d rest' => (shellSpecial d && escaped rest')%bool
        | EmptyString => false
        end
      else (negb (shellSpecial c) && escaped rest)%bool
  end.

Inductive Command :=
| powershell | msg | osascript | notifySend.

Record Result := {
  success : bool;
  method : option string;
  error : option string
}.

Definition shown (by_ : string) : Result :=
  {| success := true; method := Some by_; error := None |}.

Definition failed (message : string) : Result :=
  {| success := false; method := None; error := Some message |}.

Section Script.
Variable execSync : Command -> option string.

Definition showWindowsNotification : Result :=
  match execSync powershell with
  | None => shown "powershell"
  | Some error =>
      match execSync msg with
      | None => shown "msg"
      | Some _ => failed error
      end
  end.

(** The fallback starts [terminal-notifier] with [exec]. *)
Definition showMacOSNotification : Result :=
  match execSync osascript with
  | None => shown "osascript"
  | Some _ => shown "terminal-notifier"
  end.

(** The first fallback starts [zenity] with [exec] and returns; [kdialog]
    and [xmessage] come after it. *)
Definition showLinuxNotification : Result :=
  match execSync notifySend with
  | None => shown "notify-send"
  | Some _ => shown "zenity"
  end.

Definition script (platform : string) : Result :=
  if String.eqb platform "win32" then showWindowsNotification
  else if String.eqb platform "darwin" then showMacOSNotification
  else showLinuxNotification.

End Script.
End ShowWarning.

(** ** [lock-session] *)
Module LockSession.

Inductive Command :=
| rundll32 | powershell
| CGSession | ScreenSaverEngine
| loginctl | xdgScreensaver | gnomeScreensaver | gnomeDbus | kdeQdbus
| cinnamon | mate | xflock4.

Record Result := {
  success : bool;
  method : option string;
  error : option string
}.

Definition locked (by_ : string) : Result :=
  {| success := true; method := Some by_; error := None |}.

Definition failed (message : string) : Result :=
  {| success := false; method := None; error := Some message |}.

Section Script.
Variable execSync : Command -> option string.

(** [try { execSync(c); return { success: true, method } } catch (e) { ... }] *)
Definition attempt (c : Command) (by_ : string) (otherwise : Result) : Result :=
  match execSync c with
  | None => locked by_
  | Some _ => otherwise
  end.

Definition lockWindows : Result :=
  match execSync rundll32 with
  | None => locked "rundll32"
  | Some error => attempt powershell "powershell" (failed error)
  end.

(** The first fallback starts [osascript] with [exec] and returns; the
    [ScreenSaverEngine] fallback comes after it. *)
Definition lockMacOS : Result :=
  attempt CGSession "CGSession" (locked "screensaver").

(** Methods 1 to 8 use [execSync]; method 9 starts [i3lock] with [exec] and
    returns; [slock] and the final failure come after it. *)
Definition lockLinux : Result :=
  attempt loginctl "loginctl"
    (attempt xdgScreensaver "xdg-screensaver"
       (attempt gnomeScreensaver "gnome-screensaver"
          (attempt gnomeDbus "gnome-dbus"
             (attempt kdeQdbus "kde-qdbus"
                (attempt cinnamon "cinnamon"
                   (attempt mate "mate"
                      (attempt xflock4 "xflock4"
                         (locked "i3lock")))))))).

Definition script (platform : string) : Result :=
  if String.eqb platform "win32" then lockWindows
  else if String.eqb platform "darwin" then lockMacOS
  else lockLinux.

End Script.
End LockSession.

(** ** [kill-process] *)
Module KillProcess.

Inductive Command :=
| taskkillPid (pid : Z) (force : bool)
| taskkillName (processName : string) (force : bool)
| kill (signal : string) (pid : Z)
| pkill (signal : string) (processName : string)
| killall (signal : string) (processName : string).

Record Result := {
  success : bool;
  method : option string;
  alreadyTerminated : bool;
  error : option string
}.

Definition killed (by_ : string) : Result :=
  {| success := true; method := Some by_; alreadyTerminated := false;
     error := None |}.

Definition gone : Result :=
  {| success := true; method := None; alreadyTerminated := true; error := None |}.

Definition failed (message : string) : Result :=
  {| success := false; method := None; alreadyTerminated := false;
     error := Some message |}.

(** [if (pid)]: a number that is present and not zero. *)
Definition truthyPid (pid : option Z) : option Z :=
  match pid with
  | Some 0 => None
  | other => other
  end.

Section Script.
Variable execSync : Command -> option string.

(** The script's arguments; [force] is [true] when absent. *)
Variable pid : option Z.
Variable processName : option string.
Variable force : bool.

(** The [catch] of [killUnix]. *)
Definition unixError (message : string) : Result :=
  if (includes message "No such process" || includes message "no process found")%bool
  then gone else failed message.

(** The [catch] of [killWindows]. *)
Definition windowsError (message : string) : Result :=
  if (includes message "not found" || includes message "not running")%bool
  then gone else failed message.

(** The commands run, in order, and the result. *)
Definition killUnix : list Command * Result :=
  let signal := if force then "-9" else "-15" in
  match truthyPid pid with
  | Some p =>
      ([kill signal p],
       match execSync (kill signal p) with
       | None => killed "pid"
       | Some message => unixError message
       end)
  | None =>
      match truthy processName with
      | Some name =>
          match execSync (pkill signal name) with
          | None => ([pkill signal name], killed "pkill")
          | Some _ =>
              ([pkill signal name; killall signal name],
               match execSync (killall signal name) with
               | None => killed "killall"
               | Some message => unixError message
               end)
          end
      | None => ([], failed "No pid or processName provided")
      end
  end.

Definition killWindows : list Command * Result :=
  match truthyPid pid with
  | Some p =>
      ([taskkillPid p force],
       match execSync (taskkillPid p force) with
       | None => killed "pid"
       | Some message => windowsError message
       end)
  | None =>
      match truthy processName with
      | Some name =>
          ([taskkillName name force],
           match execSync (taskkillName name force) with
           | None => killed "name"
           | Some message => windowsError message
           end)
      | None => ([], failed "No pid or processName provided")
      end
  end.

Definition script (platform : string) : list Command * Result :=
  if String.eqb platform "win32" then killWindows else killUnix.

End Script.
End KillProcess.

(** ** Internet enforcement *)

(** No agent has process data recorded. *)
Definition noProcessData (s : PluginState) : Prop :=
  forall a agent, agents s !! a = Some agent -> currentProcessData agent = None.

(** What [blockBrowsers] sends: the kills of the recorded browsers and the
    warning that follows them. *)
Definition isInternetEnforcement (o : Output) : bool :=
  match o with
  | TriggerAction _ _ (KillArgs _ _ reason) =>
      String.eqb reason "internet_quota_exhausted"
  | TriggerAction _ _ (WarningArgs title _ _) =>
      String.eqb title "Internet Time Exhausted"
  | _ => false
  end.

(** From a world whose state satisfies [I], [m] ends in such a world and
    emits no output recognised by [P]. *)
Definition guardedAt {A} (I : PluginState -> Prop) (P : Output -> bool)
  (m : M A) (w : World) : Prop :=
  I (state w) -> I (state (exec m w)) /\ List.filter P (outputs m w) = [].

Definition guarded {A} (I : PluginState -> Prop) (P : Output -> bool) (m : M A)
  : Prop :=
  forall w, guardedAt I P m w.


(** ** Dispatches that the agent service rejects

    [agentService.triggerAction] returns a promise. [handleProcessData]
    awaits it outside any [try] block: when the promise is rejected the
    handler ends there, and what follows the dispatch - for this process and
    for the rest of the report - does not run. [accepts] tells which
    dispatches the service resolves; a rejected dispatch was still made. The
    handlers above are the case in which every dispatch is resolved. *)












(** * Properties *)

(** ** Unfolding the handler monad *)

Lemma bind_eq {A B} (m : M A) (k : A -> M B) w :
  bind m k w =
  (fst (k (fst (fst (m w))) (snd (fst (m w)))),
   (snd (m w) ++ snd (k (fst (fst (m w))) (snd (fst (m w)))))%list).
Proof.
  unfold bind. destruct (m w) as [[a w1] o1]. simpl.
  destruct (k a w1) as [[b w2] o2]. reflexivity.
Qed.

Lemma bind_getW {B} (k : World -> M B) w : bind getW k w = k w w.
Proof.
  unfold bind, getW. destruct (k w w) as [[b w2] o2]. reflexivity.
Qed.

Lemma outputs_bind {A B} (m : M A) (k : A -> M B) w :
  outputs (bind m k) w =
  (outputs m w ++ outputs (k (fst (fst (m w)))) (exec m w))%list.
Proof. unfold outputs, exec. rewrite bind_eq. reflexivity. Qed.

Lemma exec_bind {A B} (m : M A) (k : A -> M B) w :
  exec (bind m k) w = exec (k (fst (fst (m w)))) (exec m w).
Proof. unfold exec. rewrite bind_eq. reflexivity. Qed.

Lemma outputs_bind_getW {B} (k : World -> M B) w :
  outputs (bind getW k) w = outputs (k w) w.
Proof. unfold outputs. rewrite bind_getW. reflexivity. Qed.

Lemma exec_bind_getW {B} (k : World -> M B) w :
  exec (bind getW k) w = exec (k w) w.
Proof. unfold exec. rewrite bind_getW. reflexivity. Qed.

Lemma Qle_bool_false_iff (x y : Q) : Qle_bool x y = false <-> ~ (x <= y)%Q.
Proof.
  rewrite <- Qle_bool_iff. destruct (Qle_bool x y); split; congruence.
Qed.

(** Unfolds the primitives of a handler body down to pairs. *)
Ltac run_handler :=
  unfold logViolation, logActivity, triggerAction, toRenderer,
    configurationUpdate, when, skip, ret, emit, bind, getW, modifyState,
    modifyUsage, modifyShutdownTimers, setTimeout, clearTimeout;
  cbn [fst snd state usageTracking shutdownTimers timers nextTimer clock
       settings notifyParent killOnViolation setSettings setViolations
       setActivityLog setAgents agents].

Lemma length_zero_iff_nil_b {A} (l : list A) :
  negb (Nat.eqb (length l) 0) = true <-> l <> [].
Proof. destruct l; simpl; split; congruence. Qed.

(** ** Logout enforcement *)




(** ** The shutdown-timer table

    The timers armed by [scheduleShutdown] are kept in [shutdownTimers] and
    cleared before a new one is armed: at every instant at most one of them
    is armed per agent. (This is the discipline that the grace-period timers
    of [enforceLogout] lack.) *)

Lemma timersOk_frame w w' :
  timers w' = timers w -> shutdownTimers w' = shutdownTimers w ->
  nextTimer w' = nextTimer w -> timersOk w -> timersOk w'.
Proof.
  unfold timersOk, freshHandles, registered. intros -> -> ->. tauto.
Qed.

Lemma preserves_bind {A B} I (m : M A) (k : A -> M B) :
  preserves I m -> (forall a, preserves I (k a)) -> preserves I (bind m k).
Proof.
  intros Hm Hk w Hw. rewrite exec_bind. apply Hk, Hm, Hw.
Qed.

Lemma preserves_ret {A} I (a : A) : preserves I (ret a).
Proof. intros w Hw. exact Hw. Qed.

Lemma preserves_skip I : preserves I skip.
Proof. apply preserves_ret. Qed.

Lemma preserves_getW I : preserves I getW.
Proof. intros w Hw. exact Hw. Qed.

Lemma preserves_emit I o : preserves I (emit o).
Proof. intros w Hw. exact Hw. Qed.

Lemma preserves_when I b (m : M unit) : preserves I m -> preserves I (when b m).
Proof. intros H. destruct b; [exact H | apply preserves_skip]. Qed.

Lemma preserves_forEach {A} I (l : list A) (body : A -> M unit) :
  (forall x, preserves I (body x)) -> preserves I (forEach l body).
Proof.
  intros H. induction l as [|x l IH]; [apply preserves_skip|].
  cbn [forEach]. apply preserves_bind; [apply H | intros _; exact IH].
Qed.

Lemma timersOk_modifyState f : preserves timersOk (modifyState f).
Proof. intros w Hw. apply (timersOk_frame w); auto. Qed.

Lemma timersOk_modifyUsage f : preserves timersOk (modifyUsage f).
Proof. intros w Hw. apply (timersOk_frame w); auto. Qed.

Lemma timersOk_elapse ms : preserves timersOk (elapse ms).
Proof. intros w Hw. apply (timersOk_frame w); auto. Qed.

Lemma In_filter_timers id t (l : list Timer) :
  List.In t (List.filter (fun t => negb (Nat.eqb (t_id t) id)) l) ->
  List.In t l /\ t_id t <> id.
Proof.
  intros H. apply List.filter_In in H as [Hin Hne]. split; [exact Hin|].
  apply negb_true_iff, Nat.eqb_neq in Hne. exact Hne.
Qed.

Lemma NoDup_map_filter {A B} (f : A -> B) (P : A -> bool) (l : list A) :
  List.NoDup (List.map f l) -> List.NoDup (List.map f (List.filter P l)).
Proof.
  induction l as [|x l IH]; intros H; [constructor|].
  inversion H as [|? ? Hx Hl]; subst. simpl. destruct (P x); [|auto].
  simpl. constructor; [|auto].
  intros Hin. apply Hx. apply List.in_map_iff in Hin as (y & Hy & Hin).
  apply List.in_map_iff. exists y. split; [exact Hy|].
  apply List.filter_In in Hin as [Hin _]. exact Hin.
Qed.

Lemma timersOk_clearTimeout id : preserves timersOk (clearTimeout id).
Proof.
  intros w [[Hlt Hnd] Hreg]. unfold exec, clearTimeout. cbn.
  split; [split|].
  - cbn. intros t Ht. apply In_filter_timers in Ht as [Ht _]. auto.
  - cbn. apply NoDup_map_filter, Hnd.
  - intros t a c Ht Htask. cbn in *.
    apply In_filter_timers in Ht as [Ht _]. eauto.
Qed.

Lemma timersOk_setTimeout task delay :
  isShutdownTask task = false -> preserves timersOk (setTimeout task delay).
Proof.
  intros Htask w [[Hlt Hnd] Hreg]. unfold exec, setTimeout. cbn.
  split; [split|].
  - cbn. intros t Ht. apply List.in_app_iff in Ht as [Ht | [<- | []]].
    + specialize (Hlt t Ht). lia.
    + cbn. lia.
  - cbn. rewrite List.map_app. cbn.
    apply List.NoDup_app; [exact Hnd | repeat constructor; intros [] |].
    intros x Hx [<- | []]. apply List.in_map_iff in Hx as (t & Hid & Ht).
    specialize (Hlt t Ht). lia.
  - intros t a c Ht Hshut. cbn in *.
    apply List.in_app_iff in Ht as [Ht | [<- | []]]; [eauto|].
    cbn in Hshut. subst task. discriminate Htask.
Qed.

Lemma clear_registered a w :
  timersOk w ->
  let w1 := exec (match shutdownTimers w !! a with
                  | Some existingTimer => clearTimeout existingTimer
                  | None => skip
                  end) w in
  timersOk w1 /\ noShutdown a w1 /\ shutdownTimers w1 = shutdownTimers w.
Proof.
  intros Hw. destruct (shutdownTimers w !! a) as [id|] eqn:Hid; cbn zeta.
  - split; [apply timersOk_clearTimeout, Hw|]. split; [|reflexivity].
    intros t c Ht Htask. unfold exec, clearTimeout in Ht. cbn in Ht.
    apply In_filter_timers in Ht as [Ht Hne].
    destruct Hw as [_ Hreg]. specialize (Hreg t a c Ht Htask). congruence.
  - split; [exact Hw|]. split; [|reflexivity].
    intros t c Ht Htask. destruct Hw as [_ Hreg].
    specialize (Hreg t a c Ht Htask). congruence.
Qed.

Lemma warning_timer_keeps a b minutes delay :
  preserves (fun w => timersOk w /\ noShutdown a w)
            (setTimeout (WarningTask b minutes) delay).
Proof.
  intros w [Hok Hno]. split; [apply timersOk_setTimeout; [reflexivity | exact Hok]|].
  intros t c Ht Htask. unfold exec, setTimeout in Ht. cbn in Ht.
  apply List.in_app_iff in Ht as [Ht | [<- | []]].
  - exact (Hno t c Ht Htask).
  - discriminate Htask.
Qed.

Lemma scheduleWarnings_keeps a remaining times :
  preserves (fun w => timersOk w /\ noShutdown a w)
            (scheduleWarnings a remaining times).
Proof.
  unfold scheduleWarnings. apply preserves_forEach. intros minutes.
  destruct (minutes * 60 <? remaining); [|apply preserves_skip].
  apply preserves_bind; [apply warning_timer_keeps | intros _; apply preserves_skip].
Qed.

Lemma arm_shutdown a c delay w :
  timersOk w -> noShutdown a w ->
  timersOk (exec (let* timer := setTimeout (ShutdownTask a c) delay in
                  modifyShutdownTimers (fun m => <[a := timer]> m)) w).
Proof.
  intros [[Hlt Hnd] Hreg] Hno. unfold exec, bind, setTimeout, modifyShutdownTimers.
  cbn. split; [split|].
  - cbn. intros t Ht. apply List.in_app_iff in Ht as [Ht | [<- | []]].
    + specialize (Hlt t Ht). lia.
    + cbn. lia.
  - cbn. rewrite List.map_app. cbn.
    apply List.NoDup_app; [exact Hnd | repeat constructor; intros [] |].
    intros x Hx [<- | []]. apply List.in_map_iff in Hx as (t & Hid & Ht).
    specialize (Hlt t Ht). lia.
  - intros t a' c' Ht Htask. cbn in *.
    apply List.in_app_iff in Ht as [Ht | [<- | []]].
    + destruct (decide (a = a')) as [<- | Hne].
      * destruct (Hno t c' Ht Htask).
      * rewrite lookup_insert_ne by exact Hne. eauto.
    + cbn in Htask. injection Htask as <- <-. apply lookup_insert_eq.
Qed.

Lemma timersOk_scheduleShutdown a c remaining :
  preserves timersOk (scheduleShutdown a c remaining).
Proof.
  intros w Hw. unfold scheduleShutdown. rewrite exec_bind_getW, exec_bind.
  destruct (clear_registered a w Hw) as (Hok & Hno & _).
  set (w1 := exec _ w) in *.
  destruct (3600 <? remaining); [exact Hok|].
  rewrite exec_bind.
  destruct (scheduleWarnings_keeps a remaining (warningTimes (settings (state w)))
              w1 (conj Hok Hno)) as [Hok2 Hno2].
  apply arm_shutdown; assumption.
Qed.

Lemma timersOk_unlinkAgent a : preserves timersOk (unlinkAgent a).
Proof.
  unfold unlinkAgent.
  apply preserves_bind; [apply timersOk_modifyState | intros _].
  intros w Hw. rewrite exec_bind_getW, exec_bind.
  assert (Hmid : timersOk
            (exec (match shutdownTimers w !! a with
                   | Some timer =>
                       clearTimeout timer >>
                       modifyShutdownTimers (fun m => delete a m)
                   | None => skip
                   end) w)).
  { pose proof (clear_registered a w Hw) as Hclear.
    destruct (shutdownTimers w !! a) as [id|]; [|exact Hw].
    cbn zeta in Hclear. destruct Hclear as ([Hfresh Hreg] & Hno & _).
    rewrite exec_bind. split; [exact Hfresh|].
    intros t a' c' Ht Htask. cbn in Ht |- *.
    destruct (decide (a = a')) as [<- | Hne].
    - destruct (Hno t c' Ht Htask).
    - rewrite lookup_delete_ne by exact Hne. exact (Hreg t a' c' Ht Htask). }
  exact Hmid.
Qed.

(** Decomposes a handler body; [scheduleShutdown] and [unlinkAgent] are
    taken as wholes. *)
Ltac timers_step :=
  first
    [ apply timersOk_scheduleShutdown
    | apply timersOk_unlinkAgent
    | apply preserves_emit
    | apply preserves_getW
    | apply preserves_ret
    | apply timersOk_modifyState
    | apply timersOk_modifyUsage
    | apply timersOk_clearTimeout
    | apply timersOk_elapse
    | apply timersOk_setTimeout; reflexivity
    | apply preserves_when
    | apply preserves_forEach; intros ?
    | progress cbv zeta
    | match goal with
      | |- preserves _ (match ?x with _ => _ end) => destruct x
      end
    | apply preserves_bind; [|intros ?] ].

Ltac timers_body := repeat timers_step.

Lemma timersOk_enforceLogout ctx a c reason :
  preserves timersOk (enforceLogout ctx a c reason).
Proof. unfold enforceLogout, toRenderer, triggerAction. timers_body. Qed.

Lemma timersOk_checkQuotasAndEnforce ctx a c sd :
  preserves timersOk (checkQuotasAndEnforce ctx a c sd).
Proof.
  unfold checkQuotasAndEnforce, afterComputerCheck, thresholdWarnings.
  timers_body.
Qed.

Lemma timersOk_handle ce : preserves timersOk (handle ce).
Proof.
  destruct ce as [ctx ev]. unfold handle. cbn [fst snd].
  destruct ev.
  - unfold handleSessionData. timers_body.
    apply timersOk_checkQuotasAndEnforce.
  - unfold handleProcessData. timers_body.
  - unfold fireTimer, runTask. timers_body.
  - apply timersOk_unlinkAgent.
  - unfold linkAgent. timers_body.
  - unfold forceLogout. timers_body.
  - apply timersOk_elapse.
Qed.

Lemma timersOk_run evs : preserves timersOk (run evs).
Proof. apply preserves_forEach, timersOk_handle. Qed.

Lemma same_handle_at_most_one (P : Timer -> bool) (l : list Timer) :
  List.NoDup (List.map t_id l) ->
  (forall x y, List.In x l -> List.In y l -> P x = true -> P y = true ->
               t_id x = t_id y) ->
  (length (List.filter P l) <= 1)%nat.
Proof.
  induction l as [|x l IH]; intros Hnd Hsame; [simpl; lia|].
  inversion Hnd as [|? ? Hx Hl]; subst. simpl.
  assert (IH' : (length (List.filter P l) <= 1)%nat).
  { apply IH; [exact Hl|]. intros y z Hy Hz. apply Hsame; right; assumption. }
  destruct (P x) eqn:Px; [|exact IH'].
  destruct (List.filter P l) as [|y ys] eqn:E; [simpl; lia|]. exfalso.
  assert (Hy : List.In y (List.filter P l)) by (rewrite E; left; reflexivity).
  apply List.filter_In in Hy as [Hin Py].
  apply Hx. apply List.in_map_iff. exists y. split; [|exact Hin].
  symmetry. apply Hsame; [left; reflexivity | right; exact Hin | exact Px | exact Py].
Qed.

(** Along every run of the event loop from a well-formed world (such as a
    world with no timer armed), at most one timer of [scheduleShutdown] is
    armed per agent. *)
Lemma shutdown_timer_at_most_one evs w a :
  timersOk w ->
  (length (List.filter (isShutdownTimerOf a) (timers (exec (run evs) w))) <= 1)%nat.
Proof.
  intros Hw. destruct (timersOk_run evs w Hw) as [[_ Hnd] Hreg].
  apply same_handle_at_most_one; [exact Hnd|].
  intros x y Hx Hy Px Py. unfold isShutdownTimerOf in Px, Py.
  destruct (t_task x) as [| a1 c1 | |] eqn:Ex; try discriminate Px.
  destruct (t_task y) as [| a2 c2 | |] eqn:Ey; try discriminate Py.
  apply String.eqb_eq in Px, Py. subst a1 a2.
  pose proof (Hreg x a c1 Hx Ex) as H1. pose proof (Hreg y a c2 Hy Ey) as H2.
  congruence.
Qed.

Lemma timersOk_initial : timersOk Fleet.w0.
Proof.
  split; [split|].
  - intros t [].
  - constructor.
  - intros t a c [].
Qed.

(** Whatever is replayed on the example fleet, [A1] never has two shutdown
    timers armed. *)
Corollary fleet_shutdown_timer_at_most_one evs :
  (length (List.filter (isShutdownTimerOf "A1")
             (timers (exec (run evs) Fleet.w0))) <= 1)%nat.
Proof. apply shutdown_timer_at_most_one, timersOk_initial. Qed.

Lemma noShutdown_filter a w :
  noShutdown a w -> List.filter (isShutdownTimerOf a) (timers w) = [].
Proof.
  intros Hno. destruct (List.filter _ _) as [|t ts] eqn:E; [reflexivity|]. exfalso.
  assert (Ht : List.In t (List.filter (isShutdownTimerOf a) (timers w)))
    by (rewrite E; left; reflexivity).
  apply List.filter_In in Ht as [Hin Hshut]. unfold isShutdownTimerOf in Hshut.
  destruct (t_task t) as [| a' c | |] eqn:Etask; try discriminate Hshut.
  apply String.eqb_eq in Hshut. subst a'. exact (Hno t c Hin Etask).
Qed.

(** Unlinking leaves no timer of [scheduleShutdown] armed for the agent. *)
Lemma unlinkAgent_clears_shutdown a w :
  timersOk w ->
  List.filter (isShutdownTimerOf a) (timers (exec (unlinkAgent a) w)) = [].
Proof.
  intros Hw. unfold unlinkAgent. rewrite exec_bind, exec_bind_getW, exec_bind.
  set (w0 := exec (modifyState _) w).
  assert (Hw0 : timersOk w0) by (apply timersOk_modifyState; exact Hw).
  pose proof (clear_registered a w0 Hw0) as Hclear.
  set (w1 := exec (match shutdownTimers w0 !! a with
                   | Some timer => _
                   | None => _
                   end) w0).
  change (exec configurationUpdate w1) with w1.
  apply noShutdown_filter. subst w1.
  destruct (shutdownTimers w0 !! a) as [id|]; cbn zeta in Hclear;
    destruct Hclear as (_ & Hno & _); [|exact Hno].
  rewrite exec_bind. exact Hno.
Qed.

(** ** Pending logouts *)

(** C1 fails on the code: the grace-period timer of [enforceLogout] is kept
    in no table and is never cleared. Two session reports 30 s apart while
    the child is banned leave two armed logout timers for [A1]; when both
    have come due, both fire and the agent is told to log out twice. *)
Theorem C1_two_logouts_pending :
  let w := exec (run Replay.bannedTwice) Fleet.w0 in
  logoutTimers "A1" w
  = [ {| t_id := 0; t_due := Fleet.monday + 60000;
         t_task := LogoutTask "A1" "Computer access blocked" |};
      {| t_id := 1; t_due := Fleet.monday + 90000;
         t_task := LogoutTask "A1" "Computer access blocked" |} ]
  /\ length (logoutTimers "A1" w) = 2%nat
  /\ List.filter isLogoutAction
       (outputs (run [ (Fleet.withBan, Elapse 60000);
                       (Fleet.withBan, TimerFires 0);
                       (Fleet.withBan, TimerFires 1) ]) w)
     = [ TriggerAction "A1" "logout-user"
           (LogoutArgs (Some "kid") "Computer access blocked");
         TriggerAction "A1" "logout-user"
           (LogoutArgs (Some "kid") "Computer access blocked") ].
Proof.
  vm_compute. repeat split.
Qed.

(** ** Unlinking *)

(** C4 fails on the code: [unlinkAgent] clears the timer kept in
    [shutdownTimers] only. A ban arms the grace-period logout for [A1]; the
    agent is unlinked 10 s later; the logout timer is still armed, and when
    the grace period runs out the agent is told to log the user out.
    Likewise a warning timer armed by [scheduleShutdown] before the unlink
    fires after it (while the shutdown timer itself was cleared). *)
Theorem C4_timers_fire_after_unlink :
  let w := exec (run Replay.banThenUnlink) Fleet.w0 in
  let w' := exec (run Replay.warnThenUnlink) Fleet.w0 in
  (childId <$> agents (state w) !! "A1") = Some None
  /\ (enabled <$> agents (state w) !! "A1") = Some false
  /\ logoutTimers "A1" w
     = [ {| t_id := 0; t_due := Fleet.monday + 60000;
            t_task := LogoutTask "A1" "Computer access blocked" |} ]
  /\ List.filter isAction (outputs (run Replay.graceRunsOut) w)
     = [ TriggerAction "A1" "logout-user"
           (LogoutArgs (Some "kid") "Computer access blocked") ]
  /\ (childId <$> agents (state w') !! "A1") = Some None
  /\ logoutTimers "A1" w' = []
  /\ List.filter isAction (outputs (run Replay.warningComesDue) w')
     = [ TriggerAction "A1" "show-warning" (timeWarningArgs computer 15) ].
Proof.
  vm_compute. repeat split.
Qed.

(** ** Which handlers can send a time warning *)

Lemma silent_ret {A} P (a : A) : silent P (ret a).
Proof. intros w. reflexivity. Qed.

Lemma silent_skip P : silent P skip.
Proof. apply silent_ret. Qed.

Lemma silent_getW P : silent P getW.
Proof. intros w. reflexivity. Qed.

Lemma silent_emit P o : P o = false -> silent P (emit o).
Proof. intros H w. unfold outputs, emit. simpl. rewrite H. reflexivity. Qed.

Lemma silent_bind {A B} P (m : M A) (k : A -> M B) :
  silent P m -> (forall a, silent P (k a)) -> silent P (bind m k).
Proof.
  intros Hm Hk w. rewrite outputs_bind, List.filter_app, Hm, Hk. reflexivity.
Qed.

Lemma silent_when P b (m : M unit) : silent P m -> silent P (when b m).
Proof. intros H. destruct b; [exact H | apply silent_skip]. Qed.

Lemma silent_forEach {A} P (l : list A) (body : A -> M unit) :
  (forall x, silent P (body x)) -> silent P (forEach l body).
Proof.
  intros H. induction l as [|x l IH]; [apply silent_skip|].
  cbn [forEach]. apply silent_bind; [apply H | intros _; exact IH].
Qed.

Lemma silent_modifyState P f : silent P (modifyState f).
Proof. intros w. reflexivity. Qed.

Lemma silent_modifyShutdownTimers P f : silent P (modifyShutdownTimers f).
Proof. intros w. reflexivity. Qed.

Lemma silent_setTimeout P task delay : silent P (setTimeout task delay).
Proof. intros w. reflexivity. Qed.

Lemma silent_clearTimeout P id : silent P (clearTimeout id).
Proof. intros w. reflexivity. Qed.

Create HintDb silent.

#[local] Hint Resolve silent_ret silent_skip silent_getW silent_modifyState
  silent_modifyShutdownTimers silent_setTimeout silent_clearTimeout : silent.

(** Decomposes a handler body along its binds, loops and branches; what is
    left are the outputs that [P] recognises. *)
Ltac silent_step :=
  first
    [ apply silent_emit; reflexivity
    | solve [auto with silent]
    | apply silent_modifyState
    | apply silent_when
    | apply silent_forEach; intros ?
    | match goal with
      | |- silent _ (match ?x with _ => _ end) => destruct x
      end
    | apply silent_bind; [|intros ?] ].

Ltac silent_body := repeat silent_step.

Lemma enforceLogout_no_time_warning ctx agentId child reason :
  silent isTimeWarning (enforceLogout ctx agentId child reason).
Proof.
  unfold enforceLogout, toRenderer, triggerAction. silent_body.
Qed.

Lemma scheduleShutdown_no_output P agentId child remaining :
  silent P (scheduleShutdown agentId child remaining).
Proof.
  unfold scheduleShutdown, scheduleWarnings. silent_body.
Qed.

Lemma blockBrowsers_no_time_warning agentId child :
  silent isTimeWarning (blockBrowsers agentId child).
Proof.
  unfold blockBrowsers, triggerAction. silent_body.
Qed.

Lemma checkBedtime_no_time_warning ctx agentId child :
  silent isTimeWarning (checkBedtime ctx agentId child).
Proof.
  unfold checkBedtime, toRenderer, triggerAction. silent_body.
Qed.

Lemma afterComputerCheck_no_time_warning ctx agentId child r :
  silent isTimeWarning (afterComputerCheck ctx agentId child r).
Proof.
  unfold afterComputerCheck.
  apply silent_bind; [apply silent_when, blockBrowsers_no_time_warning|].
  intros _. apply checkBedtime_no_time_warning.
Qed.

(** ** Threshold warnings of one evaluation *)

Lemma showTimeWarning_known ctx agentId ty minutes w agent :
  agents (state w) !! agentId = Some agent ->
  showTimeWarning ctx agentId ty minutes w
  = (tt, w,
     TriggerAction agentId "show-warning" (timeWarningArgs ty minutes)
     :: if sendToRenderer ctx
        then [ToRenderer "osQuotaWarning" (QuotaWarning agentId ty minutes)]
        else []).
Proof.
  intros H. unfold showTimeWarning. rewrite bind_getW, H.
  run_handler. destruct (sendToRenderer ctx); reflexivity.
Qed.

Lemma showTimeWarning_unknown ctx agentId ty minutes w :
  agents (state w) !! agentId = None ->
  showTimeWarning ctx agentId ty minutes w = (tt, w, []).
Proof.
  intros H. unfold showTimeWarning. rewrite bind_getW, H. reflexivity.
Qed.

Lemma timeWarning_recognised agentId ty minutes :
  isTimeWarning (TriggerAction agentId "show-warning" (timeWarningArgs ty minutes))
  = true.
Proof. reflexivity. Qed.

Lemma thresholdWarnings_exec ctx agentId minutes times w :
  exec (thresholdWarnings ctx agentId minutes times) w = w.
Proof.
  unfold thresholdWarnings.
  induction times as [|t times IH]; [reflexivity|].
  cbn [forEach]. rewrite exec_bind.
  assert (Hw : exec (when (inWarningWindow minutes t)
                          (showTimeWarning ctx agentId computer minutes)) w = w).
  { destruct (inWarningWindow minutes t); [|reflexivity]. cbn [when]. unfold exec.
    destruct (agents (state w) !! agentId) as [agent|] eqn:Hag.
    - rewrite (showTimeWarning_known _ _ _ _ _ _ Hag). reflexivity.
    - rewrite (showTimeWarning_unknown _ _ _ _ _ Hag). reflexivity. }
  rewrite Hw. exact IH.
Qed.

Lemma thresholdWarnings_count ctx agentId minutes times w agent :
  agents (state w) !! agentId = Some agent ->
  length (List.filter isTimeWarning
            (outputs (thresholdWarnings ctx agentId minutes times) w))
  = length (List.filter (inWarningWindow minutes) times).
Proof.
  intros Hag. unfold thresholdWarnings.
  induction times as [|t times IH]; [reflexivity|].
  cbn [forEach List.filter]. rewrite outputs_bind, List.filter_app, length_app.
  fold (thresholdWarnings ctx agentId minutes times).
  destruct (inWarningWindow minutes t) eqn:Hwin; cbn [when].
  - unfold outputs at 1, exec.
    rewrite (showTimeWarning_known _ _ _ _ _ _ Hag). cbn [fst snd].
    fold (outputs (thresholdWarnings ctx agentId minutes times) w).
    unfold thresholdWarnings. rewrite IH.
    cbn [List.filter]. rewrite timeWarning_recognised.
    destruct (sendToRenderer ctx); reflexivity.
  - unfold thresholdWarnings. cbn. exact IH.
Qed.

Lemma inWarningWindow_unique minutes t1 t2 :
  inWarningWindow minutes t1 = true ->
  inWarningWindow minutes t2 = true ->
  t1 = t2.
Proof.
  unfold inWarningWindow. intros H1 H2.
  apply andb_true_iff in H1 as [U1 L1]. apply andb_true_iff in H2 as [U2 L2].
  apply negb_true_iff, Qle_bool_false_iff, Qnot_le_lt in L1, L2.
  apply Qle_bool_iff in U1, U2.
  assert (A : (inject_Z (t1 - 1) < inject_Z t2)%Q)
    by (eapply Qlt_le_trans; eassumption).
  assert (B : (inject_Z (t2 - 1) < inject_Z t1)%Q)
    by (eapply Qlt_le_trans; eassumption).
  rewrite <- Zlt_Qlt in A, B. lia.
Qed.

Lemma filter_at_most_one {A} (P : A -> bool) (l : list A) :
  NoDup l ->
  (forall x y, P x = true -> P y = true -> x = y) ->
  (length (List.filter P l) <= 1)%nat.
Proof.
  intros Hnd Huniq. induction Hnd as [|x l Hx Hnd IH]; [simpl; lia|].
  simpl. destruct (P x) eqn:Px; [|exact IH].
  assert (Hnone : List.filter P l = []).
  { destruct (List.filter P l) as [|y ys] eqn:E; [reflexivity|]. exfalso.
    assert (Hy : List.In y (List.filter P l)) by (rewrite E; left; reflexivity).
    apply List.filter_In in Hy as [Hin Py].
    apply Hx. apply list_elem_of_In. rewrite (Huniq x y Px Py). exact Hin. }
  rewrite Hnone. simpl. lia.
Qed.

Lemma filter_exactly_one {A} (P : A -> bool) (l : list A) x :
  NoDup l ->
  (forall x y, P x = true -> P y = true -> x = y) ->
  List.In x l -> P x = true ->
  length (List.filter P l) = 1%nat.
Proof.
  intros Hnd Huniq Hin Px.
  pose proof (filter_at_most_one P l Hnd Huniq) as Hle.
  assert (Hx : List.In x (List.filter P l)) by (apply List.filter_In; auto).
  destruct (List.filter P l); [destruct Hx | simpl in *; lia].
Qed.

Lemma silent_length {A} P (m : M A) w :
  silent P m -> length (List.filter P (outputs m w)) = 0%nat.
Proof. intros H. rewrite H. reflexivity. Qed.

(** The time warnings of an evaluation that reaches the threshold loop are
    those of the loop. *)
Lemma evaluation_time_warnings ctx agentId child w agent v r :
  agents (state w) !! agentId = Some agent ->
  length (List.filter isTimeWarning
     (outputs
        (thresholdWarnings ctx agentId (remaining_seconds v # 60)
           (warningTimes (settings (state w))) >>
         if remaining_seconds v <=? 0
         then enforceLogout ctx agentId (Some child) "Computer time exhausted"
         else scheduleShutdown agentId child (remaining_seconds v) >>
              afterComputerCheck ctx agentId child r) w))
  = length (List.filter (inWarningWindow (remaining_seconds v # 60))
              (warningTimes (settings (state w)))).
Proof.
  intros Hag. rewrite outputs_bind, List.filter_app, length_app.
  rewrite (thresholdWarnings_count _ _ _ _ _ _ Hag).
  rewrite silent_length; [lia|].
  destruct (remaining_seconds v <=? 0).
  - apply enforceLogout_no_time_warning.
  - apply silent_bind; [apply scheduleShutdown_no_output|].
    intros _. apply afterComputerCheck_no_time_warning.
Qed.

(** C2, as the code has it. Within one quota evaluation at most one time
    warning is sent when the configured warning times are pairwise
    distinct. Nothing is remembered between evaluations: whenever the
    verdict does not block and the remaining minutes lie in the window
    (t − 1, t] of a configured warning time t, the evaluation sends the
    warning, whatever was sent earlier that day. *)
Theorem C2_one_time_warning_per_evaluation ctx agentId child sd w :
  NoDup (warningTimes (settings (state w))) ->
  (length (timeWarningsOf ctx agentId child sd w) <= 1)%nat
  /\ forall check agent v t,
       allow2Client ctx = Some check ->
       agents (state w) !! agentId = Some agent ->
       check child computer agentId = Returns v ->
       verdictBlocks v = false ->
       (agentBrowsers agent = [] \/ check child internet agentId <> Throws) ->
       List.In t (warningTimes (settings (state w))) ->
       inWarningWindow (remaining_seconds v # 60) t = true ->
       length (timeWarningsOf ctx agentId child sd w) = 1%nat.
Proof.
  intros Hnd. unfold timeWarningsOf, checkQuotasAndEnforce. split.
  - destruct (allow2Client ctx) as [check|]; [|simpl; lia].
    rewrite outputs_bind_getW.
    destruct (agents (state w) !! agentId) as [agent|] eqn:Hag; [|simpl; lia].
    destruct (check child computer agentId) as [| |v]; [simpl; lia| |];
      destruct (if negb (Nat.eqb (length (agentBrowsers agent)) 0)
                then check child internet agentId else NoResult) eqn:Hnet;
      try (simpl; lia);
      try (rewrite silent_length;
           [lia | apply afterComputerCheck_no_time_warning]).
    + destruct (verdictBlocks v).
      * rewrite silent_length; [lia | apply enforceLogout_no_time_warning].
      * rewrite (evaluation_time_warnings _ _ _ _ _ _ _ Hag).
        apply filter_at_most_one; [exact Hnd | apply inWarningWindow_unique].
    + destruct (verdictBlocks v).
      * rewrite silent_length; [lia | apply enforceLogout_no_time_warning].
      * rewrite (evaluation_time_warnings _ _ _ _ _ _ _ Hag).
        apply filter_at_most_one; [exact Hnd | apply inWarningWindow_unique].
  - intros check agent v t Hc Hag Hv Hb Hnet Hin Hwin.
    rewrite Hc, outputs_bind_getW, Hag, Hv.
    assert (Hi : (if negb (Nat.eqb (length (agentBrowsers agent)) 0)
                  then check child internet agentId else NoResult) <> Throws).
    { destruct Hnet as [-> | Hne]; [simpl; congruence|].
      destruct (negb _); [exact Hne | congruence]. }
    destruct (if negb (Nat.eqb (length (agentBrowsers agent)) 0)
              then check child internet agentId else NoResult);
      [congruence | | ]; rewrite Hb;
      rewrite (evaluation_time_warnings _ _ _ _ _ _ _ Hag);
      apply (filter_exactly_one _ _ t Hnd (inWarningWindow_unique _) Hin Hwin).
Qed.

(** 900 s remain: the evaluation sends the 15-minute warning once. *)
Lemma C2_witness :
  (length (timeWarningsOf (Fleet.withRemaining 900) "A1" "C" (Some Fleet.kid)
             Fleet.w0) <= 1)%nat.
Proof.
  apply (C2_one_time_warning_per_evaluation (Fleet.withRemaining 900) "A1" "C"
           (Some Fleet.kid) Fleet.w0).
  apply (bool_decide_unpack _). vm_compute. reflexivity.
Defined.

(** C2 as stated fails. Two session reports 30 s apart on the same local
    day observe 900 s and 870 s remaining, both within the window of the
    15-minute threshold, and the 15-minute warning is sent twice. Likewise
    two reports observing 1000 s and 970 s each arm a timer for the
    15-minute warning, the second without cancelling the first; both timers
    fire and the warning is sent twice. *)
Lemma C2_counterexample :
  let sent evs :=
    List.filter isTimeWarning (outputs (run evs) Fleet.w0) in
  let fifteen :=
    TriggerAction "A1" "show-warning" (timeWarningArgs computer 15) in
  inWarningWindow (900 # 60) 15 = true
  /\ inWarningWindow (870 # 60) 15 = true
  /\ sent Replay.nearFifteen = [fifteen; fifteen]
  /\ localDay 0 (clock (exec (run Replay.nearFifteen) Fleet.w0))
     = localDay 0 (clock Fleet.w0)
  /\ sent Replay.rearmed = [fifteen; fifteen]
  /\ localDay 0 (clock (exec (run Replay.rearmed) Fleet.w0))
     = localDay 0 (clock Fleet.w0)
  /\ ~ (length (sent Replay.nearFifteen) <= 1)%nat.
Proof.
  vm_compute. repeat split. intros H. inversion H as [|? H1]. inversion H1.
Qed.

(** ** Parent accounts *)

(** Session reports of a parent account send no action to the agent, and
    the session is recorded on the agent. *)
Lemma handleSessionData_parent ctx agentId data w agent :
  agents (state w) !! agentId = Some agent ->
  arrayIncludes (default [] (parentAccounts (state w) !! agentId))
                (username data) = true ->
  List.filter isAction (outputs (handleSessionData ctx agentId data) w) = []
  /\ (currentSession <$> agents (state (exec (handleSessionData ctx agentId data) w))
        !! agentId) = Some (Some data).
Proof.
  intros Hag Hparent. unfold handleSessionData.
  rewrite outputs_bind_getW, exec_bind_getW, Hag.
  rewrite outputs_bind, exec_bind.
  destruct (truthy (default ∅ (userMappings (state w) !! agentId) !! username data))
    as [child|].
  - rewrite Hparent. rewrite outputs_bind, exec_bind. cbn.
    rewrite lookup_insert_eq. split; reflexivity.
  - rewrite outputs_bind, exec_bind. unfold toRenderer, configurationUpdate.
    destruct (sendToRenderer ctx); cbn; rewrite lookup_insert_eq; split; reflexivity.
Qed.

(** C3 fails on the code for process reports: [handleProcessData] never
    looks at the parent accounts. [dad], a parent account of [A1], is logged
    in (his session report sends no action and is recorded); the process
    report that follows finds Minecraft on the child's block list, and the
    agent is told to kill it and to show the warning. *)
Theorem C3_parent_process_is_killed :
  let ctx := Fleet.withRemaining 7200 in
  let w := exec (run Replay.parentSession) Fleet.w0 in
  (currentSession <$> agents (state w) !! "A1") = Some (Some Fleet.dad)
  /\ arrayIncludes (default [] (parentAccounts (state w) !! "A1"))
                   (username Fleet.dad) = true
  /\ List.filter isAction (outputs (run Replay.parentSession) Fleet.w0) = []
  /\ List.filter isAction (outputs (handleProcessData ctx "A1" Replay.minecraft) w)
     = [ TriggerAction "A1" "kill-process"
           (KillArgs 42 "Minecraft.exe" "blocked_process");
         TriggerAction "A1" "show-warning"
           (WarningArgs "Application Blocked"
              "Minecraft.exe is not allowed right now" normal) ].
Proof.
  vm_compute. repeat split.
Qed.

(** ** Oracle authority *)


(** ** Usage accounting *)

Lemma updateUsageTracking_cell agentId child ty data w t :
  usageCell agentId child ty w = Some t ->
  usageCell agentId child ty (exec (updateUsageTracking agentId child ty data) w)
  = Some (advanceTracking (pauseOnIdle (settings (state w))) ty data (clock w) t).
Proof.
  unfold usageCell. intros H.
  unfold exec, updateUsageTracking, bind, getW, modifyUsage. simpl.
  rewrite H. apply lookup_insert_eq.
Qed.

Lemma updateUsageTracking_fresh agentId child ty data w :
  usageCell agentId child ty w = None ->
  usageCell agentId child ty (exec (updateUsageTracking agentId child ty data) w)
  = Some (advanceTracking (pauseOnIdle (settings (state w))) ty data (clock w)
            {| startTime := clock w; lastUpdate := clock w; totalSeconds := 0 |}).
Proof.
  unfold usageCell. intros H.
  unfold exec, updateUsageTracking, bind, getW, modifyUsage. simpl.
  rewrite H. apply lookup_insert_eq.
Qed.

Lemma elapsedSeconds_nonneg now t :
  (0 <= elapsedSeconds now t)%Q <-> lastUpdate t <= now.
Proof.
  unfold elapsedSeconds, Qle. simpl. lia.
Qed.

(** C6, as the code has it. On an advance of an existing cell that counts
    the activity, the time added to the accumulator is exactly
    [(now − lastUpdate) / 1000] seconds, without clamping: it is
    non-negative exactly when the clock has not gone back since the last
    advance, and it is not bounded by the report interval. *)
Theorem C6_elapsed_added_unclamped agentId child ty data w t :
  usageCell agentId child ty w = Some t ->
  countsUsage (pauseOnIdle (settings (state w))) ty data = true ->
  (addedSeconds agentId child ty data w == (clock w - lastUpdate t) # 1000)%Q
  /\ ((0 <= addedSeconds agentId child ty data w)%Q <-> lastUpdate t <= clock w).
Proof.
  intros Hcell Hcount.
  assert (Hadd : (addedSeconds agentId child ty data w
                  == (clock w - lastUpdate t) # 1000)%Q).
  { unfold addedSeconds, cellSeconds.
    rewrite (updateUsageTracking_cell _ _ _ data _ _ Hcell), Hcell.
    unfold advanceTracking. rewrite Hcount. simpl. unfold elapsedSeconds. ring. }
  split; [exact Hadd|].
  rewrite Hadd. apply (elapsedSeconds_nonneg (clock w) t).
Qed.

(** A report after a gap of 10^8 ms. *)
Lemma C6_witness :
  (addedSeconds "A1" "C" computer (OfSession Fleet.kid) Usage.longGap
   == (clock Usage.longGap - Fleet.monday) # 1000)%Q.
Proof.
  apply (C6_elapsed_added_unclamped "A1" "C" computer (OfSession Fleet.kid)
           Usage.longGap
           {| startTime := Fleet.monday; lastUpdate := Fleet.monday;
              totalSeconds := 0 |}).
  - reflexivity.
  - reflexivity.
Defined.

(** C6 as stated fails. After a gap of 10^8 ms the advance adds 100000 s,
    not the clamped 60 s, and more than twice the report interval however
    the units are read; after the clock was set back by 5 s the advance adds
    −5 s. *)
Lemma C6_counterexample :
  let s := settings (state Usage.longGap) in
  let t := {| startTime := Fleet.monday; lastUpdate := Fleet.monday;
              totalSeconds := 0 |} in
  let added := addedSeconds "A1" "C" computer (OfSession Fleet.kid) Usage.longGap in
  usageCell "A1" "C" computer Usage.longGap = Some t
  /\ Qeq_bool added 100000 = true
  /\ Qeq_bool (clampedElapsed s (clock Usage.longGap) t) 60 = true
  /\ Qeq_bool added (clampedElapsed s (clock Usage.longGap) t) = false
  /\ Qle_bool added (inject_Z (2 * monitorInterval s)) = false
  /\ Qle_bool 0 (addedSeconds "A1" "C" computer (OfSession Fleet.kid)
                   Usage.clockSetBack) = false.
Proof.
  vm_compute. repeat split.
Qed.

(** C7, as the code has it. A cell is never reset: on every advance,
    whatever the local dates of this advance and of the previous one, the
    accumulated seconds after the advance are the accumulated seconds before
    it plus this advance's own contribution, and [startTime] is kept. In
    particular the total carried over a local-day boundary is never smaller
    than the total of the previous day when the clock has not gone back. *)
Theorem C7_usage_carried_over_midnight agentId child ty data w t :
  usageCell agentId child ty w = Some t ->
  let w' := exec (updateUsageTracking agentId child ty data) w in
  (cellSeconds agentId child ty w' ==
     totalSeconds t
     + (if countsUsage (pauseOnIdle (settings (state w))) ty data
        then (clock w - lastUpdate t) # 1000 else 0))%Q
  /\ option_map startTime (usageCell agentId child ty w') = Some (startTime t)
  /\ option_map lastUpdate (usageCell agentId child ty w') = Some (clock w)
  /\ (lastUpdate t <= clock w ->
      (totalSeconds t <= cellSeconds agentId child ty w')%Q).
Proof.
  intros Hcell w'. unfold cellSeconds. subst w'.
  rewrite (updateUsageTracking_cell _ _ _ data _ _ Hcell).
  unfold advanceTracking, elapsedSeconds. simpl.
  destruct (countsUsage _ ty data).
  - repeat split; try reflexivity.
    intros Hle. rewrite <- (Qplus_0_r (totalSeconds t)) at 1.
    apply Qplus_le_r. unfold Qle. simpl. lia.
  - repeat split; try reflexivity.
    + ring.
    + intros _. apply Qle_refl.
Qed.

(** The first report of Tuesday, 30 s after the last report of Monday. *)
Lemma C7_witness :
  (cellSeconds "A1" "C" computer
     (exec (updateUsageTracking "A1" "C" computer (OfSession Fleet.kid))
           Usage.overMidnight)
   == totalSeconds Usage.mondayCell
      + (if countsUsage (pauseOnIdle (settings (state Usage.overMidnight)))
                        computer (OfSession Fleet.kid)
         then (clock Usage.overMidnight - lastUpdate Usage.mondayCell) # 1000
         else 0))%Q.
Proof.
  apply (C7_usage_carried_over_midnight "A1" "C" computer (OfSession Fleet.kid)
           Usage.overMidnight Usage.mondayCell).
  reflexivity.
Defined.

(** C7 as stated fails. The cell holds 100 s on Monday 23:59:50; after the
    first report of Tuesday (00:00:20, another local day) it holds 130 s,
    which is more than that advance's own 30 s. *)
Lemma C7_counterexample :
  let w := Usage.overMidnight in
  let w' := exec (updateUsageTracking "A1" "C" computer (OfSession Fleet.kid)) w in
  localDay 0 (clock w) = 5
  /\ option_map (fun t => localDay 0 (lastUpdate t)) (usageCell "A1" "C" computer w)
     = Some 4
  /\ Qeq_bool (addedSeconds "A1" "C" computer (OfSession Fleet.kid) w) 30 = true
  /\ Qeq_bool (cellSeconds "A1" "C" computer w') 130 = true
  /\ Qle_bool (cellSeconds "A1" "C" computer w')
       (addedSeconds "A1" "C" computer (OfSession Fleet.kid) w) = false.
Proof.
  vm_compute. repeat split.
Qed.

(** ** Bedtime *)





(** ** Oracle failure *)

(** C9. If the Allow2 check throws during a quota evaluation, the
    evaluation emits nothing (no logout, no warning) and leaves the whole
    plugin world unchanged: state, usage cells, the shutdown-timer table and
    the armed timers; every timer armed before is still armed afterwards and
    firing it runs its task as if the failed evaluation had not happened. *)
Theorem C9_oracle_failure_defers ctx check agentId child sd w :
  allow2Client ctx = Some check ->
  oracleThrows check w agentId child ->
  checkQuotasAndEnforce ctx agentId child sd w = (tt, w, [])
  /\ forall ctx' id t,
       List.find (fun t => Nat.eqb (t_id t) id) (timers w) = Some t ->
       fireTimer ctx' id (exec (checkQuotasAndEnforce ctx agentId child sd) w)
       = (clearTimeout id >> runTask ctx' (t_task t)) w.
Proof.
  intros Hc Hthrow.
  assert (Hsame : checkQuotasAndEnforce ctx agentId child sd w = (tt, w, [])).
  { unfold checkQuotasAndEnforce. rewrite Hc. unfold bind, getW. simpl.
    destruct (agents (state w) !! agentId) as [agent|] eqn:Hag; [|reflexivity].
    destruct Hthrow as [H1 | (agent' & Hag' & Hbr & H2)].
    - rewrite H1. reflexivity.
    - assert (agent' = agent) by congruence. subst agent'.
      apply length_zero_iff_nil_b in Hbr. rewrite Hbr, H2.
      destruct (check child computer agentId); reflexivity. }
  split; [exact Hsame|].
  intros ctx' id t Hfind.
  unfold exec. rewrite Hsame. simpl.
  unfold fireTimer at 1. unfold bind at 1, getW. simpl. rewrite Hfind.
  destruct ((clearTimeout id >> runTask ctx' (t_task t)) w) as [[[] w'] o].
  reflexivity.
Qed.

(** The Allow2 client throws on every check while a logout timer is armed
    for [A1]. *)
Lemma C9_witness :
  checkQuotasAndEnforce (Fleet.answering Throws) "A1" "C" (Some Fleet.kid)
    Fleet.wArmed = (tt, Fleet.wArmed, []).
Proof.
  apply (C9_oracle_failure_defers (Fleet.answering Throws) (fun _ _ _ => Throws)
           "A1" "C" (Some Fleet.kid) Fleet.wArmed).
  - reflexivity.
  - left. reflexivity.
Defined.

(** ** Blocked processes and [killOnViolation] *)





Lemma withKill_withKill b b' w : withKill b (withKill b' w) = withKill b w.
Proof. reflexivity. Qed.








(** * The rest of the code

    Properties of the rest of the plugin, of the two monitors and of the
    action scripts, and the properties of the design document whose proofs
    rest on them. *)

(** ** The journal *)

Lemma capAt_firstn {A} (n : nat) (l : list A) : capAt n l = firstn n l.
Proof.
  unfold capAt. destruct (Nat.ltb n (length l)) eqn:E; [reflexivity|].
  apply Nat.ltb_ge in E. symmetry. apply firstn_all2. exact E.
Qed.

Lemma capAt_length {A} (n : nat) (l : list A) : (length (capAt n l) <= n)%nat.
Proof. rewrite capAt_firstn, length_firstn. lia. Qed.

Lemma journalOk_frame {A} (m : M A) :
  (forall w, violations (state (exec m w)) = violations (state w)
             /\ activityLog (state (exec m w)) = activityLog (state w)) ->
  preserves journalOk m.
Proof.
  intros H w [Hv Ha]. destruct (H w) as [Ev Ea].
  unfold journalOk. rewrite Ev, Ea. split; assumption.
Qed.

Lemma journalOk_logViolation ctx v : preserves journalOk (logViolation ctx v).
Proof.
  intros w _. unfold exec, logViolation. run_handler.
  destruct (notifyParent _), (sendToRenderer ctx); cbn; split; apply capAt_length.
Qed.

Lemma journalOk_clearViolations : preserves journalOk clearViolations.
Proof.
  intros w [_ Ha]. split; [cbn; lia | exact Ha].
Qed.

(** Decomposes a handler body; the journal is written by [logViolation]
    and [clearViolations] only. *)
Ltac journal_step :=
  first
    [ apply journalOk_logViolation
    | apply journalOk_clearViolations
    | apply journalOk_frame; intros ?; split; reflexivity
    | apply preserves_when
    | apply preserves_forEach; intros ?
    | progress cbv zeta
    | match goal with
      | |- preserves _ (match ?x with _ => _ end) => destruct x
      end
    | apply preserves_bind; [|intros ?] ].

Ltac journal_body := repeat journal_step.

Lemma journalOk_checkQuotasAndEnforce ctx a c sd :
  preserves journalOk (checkQuotasAndEnforce ctx a c sd).
Proof.
  unfold checkQuotasAndEnforce, afterComputerCheck, thresholdWarnings,
    enforceLogout, checkBedtime, blockBrowsers, scheduleShutdown, scheduleWarnings,
    showTimeWarning.
  journal_body.
Qed.

Lemma journalOk_handle ce : preserves journalOk (handle ce).
Proof.
  destruct ce as [ctx ev]. unfold handle. cbn [fst snd].
  destruct ev.
  - unfold handleSessionData. journal_body. apply journalOk_checkQuotasAndEnforce.
  - unfold handleProcessData, checkProcess, onBlockedProcess. journal_body.
  - unfold fireTimer, runTask, enforceLogout, showTimeWarning. journal_body.
  - unfold unlinkAgent. journal_body.
  - unfold linkAgent. journal_body.
  - unfold forceLogout, enforceLogout. journal_body.
  - journal_body.
Qed.

Lemma journalOk_react i : preserves journalOk (react i).
Proof.
  destruct i as [ce | c | ctx r | ctx keys child]; cbn [react].
  - apply journalOk_handle.
  - destruct c; cbn [command];
      unfold setUserMapping, setParentAccounts, updateChildSettings, lockSession;
      journal_body.
  - unfold onActionResponse. journal_body.
  - unfold handleAllow2StateChange. journal_body.
    apply journalOk_checkQuotasAndEnforce.
Qed.

(** Whatever reaches the plugin - telemetry, timers, commands of the
    renderer, action responses, Allow2 state changes - the violations
    journal never holds more than 200 entries and the activity log never
    more than 500, provided they were within these caps to begin with. *)
Theorem journal_stays_within_caps inputs w :
  journalOk w -> journalOk (exec (replay inputs) w).
Proof.
  revert w. apply preserves_forEach. apply journalOk_react.
Qed.

Lemma journal_stays_within_caps_witness :
  journalOk (exec (replay [ FromLoop (Fleet.withBan, SessionTelemetry "A1" Fleet.kid);
                            FromRenderer ClearViolations ]) Fleet.w0).
Proof.
  apply (journal_stays_within_caps _ Fleet.w0).
  split; simpl; lia.
Defined.

Lemma lookup_firstn_lt {A} (n i : nat) (l : list A) :
  (i < n)%nat -> firstn n l !! i = l !! i.
Proof. intros H. apply lookup_take_lt. exact H. Qed.

Lemma lookup_firstn_ge' {A} (n i : nat) (l : list A) :
  (n <= i)%nat -> firstn n l !! i = None.
Proof. intros H. apply lookup_take_ge. exact H. Qed.

Lemma logViolation_violations ctx v w :
  violations (state (exec (logViolation ctx v) w))
  = firstn 200 (v :: violations (state w)).
Proof.
  unfold exec, logViolation. run_handler. rewrite <- capAt_firstn.
  destruct (notifyParent _), (sendToRenderer ctx); reflexivity.
Qed.

(** [logViolation] appends at the head and evicts at the tail: the new
    violation is entry 0, the entries 0..198 move to 1..199 and nothing is
    kept from index 200 on; the activity log gets one entry for it, at its
    head, under the cap of 500; the renderer is told when
    [settings.notifyParent] is on, and the state is persisted. *)
Theorem logViolation_appends_at_head ctx v w :
  let w' := exec (logViolation ctx v) w in
  violations (state w') !! 0%nat = Some v
  /\ (forall i, (S i < 200)%nat ->
        violations (state w') !! S i = violations (state w) !! i)
  /\ (forall i, (200 <= i)%nat -> violations (state w') !! i = None)
  /\ activityLog (state w') !! 0%nat = Some (activityOf v)
  /\ (forall i, (S i < 500)%nat ->
        activityLog (state w') !! S i = activityLog (state w) !! i)
  /\ (forall i, (500 <= i)%nat -> activityLog (state w') !! i = None)
  /\ outputs (logViolation ctx v) w
     = ((if (notifyParent (settings (state w)) && sendToRenderer ctx)%bool
         then [ToRenderer "osViolation" (ViolationLogged v)] else [])
        ++ [ConfigurationUpdate])%list.
Proof.
  intros w'.
  assert (Hv : violations (state w') = firstn 200 (v :: violations (state w))).
  { apply logViolation_violations. }
  assert (Ha : activityLog (state w')
               = firstn 500 (activityOf v :: activityLog (state w))).
  { subst w'. unfold exec, logViolation. run_handler. rewrite <- capAt_firstn.
    destruct (notifyParent _), (sendToRenderer ctx); reflexivity. }
  rewrite Hv, Ha. repeat split.
  - intros i Hi. rewrite lookup_firstn_lt by exact Hi. reflexivity.
  - intros i Hi. apply lookup_firstn_ge'. exact Hi.
  - intros i Hi. rewrite lookup_firstn_lt by exact Hi. reflexivity.
  - intros i Hi. apply lookup_firstn_ge'. exact Hi.
  - unfold outputs, logViolation. run_handler.
    destruct (notifyParent _), (sendToRenderer ctx); reflexivity.
Qed.

Lemma sliceTo_prefix {A} (stop : Z) (l : list A) :
  exists rest, l = (sliceTo stop l ++ rest)%list.
Proof.
  unfold sliceTo. eexists. symmetry. apply firstn_skipn.
Qed.

Lemma sliceTo_length {A} (stop : Z) (l : list A) :
  Z.of_nat (length (sliceTo stop l))
  = if stop <? 0 then Z.max (Z.of_nat (length l) + stop) 0
    else Z.min stop (Z.of_nat (length l)).
Proof.
  unfold sliceTo. rewrite length_firstn.
  destruct (stop <? 0) eqn:E.
  - apply Z.ltb_lt in E. lia.
  - apply Z.ltb_ge in E. lia.
Qed.

(** [os:getViolations] returns a prefix of the journal, that is its newest
    entries: the [limit] newest for a limit of 0 or more (50 when no limit
    is given), and for a negative limit all but the [-limit] oldest. *)
Theorem getViolations_newest_first limit s :
  let n := default 50 limit in
  let got := getViolations limit s in
  (exists older, violations s = (got ++ older)%list)
  /\ (0 <= n -> Z.of_nat (length got) = Z.min n (Z.of_nat (length (violations s))))
  /\ (n < 0 ->
      Z.of_nat (length got) = Z.max (Z.of_nat (length (violations s)) + n) 0).
Proof.
  intros n got. split; [apply sliceTo_prefix|].
  subst got. unfold getViolations. fold n. rewrite sliceTo_length.
  split; intros H.
  - apply Z.ltb_ge in H. rewrite H. reflexivity.
  - apply Z.ltb_lt in H. rewrite H. reflexivity.
Qed.

Lemma getViolations_newest_first_witness :
  Z.of_nat (length (getViolations (Some 1)
     (state (exec (run Replay.bannedTwice) Fleet.w0))))
  = Z.min 1 (Z.of_nat (length (violations
       (state (exec (run Replay.bannedTwice) Fleet.w0))))).
Proof.
  apply (getViolations_newest_first (Some 1)
           (state (exec (run Replay.bannedTwice) Fleet.w0))).
  simpl. lia.
Defined.

(** ** Parts of the world a handler leaves alone *)

Lemma keeps_bind {A B X} (part : World -> X) (m : M A) (k : A -> M B) :
  keeps part m -> (forall a, keeps part (k a)) -> keeps part (bind m k).
Proof. intros Hm Hk w. rewrite exec_bind, Hk, Hm. reflexivity. Qed.

Lemma keeps_when {X} (part : World -> X) b (m : M unit) :
  keeps part m -> keeps part (when b m).
Proof. intros H. destruct b; [exact H | intros w; reflexivity]. Qed.

Lemma keeps_forEach {A X} (part : World -> X) (l : list A) (body : A -> M unit) :
  (forall x, keeps part (body x)) -> keeps part (forEach l body).
Proof.
  intros H. induction l as [|x l IH]; [intros w; reflexivity|].
  cbn [forEach]. apply keeps_bind; [apply H | intros _; exact IH].
Qed.

Ltac keeps_step :=
  first
    [ apply keeps_when
    | apply keeps_forEach; intros ?
    | progress cbv zeta
    | match goal with
      | |- keeps _ (match ?x with _ => _ end) => destruct x
      end
    | apply keeps_bind; [|intros ?]
    | intros ?; reflexivity ].

Ltac keeps_body := repeat keeps_step.

Lemma checkQuotasAndEnforce_keeps_agents ctx a c sd :
  keeps (fun w => agents (state w)) (checkQuotasAndEnforce ctx a c sd).
Proof.
  unfold checkQuotasAndEnforce, afterComputerCheck, thresholdWarnings,
    enforceLogout, checkBedtime, blockBrowsers, scheduleShutdown, scheduleWarnings,
    showTimeWarning, logViolation, logActivity.
  keeps_body.
Qed.

Lemma checkQuotasAndEnforce_keeps_mappings ctx a c sd :
  keeps (fun w => (userMappings (state w), parentAccounts (state w),
                   children (state w), settings (state w)))
        (checkQuotasAndEnforce ctx a c sd).
Proof.
  unfold checkQuotasAndEnforce, afterComputerCheck, thresholdWarnings,
    enforceLogout, checkBedtime, blockBrowsers, scheduleShutdown, scheduleWarnings,
    showTimeWarning, logViolation, logActivity.
  keeps_body.
Qed.

(** ** Action responses *)

(** Only a successful [kill-process] response addressed to this plugin is
    journaled, as a violation of type [process_killed] whose reason is the
    one echoed by the agent or, failing that, [quota_enforcement]; any other
    response changes nothing and sends nothing. *)
Theorem actionResponse_journals_successful_kills ctx r w :
  if journaled r
  then violations (state (exec (onActionResponse ctx r) w)) !! 0%nat
       = Some {| v_type := "process_killed"; v_agentId := r_agentId r;
                 v_hostname := None; v_processName := r_processName r;
                 v_reason := Some (default "quota_enforcement" (truthy (r_reason r)));
                 v_timestamp := clock w |}
  else onActionResponse ctx r w = (tt, w, []).
Proof.
  unfold journaled, onActionResponse.
  destruct (String.eqb (r_pluginId r) ourPluginId); [|reflexivity].
  cbn [negb andb].
  destruct (String.eqb (r_actionId r) "kill-process" && r_success r)%bool;
    [|reflexivity].
  rewrite exec_bind_getW, logViolation_violations. reflexivity.
Qed.

(** ** User mappings, parent accounts and links *)

Lemma mappedChild_setUserMapping agentId user child w :
  mappedChild (state (exec (setUserMapping agentId user child) w)) agentId user
  = truthy child.
Proof.
  unfold mappedChild, exec, setUserMapping. run_handler. cbn.
  rewrite lookup_insert_eq. cbn.
  destruct (truthy child) as [c|] eqn:E.
  - rewrite lookup_insert_eq.
    destruct child as [[|a s]|]; cbn in E; try discriminate E.
    injection E as <-. reflexivity.
  - rewrite lookup_delete_eq. reflexivity.
Qed.

Lemma mappedChild_setUserMapping_other agentId user child agentId' user' w :
  (agentId, user) <> (agentId', user') ->
  mappedChild (state (exec (setUserMapping agentId user child) w)) agentId' user'
  = mappedChild (state w) agentId' user'.
Proof.
  intros Hne. unfold mappedChild, exec, setUserMapping. run_handler. cbn.
  destruct (decide (agentId = agentId')) as [<- | Ha].
  - rewrite lookup_insert_eq. cbn.
    assert (Hu : user <> user') by congruence.
    destruct (truthy child);
      [rewrite lookup_insert_ne by exact Hu | rewrite lookup_delete_ne by exact Hu];
      reflexivity.
  - rewrite lookup_insert_ne by exact Ha. reflexivity.
Qed.

Lemma handleSessionData_unmapped ctx agentId data w agent :
  agents (state w) !! agentId = Some agent ->
  mappedChild (state w) agentId (username data) = None ->
  handleSessionData ctx agentId data w
  = (tt,
     withState (setAgents (fun m => <[agentId := agentSeen (clock w) data agent]> m)
                  (state w)) w,
     sessionNotice ctx agentId data).
Proof.
  intros Hag Hmap. unfold mappedChild in Hmap. unfold handleSessionData.
  rewrite bind_getW, Hag. rewrite bind_eq. cbv zeta. rewrite Hmap.
  unfold sessionNotice, toRenderer, configurationUpdate.
  destruct (sendToRenderer ctx); reflexivity.
Qed.

(** A session report of a user with no (truthy) mapping for the agent is
    recorded on the agent and forwarded to the renderer, and that is all:
    the usage cells, the timers and the agent's child are left as they are
    and no check is made with Allow2. *)
Theorem unmapped_session_is_not_evaluated ctx agentId data w agent :
  agents (state w) !! agentId = Some agent ->
  mappedChild (state w) agentId (username data) = None ->
  let w' := exec (handleSessionData ctx agentId data) w in
  outputs (handleSessionData ctx agentId data) w = sessionNotice ctx agentId data
  /\ agents (state w') !! agentId = Some (agentSeen (clock w) data agent)
  /\ usageTracking w' = usageTracking w
  /\ timers w' = timers w
  /\ shutdownTimers w' = shutdownTimers w
  /\ violations (state w') = violations (state w).
Proof.
  intros Hag Hmap w'. subst w'. unfold outputs, exec.
  rewrite (handleSessionData_unmapped ctx agentId data w agent Hag Hmap).
  cbn [fst snd]. split; [reflexivity|].
  split; [cbn; apply lookup_insert_eq|].
  repeat split.
Qed.

Lemma unmapped_session_is_not_evaluated_witness :
  outputs (handleSessionData (Fleet.withRemaining 0) "A1" Fleet.dad) Fleet.w0
  = sessionNotice (Fleet.withRemaining 0) "A1" Fleet.dad.
Proof.
  apply (unmapped_session_is_not_evaluated (Fleet.withRemaining 0) "A1" Fleet.dad
           Fleet.w0 Fleet.agentA1).
  - reflexivity.
  - reflexivity.
Defined.

(** Once [os:setUserMapping] has mapped an OS user of a known agent to a
    child, the next session report of that user binds the agent to that
    child (whoever was bound before) and records the session; once the
    mapping is cleared (a null or empty child), the next session report of
    that user is not evaluated and the agent stays bound to whom it was. *)
Theorem setUserMapping_takes_effect ctx agentId data child w agent :
  agents (state w) !! agentId = Some agent ->
  let w1 := exec (setUserMapping agentId (username data) child) w in
  let w2 := exec (handleSessionData ctx agentId data) w1 in
  (forall c, truthy child = Some c ->
     (childId <$> agents (state w2) !! agentId) = Some (Some c)
     /\ (currentSession <$> agents (state w2) !! agentId) = Some (Some data))
  /\ (truthy child = None ->
     outputs (handleSessionData ctx agentId data) w1 = sessionNotice ctx agentId data
     /\ (childId <$> agents (state w2) !! agentId) = Some (childId agent)
     /\ usageTracking w2 = usageTracking w /\ timers w2 = timers w).
Proof.
  intros Hag w1 w2.
  assert (Hag1 : agents (state w1) !! agentId = Some agent) by exact Hag.
  pose proof (mappedChild_setUserMapping agentId (username data) child w) as Hmap.
  fold w1 in Hmap. split.
  - intros c Hc. rewrite Hc in Hmap. unfold mappedChild in Hmap.
    subst w2. unfold handleSessionData.
    rewrite exec_bind_getW, Hag1, exec_bind, Hmap, exec_bind.
    destruct (arrayIncludes _ (username data)).
    + cbn. rewrite lookup_insert_eq. split; reflexivity.
    + assert (Hk : keeps (fun w => agents (state w))
                (updateUsageTracking agentId c computer (OfSession data) >>
                 checkQuotasAndEnforce ctx agentId c (Some data) >>
                 (toRenderer ctx "osSessionUpdate" (SessionUpdate agentId data) >>
                  configurationUpdate))).
      { apply keeps_bind; [intros ?; reflexivity | intros _].
        apply keeps_bind; [apply checkQuotasAndEnforce_keeps_agents | intros _].
        unfold toRenderer. keeps_body. }
      unfold keeps in Hk. rewrite Hk.
      cbn. rewrite lookup_insert_eq. split; reflexivity.
  - intros Hnone. rewrite Hnone in Hmap.
    pose proof (handleSessionData_unmapped ctx agentId data w1 agent Hag1 Hmap)
      as Hrun.
    subst w2. unfold outputs, exec. rewrite Hrun. cbn [fst snd].
    split; [reflexivity|]. split; [|split; reflexivity].
    cbn. rewrite lookup_insert_eq. reflexivity.
Qed.

Lemma setUserMapping_takes_effect_witness :
  (childId <$> agents (state
     (exec (handleSessionData (Fleet.withRemaining 7200) "A1" Fleet.dad)
        (exec (setUserMapping "A1" (username Fleet.dad) (Some "D")) Fleet.w0)))
     !! "A1") = Some (Some "D").
Proof.
  apply (setUserMapping_takes_effect (Fleet.withRemaining 7200) "A1" Fleet.dad
           (Some "D") Fleet.w0 Fleet.agentA1).
  - reflexivity.
  - reflexivity.
Defined.

Lemma arrayIncludes_In (l : list string) (x : string) :
  arrayIncludes l x = true <-> List.In x l.
Proof.
  unfold arrayIncludes. rewrite List.existsb_exists. split.
  - intros (y & Hy & Heq). apply String.eqb_eq in Heq. subst y. exact Hy.
  - intros H. exists x. split; [exact H | apply String.eqb_refl].
Qed.

(** After [os:setParentAccounts] has listed a user as a parent account of a
    known agent, a session report of that user sends no action to the
    agent, advances no usage cell and arms no timer, whether or not the user
    is mapped to a child; the session is recorded on the agent. *)
Theorem setParentAccounts_exempts_sessions ctx agentId accounts data w agent :
  agents (state w) !! agentId = Some agent ->
  List.In (username data) accounts ->
  let w1 := exec (setParentAccounts agentId (Some accounts)) w in
  let w2 := exec (handleSessionData ctx agentId data) w1 in
  List.filter isAction (outputs (handleSessionData ctx agentId data) w1) = []
  /\ (currentSession <$> agents (state w2) !! agentId) = Some (Some data)
  /\ usageTracking w2 = usageTracking w
  /\ timers w2 = timers w.
Proof.
  intros Hag Hin w1 w2.
  assert (Hag1 : agents (state w1) !! agentId = Some agent) by exact Hag.
  assert (Hparent : arrayIncludes (default [] (parentAccounts (state w1) !! agentId))
                      (username data) = true).
  { subst w1. unfold exec, setParentAccounts. run_handler. cbn.
    rewrite lookup_insert_eq. cbn. apply arrayIncludes_In. exact Hin. }
  destruct (handleSessionData_parent ctx agentId data w1 agent Hag1 Hparent)
    as [Hact Hsess].
  split; [exact Hact|]. split; [exact Hsess|].
  subst w2. unfold handleSessionData.
  rewrite exec_bind_getW, Hag1, exec_bind.
  destruct (truthy _) as [child|].
  - rewrite Hparent, exec_bind. split; reflexivity.
  - rewrite exec_bind. unfold toRenderer.
    destruct (sendToRenderer ctx); split; reflexivity.
Qed.

Lemma setParentAccounts_exempts_sessions_witness :
  List.filter isAction
    (outputs (handleSessionData Fleet.withBan "A1" Fleet.kid)
       (exec (setParentAccounts "A1" (Some ["kid"])) Fleet.w0)) = [].
Proof.
  apply (setParentAccounts_exempts_sessions Fleet.withBan "A1" ["kid"] Fleet.kid
           Fleet.w0 Fleet.agentA1).
  - reflexivity.
  - left. reflexivity.
Defined.

(** A session report of a user mapped to a child binds the agent to that
    child, whatever the agent's [enabled] flag, which it leaves as it is. *)
Lemma mapped_session_binds ctx agentId data w agent c :
  agents (state w) !! agentId = Some agent ->
  mappedChild (state w) agentId (username data) = Some c ->
  agents (state (exec (handleSessionData ctx agentId data) w)) !! agentId
  = Some (agentSetChild (Some c) (agentSeen (clock w) data agent)).
Proof.
  intros Hag Hmap. unfold mappedChild in Hmap. unfold handleSessionData.
  rewrite exec_bind_getW, Hag, exec_bind, Hmap, exec_bind.
  destruct (arrayIncludes _ (username data)).
  - cbn. apply lookup_insert_eq.
  - assert (Hk : keeps (fun w => agents (state w))
                (updateUsageTracking agentId c computer (OfSession data) >>
                 checkQuotasAndEnforce ctx agentId c (Some data) >>
                 (toRenderer ctx "osSessionUpdate" (SessionUpdate agentId data) >>
                  configurationUpdate))).
    { apply keeps_bind; [intros ?; reflexivity | intros _].
      apply keeps_bind; [apply checkQuotasAndEnforce_keeps_agents | intros _].
      unfold toRenderer. keeps_body. }
    unfold keeps in Hk. rewrite Hk. cbn. apply lookup_insert_eq.
Qed.

(** After [os:unlinkAgent] the process reports of the agent are ignored
    (nothing is sent, nothing changes), and the agent is neither bound nor
    enabled; but no handler reads [enabled]: the next session report of a
    user who is mapped to a child binds the agent to that child again, still
    disabled. *)
Theorem unlinkAgent_until_next_mapped_session ctx agentId w agent :
  agents (state w) !! agentId = Some agent ->
  let w1 := exec (unlinkAgent agentId) w in
  agents (state w1) !! agentId = Some (agentBind None false agent)
  /\ (forall data, handleProcessData ctx agentId data w1 = (tt, w1, []))
  /\ (forall data c,
        mappedChild (state w) agentId (username data) = Some c ->
        let w2 := exec (handleSessionData ctx agentId data) w1 in
        (childId <$> agents (state w2) !! agentId) = Some (Some c)
        /\ (enabled <$> agents (state w2) !! agentId) = Some false).
Proof.
  intros Hag w1.
  assert (Hag1 : agents (state w1) !! agentId = Some (agentBind None false agent)).
  { subst w1. unfold unlinkAgent. rewrite exec_bind.
    assert (Hk : keeps (fun w => agents (state w))
              (let* w := getW in
               match shutdownTimers w !! agentId with
               | Some timer =>
                   clearTimeout timer >>
                   modifyShutdownTimers (fun m => delete agentId m)
               | None => skip
               end >> configurationUpdate)) by keeps_body.
    unfold keeps in Hk. rewrite Hk. cbn. rewrite Hag. apply lookup_insert_eq. }
  split; [exact Hag1|]. split.
  - intros data. unfold handleProcessData. rewrite bind_getW, Hag1. reflexivity.
  - intros data c Hmap w2.
    assert (Hmap1 : mappedChild (state w1) agentId (username data) = Some c).
    { rewrite <- Hmap. subst w1. unfold mappedChild, unlinkAgent.
      assert (Hk : keeps (fun w => userMappings (state w)) (unlinkAgent agentId))
        by (unfold unlinkAgent; keeps_body).
      unfold keeps in Hk. unfold unlinkAgent in Hk. rewrite Hk. reflexivity. }
    subst w2. rewrite (mapped_session_binds ctx agentId data w1 _ c Hag1 Hmap1).
    split; reflexivity.
Qed.

Lemma unlinkAgent_until_next_mapped_session_witness :
  agents (state (exec (unlinkAgent "A1") Fleet.w0)) !! "A1"
  = Some (agentBind None false Fleet.agentA1).
Proof.
  apply (unlinkAgent_until_next_mapped_session Fleet.withBan "A1" Fleet.w0
           Fleet.agentA1).
  reflexivity.
Defined.

(** ** Manual logout *)



(** ** What [scheduleShutdown] leaves armed *)

Lemma filter_app_single {A} (P : A -> bool) (l : list A) x :
  List.filter P (l ++ [x]) = (List.filter P l ++ if P x then [x] else [])%list.
Proof. rewrite List.filter_app. reflexivity. Qed.

Lemma scheduleWarnings_keeps_clock a remaining times :
  keeps clock (scheduleWarnings a remaining times).
Proof. unfold scheduleWarnings. keeps_body. Qed.

(** In a well-formed world, [scheduleShutdown] called with more than an hour
    remaining leaves no shutdown timer armed for the agent (the one that was
    armed is cleared, none is armed); called with an hour or less it leaves
    exactly one, due [remainingSeconds] seconds ahead, and it is the one kept
    in [shutdownTimers]. *)
Theorem scheduleShutdown_rearms a c remaining w :
  timersOk w ->
  let w' := exec (scheduleShutdown a c remaining) w in
  (3600 < remaining -> List.filter (isShutdownTimerOf a) (timers w') = [])
  /\ (remaining <= 3600 ->
      exists id,
        List.filter (isShutdownTimerOf a) (timers w')
        = [ {| t_id := id; t_due := clock w + remaining * 1000;
               t_task := ShutdownTask a c |} ]
        /\ shutdownTimers w' !! a = Some id).
Proof.
  intros Hw w'. subst w'. unfold scheduleShutdown.
  rewrite exec_bind_getW, exec_bind.
  destruct (clear_registered a w Hw) as (Hok & Hno & _).
  assert (Hclock : clock (exec (match shutdownTimers w !! a with
                                | Some existingTimer => clearTimeout existingTimer
                                | None => skip
                                end) w) = clock w)
    by (destruct (shutdownTimers w !! a); reflexivity).
  set (w1 := exec _ w) in *.
  split; intros Hr.
  - apply Z.ltb_lt in Hr. rewrite Hr. apply noShutdown_filter. exact Hno.
  - assert (E : (3600 <? remaining) = false) by (apply Z.ltb_ge; exact Hr).
    rewrite E, exec_bind.
    destruct (scheduleWarnings_keeps a remaining (warningTimes (settings (state w)))
                w1 (conj Hok Hno)) as [_ Hno2].
    pose proof (scheduleWarnings_keeps_clock a remaining
                  (warningTimes (settings (state w))) w1) as Hc2.
    set (w2 := exec (scheduleWarnings a remaining _) w1) in *.
    exists (nextTimer w2). unfold exec, bind, setTimeout, modifyShutdownTimers.
    cbn. rewrite filter_app_single, (noShutdown_filter a w2 Hno2).
    unfold isShutdownTimerOf. cbn. rewrite String.eqb_refl, lookup_insert_eq.
    rewrite Hc2, Hclock. split; reflexivity.
Qed.

Lemma scheduleShutdown_rearms_witness :
  List.filter (isShutdownTimerOf "A1")
    (timers (exec (scheduleShutdown "A1" "C" 7200)
               (exec (scheduleShutdown "A1" "C" 600) Fleet.w0))) = [].
Proof.
  apply (scheduleShutdown_rearms "A1" "C" 7200
           (exec (scheduleShutdown "A1" "C" 600) Fleet.w0)).
  - apply timersOk_scheduleShutdown, timersOk_initial.
  - lia.
Defined.

(** ** Allow2 state changes *)

Lemma bind_cong {A B} (m m' : M A) (k k' : A -> M B) w :
  m w = m' w ->
  (forall a, k a (exec m w) = k' a (exec m w)) ->
  bind m k w = bind m' k' w.
Proof.
  intros Hm Hk. rewrite !bind_eq. unfold exec in Hk. rewrite <- Hm, Hk. reflexivity.
Qed.

Lemma bind_noop {B} (m : M unit) (k : unit -> M B) w :
  m w = (tt, w, []) -> bind m k w = k tt w.
Proof.
  intros H. unfold bind. rewrite H. destruct (k tt w) as [[b w2] o2]. reflexivity.
Qed.

Lemma stateChange_unfold ctx keys child : forall w,
  handleAllow2StateChange ctx keys child w
  = forEach (List.filter (boundTo (agents (state w)) child) keys)
      (fun agentId =>
         checkQuotasAndEnforce ctx agentId child
           (sessionOf (agents (state w)) agentId)) w.
Proof.
  unfold handleAllow2StateChange.
  induction keys as [|k keys IH]; intros w; [reflexivity|].
  cbn [forEach List.filter]. unfold boundTo at 1.
  destruct (agents (state w) !! k) as [agentData|] eqn:Hk.
  - destruct (bool_decide (childId agentData = Some child)) eqn:Hb.
    + cbn [forEach]. apply bind_cong.
      * rewrite bind_getW, Hk, Hb. unfold sessionOf. rewrite Hk. reflexivity.
      * intros []. rewrite IH.
        assert (Hag : agents (state (exec (let* w0 := getW in
                   match agents (state w0) !! k with
                   | Some agentData0 =>
                       if bool_decide (childId agentData0 = Some child)
                       then checkQuotasAndEnforce ctx k child
                              (currentSession agentData0)
                       else skip
                   | None => skip
                   end) w)) = agents (state w)).
        { rewrite exec_bind_getW, Hk, Hb.
          apply (checkQuotasAndEnforce_keeps_agents ctx k child _ w). }
        rewrite Hag. reflexivity.
    + rewrite bind_noop; [apply IH|]. rewrite bind_getW, Hk, Hb. reflexivity.
  - rewrite bind_noop; [apply IH|]. rewrite bind_getW, Hk. reflexivity.
Qed.

(** A state change pushed by Allow2 for a child re-evaluates the quotas of
    exactly the agents bound to that child at that moment, in the order of
    the agent table, each with the session recorded on it; with no agent
    bound to the child it does nothing at all. *)
Theorem stateChange_reevaluates_bound_agents ctx keys child w :
  handleAllow2StateChange ctx keys child w
  = forEach (List.filter (boundTo (agents (state w)) child) keys)
      (fun agentId =>
         checkQuotasAndEnforce ctx agentId child
           (sessionOf (agents (state w)) agentId)) w
  /\ (List.filter (boundTo (agents (state w)) child) keys = [] ->
      handleAllow2StateChange ctx keys child w = (tt, w, [])).
Proof.
  split; [apply stateChange_unfold|].
  intros H. rewrite stateChange_unfold, H. reflexivity.
Qed.

Lemma stateChange_reevaluates_bound_agents_witness :
  handleAllow2StateChange Fleet.withBan ["A1"] "D" Fleet.w0 = (tt, Fleet.w0, []).
Proof.
  apply (stateChange_reevaluates_bound_agents Fleet.withBan ["A1"] "D" Fleet.w0).
  reflexivity.
Defined.

(** ** Matching against the block list *)

Lemma startsWith_spec p : forall s,
  startsWith s p = true <-> exists post, s = p ++ post.
Proof.
  induction p as [|a p IH]; intros s; cbn [startsWith].
  - split; [intros _; exists s; reflexivity | reflexivity].
  - destruct s as [|b s].
    + split; [discriminate | intros [post H]; discriminate H].
    + rewrite andb_true_iff, Ascii.eqb_eq, IH. split.
      * intros [-> [post ->]]. exists post. reflexivity.
      * intros [post H]. cbn in H. injection H as <- ->. eauto.
Qed.

Lemma includes_spec sub : forall s,
  includes s sub = true <-> exists pre post, s = pre ++ sub ++ post.
Proof.
  induction s as [|c s IH]; cbn [includes].
  - rewrite startsWith_spec. split.
    + intros [post H]. exists "", post. exact H.
    + intros (pre & post & H). destruct pre; [|discriminate H].
      exists post. exact H.
  - rewrite orb_true_iff, startsWith_spec, IH. split.
    + intros [[post H] | (pre & post & H)].
      * exists "", post. exact H.
      * exists (String c pre), post. cbn. rewrite H. reflexivity.
    + intros (pre & post & H). destruct pre as [|c' pre].
      * left. exists post. exact H.
      * right. cbn in H. injection H as _ H. eauto.
Qed.

(** A process is on the block list exactly when its name, in lower case,
    contains some pattern of the list, in lower case, as a substring. In
    particular an empty pattern blocks every process. *)
Theorem block_list_matches_substrings blocked proc :
  (isBlockedProcess blocked proc = true <->
   exists bp pre post,
     List.In bp blocked
     /\ toLowerCase (proc_name proc) = pre ++ toLowerCase bp ++ post)
  /\ (List.In "" blocked -> isBlockedProcess blocked proc = true).
Proof.
  assert (Hiff : isBlockedProcess blocked proc = true <->
            exists bp pre post,
              List.In bp blocked
              /\ toLowerCase (proc_name proc) = pre ++ toLowerCase bp ++ post).
  { unfold isBlockedProcess. rewrite List.existsb_exists. split.
    - intros (bp & Hin & Hinc). apply includes_spec in Hinc as (pre & post & H).
      eauto 6.
    - intros (bp & pre & post & Hin & H). exists bp. split; [exact Hin|].
      apply includes_spec. eauto. }
  split; [exact Hiff|].
  intros Hin. apply Hiff. exists "", "", (toLowerCase (proc_name proc)).
  split; [exact Hin | reflexivity].
Qed.

Lemma block_list_matches_substrings_witness :
  isBlockedProcess ["x"; ""] {| proc_pid := 1; proc_name := "Calculator" |} = true.
Proof.
  apply (block_list_matches_substrings ["x"; ""]
           {| proc_pid := 1; proc_name := "Calculator" |}).
  right. left. reflexivity.
Defined.

(** ** Deployment *)

Lemma issue_all svc calls :
  (forall c, List.In c calls -> accepts svc c = true) ->
  issue svc calls = (calls, true).
Proof.
  induction calls as [|c calls IH]; intros H; [reflexivity|].
  cbn [issue]. rewrite (H c) by (left; reflexivity).
  rewrite IH by (intros d Hd; apply H; right; exact Hd). reflexivity.
Qed.

Lemma issue_stops svc calls :
  snd (issue svc calls) = false ->
  exists done c rest,
    calls = (done ++ c :: rest)%list
    /\ (forall d, List.In d done -> accepts svc d = true)
    /\ accepts svc c = false
    /\ fst (issue svc calls) = (done ++ [c])%list.
Proof.
  induction calls as [|c calls IH]; cbn [issue]; [discriminate|].
  destruct (accepts svc c) eqn:Hc.
  - destruct (issue svc calls) as [done ok] eqn:E. cbn [fst snd] in *.
    intros Hok. destruct (IH Hok) as (done' & c' & rest & -> & Hall & Hrej & Hdone).
    exists (c :: done'), c', rest. repeat split; [|exact Hrej|cbn; congruence].
    intros d [<- | Hd]; [exact Hc | apply Hall, Hd].
  - intros _. exists [], c, calls. repeat split; [intros d []|exact Hc].
Qed.

Lemma issue_rejects svc calls :
  (exists c, List.In c calls /\ accepts svc c = false) ->
  snd (issue svc calls) = false.
Proof.
  induction calls as [|c calls IH]; intros (d & Hd & Hrej); [destruct Hd|].
  cbn [issue]. destruct (accepts svc c) eqn:Hc; [|reflexivity].
  destruct Hd as [<- | Hd]; [congruence|].
  destruct (issue svc calls) as [done ok] eqn:E. cbn [snd] in *.
  apply IH. eauto.
Qed.

Lemma orphaned_handle replaced old t : t_id (orphaned replaced old t) = t_id t.
Proof.
  unfold orphaned. destruct (t_task t); try reflexivity.
  destruct (replaced agentId); reflexivity.
Qed.

Lemma orphaned_due replaced old t : t_due (orphaned replaced old t) = t_due t.
Proof.
  unfold orphaned. destruct (t_task t); try reflexivity.
  destruct (replaced agentId); reflexivity.
Qed.

(** When the agent service accepts the six calls of a deployment (session
    and process monitor at [settings.monitorInterval], then the kill,
    logout, warning and lock actions), the agent is registered under its id,
    enabled, with the child it was bound to before (none for a new agent)
    and without the session that was recorded on it; the other agents, the
    usage cells and the timers are left as they are - every timer keeps its
    handle, its due time and its closure, a pending grace-period logout of
    the agent now reading the session of the object that was replaced - and
    the state is persisted. *)
Theorem deployToAgent_keeps_binding svc agent w :
  (forall c, List.In c (deployment (monitorInterval (settings (state w))) (ra_id agent)) ->
             accepts svc c = true) ->
  let w' := fst (deployToAgent svc agent w) in
  agents (state w') !! ra_id agent
  = Some (deployedAgent (clock w) agent (agents (state w) !! ra_id agent))
  /\ (childId <$> agents (state w') !! ra_id agent)
     = Some (match agents (state w) !! ra_id agent with
             | Some old => truthy (childId old)
             | None => None
             end)
  /\ (forall other, other <> ra_id agent ->
        agents (state w') !! other = agents (state w) !! other)
  /\ timers w'
     = List.map (orphaned (String.eqb (ra_id agent)) (agents (state w))) (timers w)
  /\ List.map t_id (timers w') = List.map t_id (timers w)
  /\ List.map t_due (timers w') = List.map t_due (timers w)
  /\ shutdownTimers w' = shutdownTimers w
  /\ usageTracking w' = usageTracking w
  /\ snd (deployToAgent svc agent w)
     = (List.map Called (deployment (monitorInterval (settings (state w)))
                           (ra_id agent))
        ++ [Emitted ConfigurationUpdate])%list.
Proof.
  intros Hall w'. subst w'. unfold deployToAgent. rewrite (issue_all _ _ Hall).
  cbn [fst snd replacingAgents state timers shutdownTimers usageTracking setAgents
       agents].
  rewrite lookup_insert_eq.
  split; [reflexivity|]. split; [reflexivity|].
  split; [intros other Hne; apply lookup_insert_ne; congruence|].
  split; [reflexivity|].
  split; [rewrite List.map_map; apply List.map_ext; intros t; apply orphaned_handle|].
  split; [rewrite List.map_map; apply List.map_ext; intros t; apply orphaned_due|].
  repeat split.
Qed.

Lemma deployToAgent_keeps_binding_witness :
  agents (state (fst (deployToAgent
     {| listAgents := inr []; accepts := fun _ => true |}
     {| ra_id := "A1"; ra_hostname := "kid-pc"; ra_platform := "linux";
        ra_online := true |} Fleet.w0))) !! "A1"
  = Some (deployedAgent (clock Fleet.w0)
            {| ra_id := "A1"; ra_hostname := "kid-pc"; ra_platform := "linux";
               ra_online := true |} (agents (state Fleet.w0) !! "A1")).
Proof.
  apply (deployToAgent_keeps_binding
           {| listAgents := inr []; accepts := fun _ => true |}
           {| ra_id := "A1"; ra_hostname := "kid-pc"; ra_platform := "linux";
              ra_online := true |} Fleet.w0).
  intros c _. reflexivity.
Defined.

(** When the agent service rejects one of the calls of a deployment, the
    calls after it are not issued, the plugin world is left exactly as it
    was (the agent is not registered, nothing is persisted), and the error
    goes no further than the log. *)
Theorem deployToAgent_fails_without_trace svc agent w :
  (exists c, List.In c (deployment (monitorInterval (settings (state w))) (ra_id agent))
             /\ accepts svc c = false) ->
  fst (deployToAgent svc agent w) = w
  /\ exists done c rest,
       deployment (monitorInterval (settings (state w))) (ra_id agent)
       = (done ++ c :: rest)%list
       /\ (forall d, List.In d done -> accepts svc d = true)
       /\ accepts svc c = false
       /\ snd (deployToAgent svc agent w) = List.map Called (done ++ [c]).
Proof.
  intros Hrej. apply issue_rejects in Hrej. unfold deployToAgent.
  pose proof (issue_stops svc _ Hrej) as (done & c & rest & Hsplit & Hall & Hc & Hdone).
  destruct (issue svc _) as [issued ok] eqn:E. cbn [fst snd] in *. subst ok issued.
  split; [reflexivity|]. exists done, c, rest. repeat split; assumption.
Qed.

Lemma deployToAgent_fails_without_trace_witness :
  fst (deployToAgent
         {| listAgents := inr []; accepts := fun c =>
              match c with DeployAction _ _ => false | _ => true end |}
         {| ra_id := "A1"; ra_hostname := "kid-pc"; ra_platform := "linux";
            ra_online := true |} Fleet.w0) = Fleet.w0.
Proof.
  apply (deployToAgent_fails_without_trace
           {| listAgents := inr []; accepts := fun c =>
                match c with DeployAction _ _ => false | _ => true end |}
           {| ra_id := "A1"; ra_hostname := "kid-pc"; ra_platform := "linux";
              ra_online := true |} Fleet.w0).
  exists (DeployAction "A1" "kill-process"). split; [|reflexivity].
  right. right. left. reflexivity.
Defined.

(** ** Loading *)

Lemma deployAll_rejected svc found w :
  (forall c, accepts svc c = false) ->
  deployAll svc found w
  = (w, List.map (fun agent =>
           Called (DeployMonitor (ra_id agent) sessionMonitorId
                     (monitorInterval (settings (state w))))) found).
Proof.
  intros Hrej. induction found as [|agent found IH]; [reflexivity|].
  cbn [deployAll]. unfold deployToAgent at 1. cbn [deployment issue].
  rewrite Hrej, IH. reflexivity.
Qed.

(** [onLoad] installs the loaded state, or the defaults when there is none.
    Without an agent service it reports status [error] and calls nothing.
    With one whose [listAgents] answers, it reports [connected] as its last
    word whatever became of the deployments: even if the service rejects
    every call - one attempt per agent, none registered - the status is
    [connected]. *)
Theorem onLoad_reports_connected loadState svc w :
  state (fst (onLoad loadState None w)) = default initialState loadState
  /\ snd (onLoad loadState None w)
     = [StatusUpdate "error" "Agent service not available" (clock w)]
  /\ (forall found, listAgents svc = inr found ->
        (exists events,
           snd (onLoad loadState (Some svc) w)
           = (events ++ [StatusUpdate "connected" "OS monitoring active" (clock w)])%list)
        /\ ((forall c, accepts svc c = false) ->
            state (fst (onLoad loadState (Some svc) w)) = default initialState loadState
            /\ snd (onLoad loadState (Some svc) w)
               = (List.map (fun agent =>
                     Called (DeployMonitor (ra_id agent) sessionMonitorId
                               (monitorInterval
                                  (settings (default initialState loadState)))))
                    found
                  ++ [StatusUpdate "connected" "OS monitoring active" (clock w)])%list))
  /\ (forall message, listAgents svc = inl message ->
        snd (onLoad loadState (Some svc) w)
        = [StatusUpdate "error" ("Initialization error: " ++ message) (clock w)]).
Proof.
  split; [reflexivity|]. split; [reflexivity|]. split.
  - intros found Hfound. unfold onLoad. rewrite Hfound. split.
    + destruct (deployAll svc found _) as [w1 events]. exists events. reflexivity.
    + intros Hrej. rewrite (deployAll_rejected svc found _ Hrej). split; reflexivity.
  - intros message Hmsg. unfold onLoad. rewrite Hmsg. reflexivity.
Qed.

(** ** Disabling and unloading *)

Lemma tableOk_frame w w' :
  timers w' = timers w -> shutdownTimers w' = shutdownTimers w ->
  nextTimer w' = nextTimer w -> tableOk w -> tableOk w'.
Proof. unfold tableOk. intros -> -> ->. tauto. Qed.

Lemma tableOk_clearTimeout id : preserves tableOk (clearTimeout id).
Proof.
  intros w Hw a h Hh. destruct (Hw a h Hh) as [Hlt Hshut]. split; [exact Hlt|].
  intros t Ht. unfold exec, clearTimeout in Ht. cbn in Ht.
  apply In_filter_timers in Ht as [Ht _]. auto.
Qed.

Lemma tableOk_setTimeout task delay : preserves tableOk (setTimeout task delay).
Proof.
  intros w Hw a h Hh. destruct (Hw a h Hh) as [Hlt Hshut]. cbn. split; [lia|].
  intros t Ht Hid. apply List.in_app_iff in Ht as [Ht | [<- | []]]; [auto|].
  cbn in Hid. lia.
Qed.

Lemma tableOk_scheduleWarnings a remaining times :
  preserves tableOk (scheduleWarnings a remaining times).
Proof.
  unfold scheduleWarnings. apply preserves_forEach. intros minutes.
  destruct (minutes * 60 <? remaining); [|apply preserves_skip].
  apply preserves_bind; [apply tableOk_setTimeout | intros _; apply preserves_skip].
Qed.

Lemma arm_shutdown_table a c delay w :
  freshHandles w -> tableOk w ->
  tableOk (exec (let* timer := setTimeout (ShutdownTask a c) delay in
                 modifyShutdownTimers (fun m => <[a := timer]> m)) w).
Proof.
  intros [Hfresh _] Hw a' h. unfold exec, bind, setTimeout, modifyShutdownTimers.
  cbn. intros Hh.
  destruct (decide (a = a')) as [<- | Hne].
  - rewrite lookup_insert_eq in Hh. injection Hh as <-. split; [lia|].
    intros t Ht Hid. apply List.in_app_iff in Ht as [Ht | [<- | []]]; [|reflexivity].
    specialize (Hfresh t Ht). lia.
  - rewrite lookup_insert_ne in Hh by exact Hne.
    destruct (Hw a' h Hh) as [Hlt Hshut]. split; [lia|].
    intros t Ht Hid. apply List.in_app_iff in Ht as [Ht | [<- | []]]; [auto|].
    cbn in Hid. lia.
Qed.

Lemma timersWell_frame w w' :
  timers w' = timers w -> shutdownTimers w' = shutdownTimers w ->
  nextTimer w' = nextTimer w -> timersWell w -> timersWell w'.
Proof.
  intros Ht Hs Hn [Hok Htab].
  split; [apply (timersOk_frame w) | apply (tableOk_frame w)]; assumption.
Qed.

Lemma timersWell_modifyState f : preserves timersWell (modifyState f).
Proof. intros w Hw. apply (timersWell_frame w); auto. Qed.

Lemma timersWell_modifyUsage f : preserves timersWell (modifyUsage f).
Proof. intros w Hw. apply (timersWell_frame w); auto. Qed.

Lemma timersWell_elapse ms : preserves timersWell (elapse ms).
Proof. intros w Hw. apply (timersWell_frame w); auto. Qed.

Lemma timersWell_clearTimeout id : preserves timersWell (clearTimeout id).
Proof.
  intros w [Hok Htab].
  split; [apply timersOk_clearTimeout | apply tableOk_clearTimeout]; assumption.
Qed.

Lemma timersWell_setTimeout task delay :
  isShutdownTask task = false -> preserves timersWell (setTimeout task delay).
Proof.
  intros Htask w [Hok Htab].
  split; [apply timersOk_setTimeout | apply tableOk_setTimeout]; assumption.
Qed.

Lemma timersWell_scheduleShutdown a c remaining :
  preserves timersWell (scheduleShutdown a c remaining).
Proof.
  intros w [Hw Htab]. split; [apply timersOk_scheduleShutdown, Hw|].
  unfold scheduleShutdown. rewrite exec_bind_getW, exec_bind.
  destruct (clear_registered a w Hw) as (Hok & Hno & _).
  assert (Htab1 : tableOk (exec (match shutdownTimers w !! a with
                                 | Some existingTimer => clearTimeout existingTimer
                                 | None => skip
                                 end) w)).
  { destruct (shutdownTimers w !! a); [apply tableOk_clearTimeout|]; exact Htab. }
  set (w1 := exec _ w) in *.
  destruct (3600 <? remaining); [exact Htab1|].
  rewrite exec_bind.
  destruct (scheduleWarnings_keeps a remaining (warningTimes (settings (state w)))
              w1 (conj Hok Hno)) as [[Hfresh _] _].
  apply arm_shutdown_table; [exact Hfresh|].
  apply tableOk_scheduleWarnings, Htab1.
Qed.

Lemma timersWell_unlinkAgent a : preserves timersWell (unlinkAgent a).
Proof.
  intros w [Hw Htab]. split; [apply timersOk_unlinkAgent, Hw|].
  revert w Htab Hw. unfold unlinkAgent.
  intros w Htab _. rewrite exec_bind.
  assert (H0 : tableOk (exec (modifyState (setAgents (fun m =>
             match m !! a with
             | Some a0 => <[a := agentBind None false a0]> m
             | None => m
             end))) w)) by (apply (tableOk_frame w); auto).
  set (w0 := exec _ w) in *.
  rewrite exec_bind_getW, exec_bind.
  destruct (shutdownTimers w0 !! a) as [id|]; [|exact H0].
  rewrite exec_bind.
  apply (tableOk_clearTimeout id) in H0.
  set (w1 := exec (clearTimeout id) w0) in *.
  intros a' h Hh. cbn in Hh.
  destruct (decide (a = a')) as [<- | Hne].
  - rewrite lookup_delete_eq in Hh. discriminate Hh.
  - rewrite lookup_delete_ne in Hh by exact Hne. exact (H0 a' h Hh).
Qed.

Ltac well_step :=
  first
    [ apply timersWell_scheduleShutdown
    | apply timersWell_unlinkAgent
    | apply preserves_emit
    | apply preserves_getW
    | apply preserves_ret
    | apply timersWell_modifyState
    | apply timersWell_modifyUsage
    | apply timersWell_clearTimeout
    | apply timersWell_elapse
    | apply timersWell_setTimeout; reflexivity
    | apply preserves_when
    | apply preserves_forEach; intros ?
    | progress cbv zeta
    | match goal with
      | |- preserves _ (match ?x with _ => _ end) => destruct x
      end
    | apply preserves_bind; [|intros ?] ].

Ltac well_body := repeat well_step.

Lemma timersWell_checkQuotasAndEnforce ctx a c sd :
  preserves timersWell (checkQuotasAndEnforce ctx a c sd).
Proof.
  unfold checkQuotasAndEnforce, afterComputerCheck, thresholdWarnings.
  well_body.
Qed.

Lemma timersWell_handle ce : preserves timersWell (handle ce).
Proof.
  destruct ce as [ctx ev]. unfold handle. cbn [fst snd].
  destruct ev.
  - unfold handleSessionData. well_body.
    apply timersWell_checkQuotasAndEnforce.
  - unfold handleProcessData. well_body.
  - unfold fireTimer, runTask. well_body.
  - apply timersWell_unlinkAgent.
  - unfold linkAgent. well_body.
  - unfold forceLogout. well_body.
  - apply timersWell_elapse.
Qed.

Lemma timersWell_react i : preserves timersWell (react i).
Proof.
  destruct i as [ce | c | ctx r | ctx keys child]; cbn [react].
  - apply timersWell_handle.
  - destruct c; cbn [command];
      unfold setUserMapping, setParentAccounts, updateChildSettings,
        clearViolations, lockSession, triggerAction, configurationUpdate;
      well_body.
  - unfold onActionResponse, logViolation. well_body.
  - unfold handleAllow2StateChange. apply preserves_forEach. intros agentId.
    apply preserves_bind; [apply preserves_getW | intros w0].
    destruct (agents (state w0) !! agentId) as [agentData|]; [|apply preserves_skip].
    destruct (bool_decide _); [|apply preserves_skip].
    apply timersWell_checkQuotasAndEnforce.
Qed.

Lemma timersWell_replay inputs : preserves timersWell (replay inputs).
Proof. apply preserves_forEach, timersWell_react. Qed.

Lemma filter_filter {A} (P Q : A -> bool) (l : list A) :
  List.filter Q (List.filter P l) = List.filter (fun x => (P x && Q x)%bool) l.
Proof.
  induction l as [|x l IH]; [reflexivity|]. cbn.
  destruct (P x) eqn:Px; cbn; [destruct (Q x); rewrite IH; reflexivity|exact IH].
Qed.

Lemma clear_handles ids w :
  exec (forEach ids clearTimeout) w
  = {| state := state w; usageTracking := usageTracking w;
       shutdownTimers := shutdownTimers w;
       timers := List.filter (fun t => negb (existsb (Nat.eqb (t_id t)) ids))
                   (timers w);
       nextTimer := nextTimer w; clock := clock w |}.
Proof.
  revert w. induction ids as [|id ids IH]; intros w.
  - cbn. destruct w as [s u sh ts n c]. cbn. f_equal.
    symmetry. induction ts as [|t ts IHts]; [reflexivity|]. cbn. f_equal. exact IHts.
  - cbn [forEach]. rewrite exec_bind, IH. unfold exec, clearTimeout. cbn.
    f_equal. rewrite filter_filter. apply List.filter_ext. intros t.
    destruct (t_id t =? id)%nat; reflexivity.
Qed.

Lemma clearAllShutdowns_timers w :
  timersWell w ->
  timers (exec clearAllShutdowns w)
  = List.filter (fun t => negb (isShutdownTask (t_task t))) (timers w).
Proof.
  intros [[_ Hreg] Htab]. unfold clearAllShutdowns.
  rewrite exec_bind_getW, exec_bind, clear_handles. cbn.
  apply List.filter_ext_in. intros t Ht. f_equal.
  destruct (isShutdownTask (t_task t)) eqn:Hshut.
  - destruct (t_task t) as [| a c | |] eqn:Htask; try discriminate Hshut.
    apply List.existsb_exists. exists (t_id t). split; [|apply Nat.eqb_refl].
    apply List.in_map_iff. exists (a, t_id t). split; [reflexivity|].
    apply list_elem_of_In, elem_of_map_to_list. exact (Hreg t a c Ht Htask).
  - destruct (existsb _ _) eqn:Hex; [|reflexivity]. exfalso.
    apply List.existsb_exists in Hex as (h & Hin & Heq).
    apply Nat.eqb_eq in Heq. subst h.
    apply List.in_map_iff in Hin as ([a h] & Hh & Hin). cbn in Hh. subst h.
    apply list_elem_of_In, elem_of_map_to_list in Hin.
    destruct (Htab a (t_id t) Hin) as [_ Hs]. rewrite (Hs t Ht eq_refl) in Hshut.
    discriminate Hshut.
Qed.

(** In every world reached from a well-formed one (such as a world with no
    timer armed), disabling the plugin and unloading it clear exactly the
    timers of [scheduleShutdown]: the table is emptied and no shutdown timer
    stays armed, while every armed warning timer and every armed grace-period
    logout of [enforceLogout] stays armed with its due time; the persistent
    state is left as it is. [onUnload] ends with its callback whatever the
    agent service does. *)
Theorem disabling_clears_only_shutdown_timers inputs svc w :
  timersWell w ->
  let w1 := exec (replay inputs) w in
  let off := fst (onSetEnabled false w1) in
  timers off = List.filter (fun t => negb (isShutdownTask (t_task t))) (timers w1)
  /\ shutdownTimers off = ∅
  /\ state off = state w1
  /\ fst (onUnload svc w1) = off
  /\ exists calls, snd (onUnload svc w1) = (calls ++ [UnloadCallback])%list.
Proof.
  intros Hw w1 off. subst off. cbn [onSetEnabled onUnload fst snd].
  split; [apply clearAllShutdowns_timers, timersWell_replay, Hw|].
  split.
  { unfold clearAllShutdowns. rewrite exec_bind_getW, exec_bind, clear_handles.
    reflexivity. }
  split.
  { unfold clearAllShutdowns. rewrite exec_bind_getW, exec_bind, clear_handles.
    reflexivity. }
  split; [reflexivity|]. eexists. reflexivity.
Qed.

Lemma timersWell_wArmed : timersWell Fleet.wArmed.
Proof.
  split; [split; [split|]|].
  - intros t [<- | []]. cbn. lia.
  - cbn. repeat constructor. intros [].
  - intros t a c [<- | []] Htask. discriminate Htask.
  - intros a h Hh. cbn in Hh. rewrite lookup_empty in Hh. discriminate Hh.
Qed.

Lemma disabling_clears_only_shutdown_timers_witness :
  timers (fst (onSetEnabled false (exec (replay []) Fleet.wArmed)))
  = List.filter (fun t => negb (isShutdownTask (t_task t)))
      (timers (exec (replay []) Fleet.wArmed)).
Proof.
  apply (disabling_clears_only_shutdown_timers [] None Fleet.wArmed).
  apply timersWell_wArmed.
Defined.

(** ** Settings *)

(** [os:updateSettings] merges the patch into the settings in memory before
    anything can fail, and keeps the merge when the push to the agents fails.
    The state is persisted exactly when the handler answers success. A patch
    without [monitorInterval], or with [monitorInterval] zero, reaches no
    agent (the zero is stored all the same); any other interval is sent to
    every agent that [listAgents] returns, for the session monitor and then
    the process monitor. *)
Theorem updateSettings_merges_before_pushing svc patch w :
  let '(w', events, ok) := updateSettings svc patch w in
  settings (state w') = mergeSettings (settings (state w)) patch
  /\ timers w' = timers w
  /\ (List.In (Emitted ConfigurationUpdate) events <-> ok = true)
  /\ (pushedInterval patch = None ->
      events = [Emitted ConfigurationUpdate]
      /\ monitorInterval (settings (state w'))
         = match sp_monitorInterval patch with
           | Some _ => 0
           | None => monitorInterval (settings (state w))
           end)
  /\ (forall interval s found,
        pushedInterval patch = Some interval -> svc = Some s ->
        listAgents s = inr found -> (forall c, accepts s c = true) ->
        events = (List.map Called (List.concat (List.map (intervalUpdate interval) found))
                  ++ [Emitted ConfigurationUpdate])%list).
Proof.
  assert (Hcalled : forall l, ~ List.In (Emitted ConfigurationUpdate) (List.map Called l)).
  { intros l Hin. apply List.in_map_iff in Hin as (c & Hc & _). discriminate Hc. }
  unfold updateSettings.
  destruct (pushedInterval patch) as [interval|] eqn:Hpush.
  - destruct svc as [s|].
    + destruct (listAgents s) as [message|found] eqn:Hlist.
      * split; [reflexivity|]. split; [reflexivity|].
        split; [split; [intros [] | discriminate]|]. split; [discriminate|].
        intros i s' found' _ Hs Hfound. injection Hs as <-. congruence.
      * destruct (issue s _) as [issued ok] eqn:Hissue. destruct ok.
        -- split; [reflexivity|]. split; [reflexivity|]. split.
           { split; [reflexivity|]. intros _. apply List.in_app_iff.
             right. left. reflexivity. }
           split; [discriminate|].
           intros i s' found' Hi Hs Hfound Hall.
           injection Hi as <-. injection Hs as <-.
           rewrite Hlist in Hfound. injection Hfound as <-.
           rewrite issue_all in Hissue by (intros c _; apply Hall).
           injection Hissue as <-. reflexivity.
        -- split; [reflexivity|]. split; [reflexivity|]. split.
           { split; [|discriminate]. intros Hin. destruct (Hcalled _ Hin). }
           split; [discriminate|].
           intros i s' found' Hi Hs Hfound Hall.
           injection Hi as <-. injection Hs as <-.
           rewrite Hlist in Hfound. injection Hfound as <-.
           rewrite issue_all in Hissue by (intros c _; apply Hall).
           discriminate Hissue.
    + split; [reflexivity|]. split; [reflexivity|].
      split; [split; [intros [] | discriminate]|]. split; discriminate.
  - split; [reflexivity|]. split; [reflexivity|].
    split; [split; [reflexivity | intros _; left; reflexivity]|].
    split; [|discriminate]. intros _. split; [reflexivity|].
    cbn. unfold pushedInterval in Hpush.
    destruct (sp_monitorInterval patch) as [[| |]|]; try discriminate Hpush;
      reflexivity.
Qed.

(** ** The process monitor *)

Lemma category_of_classify proc :
  let p := ProcessMonitor.classify proc in
  ((if ProcessMonitor.inCategory "games" p then 1 else 0)
   + (if ProcessMonitor.inCategory "education" p then 1 else 0)
   + (if ProcessMonitor.inCategory "productivity" p then 1 else 0)
   + length (ProcessMonitor.browserOf proc)
   + (if ProcessMonitor.inCategory "other" p then 1 else 0) = 1)%nat.
Proof.
  unfold ProcessMonitor.classify, ProcessMonitor.browserOf,
    ProcessMonitor.inCategory, ProcessMonitor.categorizeProcess.
  cbn [ProcessMonitor.e_category].
  destruct (ProcessMonitor.detectBrowser _); [reflexivity|].
  destruct (existsb _ ProcessMonitor.gamePatterns); [reflexivity|].
  destruct (existsb _ ProcessMonitor.eduPatterns); [reflexivity|].
  destruct (existsb _ ProcessMonitor.prodPatterns); reflexivity.
Qed.

Lemma length_filter_cons {A} (P : A -> bool) x (l : list A) :
  length (List.filter P (x :: l))
  = ((if P x then 1 else 0) + length (List.filter P l))%nat.
Proof. cbn. destruct (P x); reflexivity. Qed.

(** The five counts of the summary add up to [processCount]: every process
    falls into exactly one of the categories games, education, productivity,
    internet and other, a browser always into internet whatever else its
    name matches. *)
Theorem summary_partitions_the_processes rawProcesses :
  let r := ProcessMonitor.script rawProcesses in
  (ProcessMonitor.games (ProcessMonitor.summary r)
   + ProcessMonitor.education (ProcessMonitor.summary r)
   + ProcessMonitor.productivity (ProcessMonitor.summary r)
   + ProcessMonitor.internet (ProcessMonitor.summary r)
   + ProcessMonitor.other (ProcessMonitor.summary r))%nat
  = ProcessMonitor.processCount r
  /\ ProcessMonitor.processCount r = length rawProcesses
  /\ ProcessMonitor.internet (ProcessMonitor.summary r)
     = length (List.filter (ProcessMonitor.inCategory "internet")
                 (List.map ProcessMonitor.classify rawProcesses)).
Proof.
  cbn. rewrite length_map. split; [|split; [reflexivity|]].
  - induction rawProcesses as [|proc l IH]; [reflexivity|].
    cbn [List.map List.flat_map]. rewrite !length_filter_cons, length_app.
    pose proof (category_of_classify proc) as H. cbn zeta in H.
    cbn [length]. lia.
  - induction rawProcesses as [|proc l IH]; [reflexivity|].
    cbn [List.map List.flat_map]. rewrite length_filter_cons, length_app, IH.
    f_equal. unfold ProcessMonitor.browserOf, ProcessMonitor.inCategory,
      ProcessMonitor.classify, ProcessMonitor.categorizeProcess.
    cbn [ProcessMonitor.e_category].
    destruct (ProcessMonitor.detectBrowser _); [reflexivity|].
    destruct (existsb _ ProcessMonitor.gamePatterns); [reflexivity|].
    destruct (existsb _ ProcessMonitor.eduPatterns); [reflexivity|].
    destruct (existsb _ ProcessMonitor.prodPatterns); reflexivity.
Qed.

Lemma interesting_classify proc :
  ProcessMonitor.interesting (ProcessMonitor.classify proc)
  = negb (String.eqb (ProcessMonitor.e_type (ProcessMonitor.classify proc)) "unknown").
Proof.
  unfold ProcessMonitor.interesting, ProcessMonitor.classify,
    ProcessMonitor.categorizeProcess.
  cbn [ProcessMonitor.e_type ProcessMonitor.e_category ProcessMonitor.e_name].
  destruct (ProcessMonitor.detectBrowser _); [reflexivity|].
  destruct (existsb _ ProcessMonitor.gamePatterns) eqn:Hgame; [reflexivity|].
  assert (Hno : includes (toLowerCase (ProcessMonitor.raw_name proc)) "game" = false).
  { destruct (includes _ "game") eqn:Hin; [|reflexivity].
    rewrite <- Hgame. symmetry. apply List.existsb_exists. exists "game".
    split; [|exact Hin]. unfold ProcessMonitor.gamePatterns. cbn. tauto. }
  rewrite Hno.
  destruct (existsb _ ProcessMonitor.eduPatterns); [reflexivity|].
  destruct (existsb _ ProcessMonitor.prodPatterns); reflexivity.
Qed.

Lemma filter_map_classify l :
  List.filter ProcessMonitor.interesting (List.map ProcessMonitor.classify l)
  = List.filter (fun p => negb (String.eqb (ProcessMonitor.e_type p) "unknown"))
      (List.map ProcessMonitor.classify l).
Proof.
  induction l as [|proc l IH]; [reflexivity|].
  cbn [List.map List.filter]. rewrite interesting_classify, IH. reflexivity.
Qed.

Lemma In_firstn_In {A} (n : nat) (l : list A) x :
  List.In x (firstn n l) -> List.In x l.
Proof.
  revert l. induction n as [|n IH]; intros [|y l] H; cbn in H; try contradiction.
  destruct H as [<- | H]; [left; reflexivity | right; apply IH, H].
Qed.

Lemma reported_is_classified rawProcesses p :
  List.In p (ProcessMonitor.rep_processes (ProcessMonitor.script rawProcesses)) ->
  ProcessMonitor.e_type p <> "unknown"
  /\ exists proc, List.In proc rawProcesses /\ p = ProcessMonitor.classify proc.
Proof.
  cbn. rewrite filter_map_classify. intros Hp. apply In_firstn_In in Hp.
  apply List.filter_In in Hp as [Hin Htype]. split.
  - intros E. rewrite E in Htype. discriminate Htype.
  - apply List.in_map_iff in Hin as (proc & <- & Hproc). eauto.
Qed.

(** The reported processes are the first hundred, in the order of the
    process list, of those whose type is not [unknown]: the test on the name
    containing [game] and the test on the category [internet] select nothing
    more (such a process has type [game] or [browser] already). A process of
    unknown type is never reported, and neither is a classified one after
    the hundredth. *)
Theorem report_keeps_the_classified rawProcesses :
  let r := ProcessMonitor.script rawProcesses in
  ProcessMonitor.rep_processes r
  = firstn 100
      (List.filter (fun p => negb (String.eqb (ProcessMonitor.e_type p) "unknown"))
         (List.map ProcessMonitor.classify rawProcesses))
  /\ (length (ProcessMonitor.rep_processes r) <= 100)%nat
  /\ (forall p, List.In p (ProcessMonitor.rep_processes r) ->
        ProcessMonitor.e_type p <> "unknown"
        /\ exists proc, List.In proc rawProcesses /\ p = ProcessMonitor.classify proc).
Proof.
  intros r. subst r. split; [|split].
  - cbn. rewrite filter_map_classify. reflexivity.
  - cbn. apply List.firstn_le_length.
  - apply reported_is_classified.
Qed.

Lemma silent_forEach_in {A} P (l : list A) (body : A -> M unit) :
  (forall x, List.In x l -> silent P (body x)) -> silent P (forEach l body).
Proof.
  induction l as [|x l IH]; intros H; [apply silent_skip|].
  cbn [forEach]. apply silent_bind; [apply H; left; reflexivity | intros _].
  apply IH. intros y Hy. apply H. right. exact Hy.
Qed.

Lemma silent_modifyUsage P f : silent P (modifyUsage f).
Proof. intros w. reflexivity. Qed.

Lemma checkProcess_spares ctx agentId agent blocked proc name :
  proc_name proc <> name ->
  silent (isKillOf name) (checkProcess ctx agentId agent blocked proc).
Proof.
  intros Hne. apply String.eqb_neq in Hne.
  unfold checkProcess, onBlockedProcess, logViolation, toRenderer, triggerAction,
    configurationUpdate.
  apply silent_when. apply silent_bind; [apply silent_getW | intros w].
  apply silent_bind.
  { apply silent_when, silent_emit. cbn. exact Hne. }
  intros _. silent_body; try apply silent_getW.
Qed.

(** A process that the monitor classifies as unknown - its name contains
    none of the browser, game, education and productivity patterns - is not
    in the report, so [handleProcessData] on a report of the monitor never
    sends [kill-process] for it, whatever the block list of the child
    says. *)
Theorem unclassified_process_is_never_killed ctx agentId rawProcesses name w :
  ProcessMonitor.unclassified name ->
  List.filter (isKillOf name)
    (outputs (handleProcessData ctx agentId
                (ProcessMonitor.asProcessData (ProcessMonitor.script rawProcesses)))
             w) = [].
Proof.
  intros [Hbrowser Hcat].
  assert (Hnames : forall x,
    List.In x (processes (ProcessMonitor.asProcessData
                            (ProcessMonitor.script rawProcesses))) ->
    proc_name x <> name).
  { intros x Hx. cbn [ProcessMonitor.asProcessData processes] in Hx.
    apply List.in_map_iff in Hx as (p & <- & Hp). cbn [proc_name].
    destruct (reported_is_classified rawProcesses p Hp)
      as (Htype & proc & _ & ->).
    intros E. apply Htype. cbn in E |- *.
    unfold ProcessMonitor.classify. cbn [ProcessMonitor.e_type].
    rewrite E, Hbrowser, Hcat. reflexivity. }
  revert w. change (silent (isKillOf name)
    (handleProcessData ctx agentId
       (ProcessMonitor.asProcessData (ProcessMonitor.script rawProcesses)))).
  unfold handleProcessData.
  apply silent_bind; [apply silent_getW | intros w].
  destruct (agents (state w) !! agentId) as [agent|]; [|apply silent_skip].
  destruct (truthy (childId agent)) as [child|]; [|apply silent_skip].
  cbv zeta. apply silent_bind.
  { apply silent_when. unfold updateUsageTracking.
    apply silent_bind; [apply silent_getW | intros w1]. apply silent_modifyUsage. }
  intros _. apply silent_forEach_in. intros x Hx.
  apply checkProcess_spares, Hnames, Hx.
Qed.

Lemma unclassified_process_is_never_killed_witness :
  List.filter (isKillOf "Discord.exe")
    (outputs (handleProcessData Fleet.withBan "A1"
                (ProcessMonitor.asProcessData
                   (ProcessMonitor.script
                      [ {| ProcessMonitor.raw_pid := 42;
                           ProcessMonitor.raw_name := "Discord.exe";
                           ProcessMonitor.raw_path := None |} ])))
             Fleet.w0) = [].
Proof.
  apply (unclassified_process_is_never_killed Fleet.withBan "A1"
           [ {| ProcessMonitor.raw_pid := 42;
                ProcessMonitor.raw_name := "Discord.exe";
                ProcessMonitor.raw_path := None |} ] "Discord.exe" Fleet.w0).
  split; vm_compute; reflexivity.
Defined.

(** ** The session monitor and idle time *)

(** On a report of the session monitor, computer time is counted exactly
    when the idle time is at most 300000 ms or [pauseOnIdle] is off: the
    cut-off is the constant of the monitor script, and the setting
    [idleThreshold] changes nothing. *)
Theorem idle_cutoff_is_the_monitors agentId child userData systemUser idle w t :
  usageCell agentId child computer w = Some t ->
  let data := OfSession (SessionMonitor.script userData systemUser idle) in
  (addedSeconds agentId child computer data w
   == if ((idle <=? 300000) || negb (pauseOnIdle (settings (state w))))%bool
      then (clock w - lastUpdate t) # 1000 else 0)%Q
  /\ forall threshold,
       (addedSeconds agentId child computer data (withIdleThreshold threshold w)
        == addedSeconds agentId child computer data w)%Q.
Proof.
  intros Hcell data.
  assert (Hadd : forall w', usageCell agentId child computer w' = Some t ->
            clock w' = clock w ->
            pauseOnIdle (settings (state w')) = pauseOnIdle (settings (state w)) ->
            (addedSeconds agentId child computer data w'
             == if ((idle <=? 300000) || negb (pauseOnIdle (settings (state w))))%bool
                then (clock w - lastUpdate t) # 1000 else 0)%Q).
  { intros w' Hcell' Hclock Hpause. unfold addedSeconds, cellSeconds.
    rewrite (updateUsageTracking_cell _ _ _ data _ _ Hcell'), Hcell'.
    unfold advanceTracking, countsUsage, data. cbn [usageDataIsIdle totalSeconds].
    unfold SessionMonitor.script. cbn [isIdle]. rewrite Hpause, Hclock.
    rewrite (Z.leb_antisym 300000 idle).
    destruct (300000 <? idle), (pauseOnIdle (settings (state w)));
      cbn [negb orb andb]; unfold elapsedSeconds; ring. }
  split; [apply Hadd; auto|].
  intros threshold. rewrite (Hadd w Hcell eq_refl eq_refl).
  apply Hadd; [exact Hcell | reflexivity | reflexivity].
Qed.

Lemma idle_cutoff_is_the_monitors_witness :
  (addedSeconds "A1" "C" computer
     (OfSession (SessionMonitor.script (Some "kid") "root" 400000)) Usage.longGap
   == if ((400000 <=? 300000)
          || negb (pauseOnIdle (settings (state Usage.longGap))))%bool
      then (clock Usage.longGap - lastUpdate
              {| startTime := Fleet.monday; lastUpdate := Fleet.monday;
                 totalSeconds := 0 |}) # 1000
      else 0)%Q.
Proof.
  apply (idle_cutoff_is_the_monitors "A1" "C" (Some "kid") "root" 400000
           Usage.longGap
           {| startTime := Fleet.monday; lastUpdate := Fleet.monday;
              totalSeconds := 0 |}).
  reflexivity.
Defined.

(** ** The action scripts *)

(** [lock-session] reports a failure only on Windows, when both
    [rundll32] and the PowerShell fallback fail, and then with the message
    of the first error. On macOS and Linux it answers success whatever the
    commands did: the fallback started with [exec] ([osascript], resp.
    [i3lock]) is reported as the method used, and the methods after it
    ([ScreenSaverEngine], resp. [slock]) are never reached. *)
Theorem lock_session_fails_only_on_windows execSync platform :
  let r := LockSession.script execSync platform in
  (LockSession.success r = false <->
     platform = "win32"
     /\ execSync LockSession.rundll32 <> None
     /\ execSync LockSession.powershell <> None)
  /\ (LockSession.success r = false ->
      LockSession.error r = execSync LockSession.rundll32)
  /\ LockSession.method r <> Some "ScreenSaverEngine"
  /\ LockSession.method r <> Some "slock"
  /\ (platform <> "win32" -> platform <> "darwin" ->
      (forall c, execSync c <> None) -> LockSession.method r = Some "i3lock").
Proof.
  unfold LockSession.script.
  destruct (String.eqb platform "win32") eqn:Hwin.
  - apply String.eqb_eq in Hwin. subst platform.
    unfold LockSession.lockWindows, LockSession.attempt.
    destruct (execSync LockSession.rundll32) as [e1|];
      destruct (execSync LockSession.powershell) as [e2|]; cbn;
      repeat split; try discriminate; try congruence;
      try (intros (_ & H1 & H2); congruence).
  - apply String.eqb_neq in Hwin.
    destruct (String.eqb platform "darwin") eqn:Hmac.
    + unfold LockSession.lockMacOS, LockSession.attempt.
      apply String.eqb_eq in Hmac.
      destruct (execSync LockSession.CGSession); cbn;
        repeat split; try discriminate; try congruence;
        try (intros (H & _); congruence).
    + unfold LockSession.lockLinux, LockSession.attempt.
      split; [|split; [|split; [|split]]].
      * split.
        -- repeat (match goal with
                   | |- context [execSync ?c] => destruct (execSync c)
                   end); discriminate.
        -- intros (H & _). congruence.
      * repeat (match goal with
                | |- context [execSync ?c] => destruct (execSync c)
                end); discriminate.
      * repeat (match goal with
                | |- context [execSync ?c] => destruct (execSync c)
                end); discriminate.
      * repeat (match goal with
                | |- context [execSync ?c] => destruct (execSync c)
                end); discriminate.
      * intros _ _ Hall.
        repeat (match goal with
                | |- context [execSync ?c] =>
                    let E := fresh in
                    destruct (execSync c) eqn:E; [|destruct (Hall _ E)]
                end). reflexivity.
Qed.

(** [show-warning] reports a failure only on Windows, when both PowerShell
    and [msg] fail. On macOS and Linux it answers success even when the
    notification command failed: the fallback started with [exec]
    ([terminal-notifier], resp. [zenity]) is reported, and [kdialog] and
    [xmessage] are never reached. *)
Theorem show_warning_fails_only_on_windows execSync platform :
  let r := ShowWarning.script execSync platform in
  (ShowWarning.success r = false <->
     platform = "win32"
     /\ execSync ShowWarning.powershell <> None
     /\ execSync ShowWarning.msg <> None)
  /\ (ShowWarning.success r = false ->
      ShowWarning.error r = execSync ShowWarning.powershell)
  /\ ShowWarning.method r <> Some "kdialog"
  /\ ShowWarning.method r <> Some "xmessage".
Proof.
  unfold ShowWarning.script.
  destruct (String.eqb platform "win32") eqn:Hwin.
  - apply String.eqb_eq in Hwin. subst platform.
    unfold ShowWarning.showWindowsNotification.
    destruct (execSync ShowWarning.powershell) as [e1|];
      destruct (execSync ShowWarning.msg) as [e2|]; cbn;
      repeat split; try discriminate; try congruence;
      try (intros (_ & H1 & H2); congruence).
  - apply String.eqb_neq in Hwin.
    destruct (String.eqb platform "darwin").
    + unfold ShowWarning.showMacOSNotification.
      destruct (execSync ShowWarning.osascript); cbn;
        repeat split; try discriminate; try (intros (H & _); congruence).
    + unfold ShowWarning.showLinuxNotification.
      destruct (execSync ShowWarning.notifySend); cbn;
        repeat split; try discriminate; try (intros (H & _); congruence).
Qed.

(** With a pid that is present and not zero, [kill-process] runs one
    command, on the pid, and answers from its outcome alone: the process
    name is not used, not even when the kill by pid fails. *)
Theorem kill_by_pid_has_no_fallback execSync pid processName force platform p :
  KillProcess.truthyPid pid = Some p ->
  KillProcess.script execSync pid processName force platform
  = KillProcess.script execSync pid None force platform
  /\ fst (KillProcess.script execSync pid processName force platform)
     = [ if String.eqb platform "win32"
         then KillProcess.taskkillPid p force
         else KillProcess.kill (if force then "-9" else "-15") p ]
  /\ (KillProcess.success
        (snd (KillProcess.script execSync pid processName force platform)) = false
      -> exists message,
           KillProcess.error
             (snd (KillProcess.script execSync pid processName force platform))
           = Some message
           /\ (execSync (KillProcess.taskkillPid p force) = Some message
               \/ execSync (KillProcess.kill (if force then "-9" else "-15") p)
                  = Some message)).
Proof.
  intros Hpid.
  unfold KillProcess.script, KillProcess.killWindows, KillProcess.killUnix.
  rewrite Hpid. destruct (String.eqb platform "win32"); cbn [fst snd].
  - split; [reflexivity|]. split; [reflexivity|].
    destruct (execSync (KillProcess.taskkillPid p force)) as [m|]; [|discriminate].
    unfold KillProcess.windowsError. destruct (_ || _)%bool; [discriminate|].
    intros _. exists m. split; [reflexivity | left; reflexivity].
  - split; [reflexivity|]. split; [reflexivity|].
    destruct (execSync (KillProcess.kill _ p)) as [m|]; [|discriminate].
    unfold KillProcess.unixError. destruct (_ || _)%bool; [discriminate|].
    intros _. exists m. split; [reflexivity | right; reflexivity].
Qed.

Lemma kill_by_pid_has_no_fallback_witness :
  KillProcess.script (fun _ => Some "Operation not permitted") (Some 42)
    (Some "minecraft") true "linux"
  = KillProcess.script (fun _ => Some "Operation not permitted") (Some 42)
      None true "linux".
Proof.
  apply (kill_by_pid_has_no_fallback (fun _ => Some "Operation not permitted")
           (Some 42) (Some "minecraft") true "linux" 42).
  reflexivity.
Defined.

(** ** Escaping *)

Lemma not_special_not_backslash c :
  ShowWarning.shellSpecial c = false -> Ascii.eqb c ShowWarning.backslash = false.
Proof.
  unfold ShowWarning.shellSpecial. cbn [existsb]. intros H.
  repeat (apply orb_false_iff in H as [? H]). assumption.
Qed.

Lemma backslash_special : ShowWarning.shellSpecial ShowWarning.backslash = true.
Proof. reflexivity. Qed.

(** [escapeShell] puts a backslash before every single quote, double quote,
    backslash, dollar, backquote and exclamation mark, and before nothing
    else: in its result every backslash is followed by a character of the
    class that it escapes and no character of the class stands unescaped.
    The result grows by one character per escaped character, and different
    strings have different escapes. *)
Theorem escapeShell_escapes_the_class str :
  ShowWarning.escaped (ShowWarning.escapeShell str) = true
  /\ String.length (ShowWarning.escapeShell str)
     = (String.length str
        + length (List.filter ShowWarning.shellSpecial (list_ascii_of_string str)))%nat
  /\ (forall other,
        ShowWarning.escapeShell str = ShowWarning.escapeShell other -> str = other)
  /\ (ShowWarning.escapeShell str = str <->
      List.filter ShowWarning.shellSpecial (list_ascii_of_string str) = []).
Proof.
  split; [|split; [|split]].
  - induction str as [|c rest IH]; [reflexivity|].
    cbn [ShowWarning.escapeShell].
    destruct (ShowWarning.shellSpecial c) eqn:Hc.
    + cbn [ShowWarning.escaped]. rewrite Ascii.eqb_refl, Hc, IH. reflexivity.
    + cbn [ShowWarning.escaped].
      rewrite (not_special_not_backslash c Hc), Hc, IH. reflexivity.
  - induction str as [|c rest IH]; [reflexivity|].
    cbn [ShowWarning.escapeShell list_ascii_of_string List.filter].
    destruct (ShowWarning.shellSpecial c); cbn [String.length length];
      rewrite IH; lia.
  - induction str as [|c rest IH]; intros [|d other];
      cbn [ShowWarning.escapeShell].
    + reflexivity.
    + destruct (ShowWarning.shellSpecial d); discriminate.
    + destruct (ShowWarning.shellSpecial c); discriminate.
    + destruct (ShowWarning.shellSpecial c) eqn:Hc,
               (ShowWarning.shellSpecial d) eqn:Hd; intros E.
      * injection E as -> E. f_equal. apply IH, E.
      * injection E as Hb _. subst d. rewrite backslash_special in Hd.
        discriminate Hd.
      * injection E as Hb _. subst c. rewrite backslash_special in Hc.
        discriminate Hc.
      * injection E as -> E. f_equal. apply IH, E.
  - induction str as [|c rest IH]; [split; reflexivity|].
    cbn [ShowWarning.escapeShell list_ascii_of_string List.filter].
    destruct (ShowWarning.shellSpecial c) eqn:Hc.
    + split; [|discriminate]. intros E. exfalso.
      assert (Hlen : String.length (String ShowWarning.backslash
                        (String c (ShowWarning.escapeShell rest)))
                     = String.length (String c rest)) by (rewrite E; reflexivity).
      cbn [String.length] in Hlen.
      assert (Hge : forall s, (String.length s
                               <= String.length (ShowWarning.escapeShell s))%nat).
      { clear. induction s as [|a s IHs]; [reflexivity|].
        cbn [ShowWarning.escapeShell].
        destruct (ShowWarning.shellSpecial a); cbn [String.length]; lia. }
      specialize (Hge rest). lia.
    + destruct IH as [IH1 IH2]. split; intros E.
      * injection E as E. apply IH1, E.
      * rewrite (IH2 E). reflexivity.
Qed.

Lemma doubled_injective q s :
  forall t, ShowWarning.doubled q s = ShowWarning.doubled q t -> s = t.
Proof.
  induction s as [|c s IH]; intros [|d t]; cbn [ShowWarning.doubled].
  - reflexivity.
  - destruct (Ascii.eqb d q); discriminate.
  - destruct (Ascii.eqb c q); discriminate.
  - destruct (Ascii.eqb c q) eqn:Hc, (Ascii.eqb d q) eqn:Hd; intros E.
    + apply Ascii.eqb_eq in Hc, Hd. subst c d.
      injection E as E. f_equal. apply IH, E.
    + injection E as Hq _. subst d. rewrite Ascii.eqb_refl in Hd. discriminate Hd.
    + injection E as Hq _. subst c. rewrite Ascii.eqb_refl in Hc. discriminate Hc.
    + injection E as -> E. f_equal. apply IH, E.
Qed.

Lemma doubled_count q c s :
  length (List.filter (Ascii.eqb c) (list_ascii_of_string (ShowWarning.doubled q s)))
  = ((if Ascii.eqb c q then 2 else 1)
     * length (List.filter (Ascii.eqb c) (list_ascii_of_string s)))%nat.
Proof.
  induction s as [|a s IH]; [cbn; lia|].
  cbn [ShowWarning.doubled].
  destruct (Ascii.eqb a q) eqn:Ha.
  - apply Ascii.eqb_eq in Ha. subst a.
    cbn [list_ascii_of_string List.filter].
    destruct (Ascii.eqb c q) eqn:Hc; cbn [length]; rewrite IH; lia.
  - cbn [list_ascii_of_string List.filter].
    destruct (Ascii.eqb c a) eqn:Hca.
    + apply Ascii.eqb_eq in Hca. subst a. rewrite Ha in *.
      cbn [length]. rewrite IH. lia.
    + exact IH.
Qed.

(** [escapePowerShell] doubles every single quote and every backquote and
    changes no other character; different strings have different escapes. *)
Theorem escapePowerShell_doubles_quotes str :
  (forall other,
     ShowWarning.escapePowerShell str = ShowWarning.escapePowerShell other ->
     str = other)
  /\ forall c,
       length (List.filter (Ascii.eqb c)
                 (list_ascii_of_string (ShowWarning.escapePowerShell str)))
       = ((if (Ascii.eqb c ShowWarning.singleQuote
               || Ascii.eqb c ShowWarning.backquote)%bool then 2 else 1)
          * length (List.filter (Ascii.eqb c) (list_ascii_of_string str)))%nat.
Proof.
  unfold ShowWarning.escapePowerShell. split.
  - intros other E. apply doubled_injective in E. apply doubled_injective in E.
    exact E.
  - intros c. rewrite !doubled_count.
    destruct (Ascii.eqb c ShowWarning.singleQuote) eqn:H1.
    + apply Ascii.eqb_eq in H1. subst c. cbn [orb].
      change (Ascii.eqb ShowWarning.singleQuote ShowWarning.backquote) with false.
      cbv iota. lia.
    + cbn [orb]. destruct (Ascii.eqb c ShowWarning.backquote); cbv iota; lia.
Qed.

(** ** Process data is never recorded *)

Section Guarded.
Variable I : PluginState -> Prop.
Variable P : Output -> bool.

Lemma guarded_ret {A} (a : A) : guarded I P (ret a).
Proof. intros w Hw. split; [exact Hw | reflexivity]. Qed.

Lemma guarded_skip : guarded I P skip.
Proof. apply guarded_ret. Qed.

Lemma guarded_getW : guarded I P getW.
Proof. intros w Hw. split; [exact Hw | reflexivity]. Qed.

Lemma guarded_emit o : P o = false -> guarded I P (emit o).
Proof.
  intros Ho w Hw. split; [exact Hw|]. unfold outputs, emit. cbn. rewrite Ho.
  reflexivity.
Qed.

Lemma guarded_bind {A B} (m : M A) (k : A -> M B) :
  guarded I P m -> (forall a, guarded I P (k a)) -> guarded I P (bind m k).
Proof.
  intros Hm Hk w Hw. destruct (Hm w Hw) as [H1 O1].
  destruct (Hk (fst (fst (m w))) (exec m w) H1) as [H2 O2].
  rewrite exec_bind, outputs_bind, List.filter_app, O1, O2. split; [exact H2|reflexivity].
Qed.

(** After [getW] the continuation may use that the world it was given
    satisfies [I]. *)
Lemma guarded_bind_getW {B} (k : World -> M B) :
  (forall w, I (state w) -> guardedAt I P (k w) w) -> guarded I P (bind getW k).
Proof.
  intros Hk w Hw. unfold guardedAt. rewrite exec_bind_getW, outputs_bind_getW.
  exact (Hk w Hw Hw).
Qed.

Lemma guarded_when b (m : M unit) : guarded I P m -> guarded I P (when b m).
Proof. intros H. destruct b; [exact H | apply guarded_skip]. Qed.

Lemma guarded_forEach {A} (l : list A) (body : A -> M unit) :
  (forall x, guarded I P (body x)) -> guarded I P (forEach l body).
Proof.
  intros H. induction l as [|x l IH]; [apply guarded_skip|].
  cbn [forEach]. apply guarded_bind; [apply H | intros _; exact IH].
Qed.

Lemma guarded_modifyState f :
  (forall s, I s -> I (f s)) -> guarded I P (modifyState f).
Proof. intros Hf w Hw. split; [apply Hf, Hw | reflexivity]. Qed.

Lemma guarded_modifyUsage f : guarded I P (modifyUsage f).
Proof. intros w Hw. split; [exact Hw | reflexivity]. Qed.

Lemma guarded_modifyShutdownTimers f : guarded I P (modifyShutdownTimers f).
Proof. intros w Hw. split; [exact Hw | reflexivity]. Qed.

Lemma guarded_setTimeout task delay : guarded I P (setTimeout task delay).
Proof. intros w Hw. split; [exact Hw | reflexivity]. Qed.

Lemma guarded_clearTimeout id : guarded I P (clearTimeout id).
Proof. intros w Hw. split; [exact Hw | reflexivity]. Qed.

Lemma guarded_elapse ms : guarded I P (elapse ms).
Proof. intros w Hw. split; [exact Hw | reflexivity]. Qed.

End Guarded.

Lemma noProcessData_insert s a agent :
  noProcessData s -> currentProcessData agent = None ->
  noProcessData (setAgents (fun m => <[a := agent]> m) s).
Proof.
  intros Hs Hagent b agent'. cbn. destruct (decide (a = b)) as [<- | Hne].
  - rewrite lookup_insert_eq. intros E. injection E as <-. exact Hagent.
  - rewrite lookup_insert_ne by exact Hne. apply Hs.
Qed.

Lemma noProcessData_same_agents s s' :
  agents s' = agents s -> noProcessData s -> noProcessData s'.
Proof. unfold noProcessData. intros ->. tauto. Qed.

(** Decomposes a handler body; state updates that leave [agents] alone are
    closed on the spot. *)
Ltac guard_step :=
  first
    [ apply guarded_emit; reflexivity
    | apply guarded_getW
    | apply guarded_ret
    | apply guarded_skip
    | apply guarded_modifyUsage
    | apply guarded_modifyShutdownTimers
    | apply guarded_setTimeout
    | apply guarded_clearTimeout
    | apply guarded_elapse
    | apply guarded_modifyState; intros ? ?;
      apply (noProcessData_same_agents _ _ eq_refl); assumption
    | apply guarded_when
    | apply guarded_forEach; intros ?
    | progress cbv zeta
    | match goal with
      | |- guarded _ _ (match ?x with _ => _ end) => destruct x
      | |- guarded _ _ (if ?x then _ else _) => destruct x
      end
    | apply guarded_bind; [|intros ?] ].

Ltac guard_body := repeat guard_step.

Lemma guarded_enforceLogout ctx a c reason :
  guarded noProcessData isInternetEnforcement (enforceLogout ctx a c reason).
Proof.
  unfold enforceLogout, logViolation, logActivity, toRenderer, triggerAction,
    configurationUpdate.
  guard_body.
Qed.

Lemma guarded_checkBedtime ctx a c :
  guarded noProcessData isInternetEnforcement (checkBedtime ctx a c).
Proof.
  unfold checkBedtime.
  apply guarded_bind; [apply guarded_getW | intros w].
  destruct (children (state w) !! c) as [childConfig|]; [|apply guarded_skip].
  destruct (bedtime childConfig) as [rules|]; [|apply guarded_skip].
  destruct (negb (bt_enabled rules)); [apply guarded_skip|]. cbv zeta.
  destruct (negb (arrayIncludes _ _)); [apply guarded_skip|].
  destruct (Qle_bool _ 0); [apply guarded_enforceLogout|].
  destruct (Qle_bool _ 15); [|apply guarded_skip].
  unfold toRenderer, triggerAction. guard_body.
Qed.

Lemma guarded_scheduleShutdown a c remaining :
  guarded noProcessData isInternetEnforcement (scheduleShutdown a c remaining).
Proof. unfold scheduleShutdown, scheduleWarnings. guard_body. Qed.

Lemma not_the_internet_warning s :
  String.eqb (s ++ " minutes remaining") "Internet Time Exhausted" = false.
Proof.
  apply String.eqb_neq. intros E.
  do 23 (destruct s as [|? s]; [cbn in E; discriminate E | injection E as _ E]).
  destruct s; discriminate E.
Qed.

Lemma guarded_showTimeWarning ctx a ty minutes :
  guarded noProcessData isInternetEnforcement (showTimeWarning ctx a ty minutes).
Proof.
  unfold showTimeWarning, toRenderer, triggerAction.
  apply guarded_bind; [apply guarded_getW | intros w].
  destruct (agents (state w) !! a); [|apply guarded_skip].
  apply guarded_bind; [|intros _; guard_body].
  apply guarded_emit. unfold timeWarningArgs. cbn [isInternetEnforcement].
  apply not_the_internet_warning.
Qed.

(** With no process data recorded the evaluation does not ask for the
    internet verdict, so [blockBrowsers] is not reached. *)
Lemma guarded_checkQuotasAndEnforce ctx a c sd :
  guarded noProcessData isInternetEnforcement (checkQuotasAndEnforce ctx a c sd).
Proof.
  unfold checkQuotasAndEnforce.
  destruct (allow2Client ctx) as [checkActivity|]; [|apply guarded_skip].
  apply guarded_bind_getW. intros w Hw.
  destruct (agents (state w) !! a) as [agent|] eqn:Hagent; [|apply guarded_skip].
  assert (Hnone : agentBrowsers agent = [])
    by (unfold agentBrowsers; rewrite (Hw a agent Hagent); reflexivity).
  rewrite Hnone. cbn [length Nat.eqb negb].
  assert (Hafter : guarded noProcessData isInternetEnforcement
                     (afterComputerCheck ctx a c NoResult)).
  { unfold afterComputerCheck. cbn [internetBlocked when].
    apply guarded_bind; [apply guarded_skip | intros _; apply guarded_checkBedtime]. }
  destruct (checkActivity c computer a) as [| |v].
  - apply guarded_skip.
  - apply Hafter.
  - destruct (verdictBlocks v); [apply guarded_enforceLogout|]. cbv zeta.
    apply guarded_bind.
    + unfold thresholdWarnings. apply guarded_forEach. intros t.
      apply guarded_when, guarded_showTimeWarning.
    + intros _. destruct (remaining_seconds v <=? 0); [apply guarded_enforceLogout|].
      apply guarded_bind; [apply guarded_scheduleShutdown | intros _; apply Hafter].
Qed.

Lemma guarded_handleSessionData ctx a data :
  guarded noProcessData isInternetEnforcement (handleSessionData ctx a data).
Proof.
  unfold handleSessionData. apply guarded_bind_getW. intros w Hw.
  destruct (agents (state w) !! a) as [agent|] eqn:Hagent; [|apply guarded_skip].
  pose proof (Hw a agent Hagent) as Hnone.
  assert (Hnotify : guarded noProcessData isInternetEnforcement
            (toRenderer ctx "osSessionUpdate" (SessionUpdate a data) >>
             configurationUpdate)).
  { unfold toRenderer, configurationUpdate. guard_body. }
  apply guarded_bind.
  { apply guarded_modifyState. intros s Hs.
    apply noProcessData_insert; [exact Hs | exact Hnone]. }
  intros _. cbv zeta.
  destruct (truthy _) as [child|]; [|apply Hnotify].
  apply guarded_bind.
  { apply guarded_modifyState. intros s Hs.
    apply noProcessData_insert; [exact Hs | exact Hnone]. }
  intros _. destruct (arrayIncludes _ _); [apply guarded_skip|].
  apply guarded_bind; [unfold updateUsageTracking; guard_body | intros _].
  apply guarded_bind; [apply guarded_checkQuotasAndEnforce | intros _; apply Hnotify].
Qed.

Lemma guarded_handleProcessData ctx a data :
  guarded noProcessData isInternetEnforcement (handleProcessData ctx a data).
Proof.
  unfold handleProcessData, checkProcess, onBlockedProcess, logViolation,
    logActivity, toRenderer, triggerAction, configurationUpdate,
    updateUsageTracking.
  guard_body.
Qed.

Lemma guarded_linkAgent a c :
  guarded noProcessData isInternetEnforcement (linkAgent a c).
Proof.
  unfold linkAgent, configurationUpdate.
  apply guarded_bind; [|intros _; guard_body].
  apply guarded_modifyState. intros s Hs. apply noProcessData_insert; [exact Hs|].
  destruct (agents s !! a) as [agent|] eqn:E; cbn; [exact (Hs a agent E) | reflexivity].
Qed.

Lemma guarded_unlinkAgent a :
  guarded noProcessData isInternetEnforcement (unlinkAgent a).
Proof.
  unfold unlinkAgent, configurationUpdate.
  apply guarded_bind; [|intros _; guard_body].
  apply guarded_modifyState. intros s Hs.
  destruct (agents s !! a) as [agent|] eqn:E.
  - pose proof (noProcessData_insert s a (agentBind None false agent) Hs (Hs a agent E))
      as H. unfold setAgents in H |- *. rewrite E. exact H.
  - unfold setAgents. rewrite E. destruct s; exact Hs.
Qed.

Lemma guarded_handle ce :
  guarded noProcessData isInternetEnforcement (handle ce).
Proof.
  destruct ce as [ctx ev]. unfold handle. cbn [fst snd]. destruct ev.
  - apply guarded_handleSessionData.
  - apply guarded_handleProcessData.
  - apply guarded_bind; [apply guarded_getW | intros w].
    destruct (isDue id w); [|apply guarded_skip].
    unfold fireTimer. apply guarded_bind; [apply guarded_getW | intros w1].
    destruct (List.find _ _) as [t|]; [|apply guarded_skip].
    apply guarded_bind; [apply guarded_clearTimeout | intros _].
    destruct (t_task t) as [b minutes | b child | b reason | b user reason];
      cbn [runTask].
    + apply guarded_showTimeWarning.
    + apply guarded_enforceLogout.
    + unfold triggerAction. guard_body.
    + unfold triggerAction. guard_body.
  - apply guarded_unlinkAgent.
  - apply guarded_linkAgent.
  - unfold forceLogout. apply guarded_bind; [apply guarded_getW | intros w].
    destruct (agents (state w) !! agentId); [apply guarded_enforceLogout|].
    apply guarded_skip.
  - apply guarded_elapse.
Qed.

Lemma guarded_react i :
  guarded noProcessData isInternetEnforcement (react i).
Proof.
  destruct i as [ce | c | ctx r | ctx keys child]; cbn [react].
  - apply guarded_handle.
  - destruct c; cbn [command];
      unfold setUserMapping, setParentAccounts, updateChildSettings,
        clearViolations, lockSession, triggerAction, configurationUpdate;
      guard_body.
  - unfold onActionResponse, logViolation, logActivity, toRenderer,
      configurationUpdate.
    guard_body.
  - unfold handleAllow2StateChange. apply guarded_forEach. intros a.
    apply guarded_bind; [apply guarded_getW | intros w].
    destruct (agents (state w) !! a) as [agentData|]; [|apply guarded_skip].
    destruct (bool_decide _); [apply guarded_checkQuotasAndEnforce|].
    apply guarded_skip.
Qed.

(** [currentProcessData] is read by the quota evaluation and by
    [blockBrowsers] but written by no handler: from a state in which no agent
    has process data recorded (the state of a first start, and every agent
    just deployed), whatever telemetry, timers, renderer commands, action
    responses and Allow2 state changes follow, none is recorded, and the
    plugin sends neither a browser kill nor the warning that internet time
    is exhausted. *)
Theorem process_data_is_never_recorded inputs w :
  noProcessData (state w) ->
  noProcessData (state (exec (replay inputs) w))
  /\ List.filter isInternetEnforcement (outputs (replay inputs) w) = [].
Proof.
  revert w. change (guarded noProcessData isInternetEnforcement (replay inputs)).
  apply guarded_forEach, guarded_react.
Qed.

Lemma process_data_is_never_recorded_witness :
  noProcessData (state (exec (replay [FromLoop (Fleet.withBan, SessionTelemetry "A1" Fleet.kid)]) Fleet.w0))
  /\ List.filter isInternetEnforcement
       (outputs (replay [FromLoop (Fleet.withBan, SessionTelemetry "A1" Fleet.kid)])
          Fleet.w0) = [].
Proof.
  apply (process_data_is_never_recorded
           [FromLoop (Fleet.withBan, SessionTelemetry "A1" Fleet.kid)] Fleet.w0).
  intros a agent Hagent.
  change (agents (state Fleet.w0)) with ({["A1" := Fleet.agentA1]} : gmap string Agent)
    in Hagent.
  apply lookup_singleton_Some in Hagent as [_ <-].
  reflexivity.
Defined.

(** ** Oracle authority *)






(** ** Child settings *)






(** ** One shutdown timer per agent, whatever reaches the plugin *)

(** Along every replay of telemetry, timers, renderer commands, action
    responses and Allow2 state changes from a well-formed world, at most one
    timer of [scheduleShutdown] is armed per agent, and an armed one is the
    timer whose handle [shutdownTimers] keeps for the agent. *)
Theorem replay_keeps_one_shutdown_timer inputs w a :
  timersWell w ->
  let w' := exec (replay inputs) w in
  (length (List.filter (isShutdownTimerOf a) (timers w')) <= 1)%nat
  /\ forall t, List.In t (timers w') -> isShutdownTimerOf a t = true ->
       shutdownTimers w' !! a = Some (t_id t).
Proof.
  intros Hw w'. destruct (timersWell_replay inputs w Hw) as [[[_ Hnd] Hreg] _].
  fold w' in Hnd, Hreg.
  assert (Htable : forall t, List.In t (timers w') -> isShutdownTimerOf a t = true ->
                     shutdownTimers w' !! a = Some (t_id t)).
  { intros t Ht Pt. unfold isShutdownTimerOf in Pt.
    destruct (t_task t) as [| a1 c1 | |] eqn:Et; try discriminate Pt.
    apply String.eqb_eq in Pt. subst a1. exact (Hreg t a c1 Ht Et). }
  split; [|exact Htable].
  apply same_handle_at_most_one; [exact Hnd|].
  intros x y Hx Hy Px Py.
  pose proof (Htable x Hx Px) as H1. pose proof (Htable y Hy Py) as H2. congruence.
Qed.

Lemma timersWell_initial : timersWell Fleet.w0.
Proof.
  split; [apply timersOk_initial|].
  intros a h Hh. cbn in Hh. rewrite lookup_empty in Hh. discriminate Hh.
Qed.

(** Two session reports with 900 s and then 870 s remaining: the second
    clears the shutdown timer of the first and arms its own. *)
Lemma replay_keeps_one_shutdown_timer_witness :
  List.filter (isShutdownTimerOf "A1")
    (timers (exec (replay (List.map FromLoop Replay.nearFifteen)) Fleet.w0))
  = [ {| t_id := 5; t_due := Fleet.monday + 30000 + 870 * 1000;
         t_task := ShutdownTask "A1" "C" |} ]
  /\ ((length (List.filter (isShutdownTimerOf "A1")
                 (timers (exec (replay (List.map FromLoop Replay.nearFifteen))
                            Fleet.w0))) <= 1)%nat
      /\ forall t,
           List.In t (timers (exec (replay (List.map FromLoop Replay.nearFifteen))
                                Fleet.w0)) ->
           isShutdownTimerOf "A1" t = true ->
           shutdownTimers (exec (replay (List.map FromLoop Replay.nearFifteen))
                             Fleet.w0) !! "A1" = Some (t_id t)).
Proof.
  split; [vm_compute; reflexivity|].
  apply (replay_keeps_one_shutdown_timer (List.map FromLoop Replay.nearFifteen)
           Fleet.w0 "A1").
  apply timersWell_initial.
Defined.

(** ** Blocked processes and the kill switch *)






(** *** A service that resolves every dispatch *)




(** *** The setting off: no kill is dispatched, whatever the service does *)









(** *** The setting on and a service that rejects the kill *)








(** ** A logout pending across a redeployment *)

Lemma find_orphaned replaced old id (l : list Timer) :
  List.find (fun t => Nat.eqb (t_id t) id) (List.map (orphaned replaced old) l)
  = option_map (orphaned replaced old)
      (List.find (fun t => Nat.eqb (t_id t) id) l).
Proof.
  induction l as [|t l IH]; [reflexivity|].
  cbn [List.map List.find]. rewrite orphaned_handle.
  destruct (Nat.eqb (t_id t) id); [reflexivity | exact IH].
Qed.

(** The grace-period closure of [enforceLogout] reads the session from the
    agent object it captured. A logout that is pending when the agent is
    deployed again therefore names, when it fires, the user of the session
    that was recorded before the deployment, although the agent's new entry
    has no session recorded. *)
Theorem logout_after_redeploy_names_old_session
  ctx svc agent w id due reason :
  (forall c, List.In c (deployment (monitorInterval (settings (state w))) (ra_id agent)) ->
             accepts svc c = true) ->
  List.find (fun t => Nat.eqb (t_id t) id) (timers w)
  = Some {| t_id := id; t_due := due; t_task := LogoutTask (ra_id agent) reason |} ->
  let w' := fst (deployToAgent svc agent w) in
  outputs (fireTimer ctx id) w'
  = [ TriggerAction (ra_id agent) "logout-user"
        (LogoutArgs (sessionUser (agents (state w) !! ra_id agent)) reason) ]
  /\ (currentSession <$> agents (state w') !! ra_id agent) = Some None
  /\ outputs (fireTimer ctx id) w
     = [ TriggerAction (ra_id agent) "logout-user"
           (LogoutArgs (sessionUser (agents (state w) !! ra_id agent)) reason) ].
Proof.
  intros Hall Hfind w'. subst w'. unfold deployToAgent.
  rewrite (issue_all _ _ Hall). cbn [fst].
  split; [|split].
  - unfold fireTimer. rewrite outputs_bind_getW.
    cbn [replacingAgents timers]. rewrite find_orphaned, Hfind.
    cbn [option_map]. unfold orphaned at 1. cbn [t_task t_id t_due].
    rewrite String.eqb_refl. cbn [t_task]. reflexivity.
  - cbn [replacingAgents state setAgents agents]. rewrite lookup_insert_eq.
    reflexivity.
  - unfold fireTimer. rewrite outputs_bind_getW, Hfind. cbn [t_task].
    rewrite outputs_bind. cbn [runTask]. rewrite outputs_bind_getW.
    unfold sessionUser. cbn.
    destruct (agents (state w) !! ra_id agent); reflexivity.
Qed.

(** [kid] is banned on [A1]; the agent is deployed again during the grace
    period. *)
Lemma logout_after_redeploy_names_old_session_witness :
  outputs (fireTimer Fleet.withBan 0)
    (fst (deployToAgent
            {| listAgents := inr []; accepts := fun _ => true |}
            {| ra_id := "A1"; ra_hostname := "kid-pc"; ra_platform := "linux";
               ra_online := true |}
            (exec (handle (Fleet.withBan, SessionTelemetry "A1" Fleet.kid))
                  Fleet.w0)))
  = [ TriggerAction "A1" "logout-user"
        (LogoutArgs (Some "kid") "Computer access blocked") ].
Proof.
  apply (logout_after_redeploy_names_old_session Fleet.withBan
           {| listAgents := inr []; accepts := fun _ => true |}
           {| ra_id := "A1"; ra_hostname := "kid-pc"; ra_platform := "linux";
              ra_online := true |}
           (exec (handle (Fleet.withBan, SessionTelemetry "A1" Fleet.kid)) Fleet.w0)
           0%nat (Fleet.monday + 60000) "Computer access blocked").
  - intros c _. reflexivity.
  - vm_compute. reflexivity.
Defined.
